(** * The ZeroMQ runner/worker interface of profit (profit/run/zeromq.py)

    A shallow embedding of [ZeroMQRunnerInterface.handle_msg] (the
    coordinator side) and of [ZeroMQWorkerInterface.request] (the worker side,
    the "lazy pirate" request loop), with the Python and numpy operations they
    rely on written out: slicing of byte strings, [int()] on a byte string,
    indexing of a numpy array with a possibly negative index, [np.frombuffer].

    Byte strings are Rocq strings, Python integers are [Z], numpy columns are
    lists.  Python code that raises is a computation in the monad [Py]: state
    passing with a result that is a value or an exception, and with the list
    of what the sockets and the logger were asked to do on the way.  The
    state and that list are kept when an exception is raised, as an exception
    does not undo what was written or sent before it. *)

From Stdlib Require Import ZArith Lia Bool Ascii String.
From stdpp Require Import base list.

Local Open Scope string_scope.
Local Open Scope Z_scope.

(** ** Byte strings *)

Abbreviation bytes := string (only parsing).

Module Bytes.

(** [b[:n]] for [0 <= n] *)
Fixpoint take (n : nat) (b : bytes) : bytes :=
  match n, b with
  | S n', String c b' => String c (take n' b')
  | _, _ => EmptyString
  end.

(** [b[n:]] for [0 <= n] *)
Fixpoint drop (n : nat) (b : bytes) : bytes :=
  match n, b with
  | S n', String _ b' => drop n' b'
  | _, _ => b
  end.

(** [count] items of [sz] bytes each, cut from the front of [b] *)
Fixpoint split_items (count sz : nat) (b : bytes) : list bytes :=
  match count with
  | O => []
  | S count' => take sz b :: split_items count' sz (drop sz b)
  end.

(** an unsigned integer from its bytes, least significant first *)
Fixpoint le_uint (b : bytes) : Z :=
  match b with
  | EmptyString => 0
  | String c b' => Z.of_nat (nat_of_ascii c) + 256 * le_uint b'
  end.

(** the [n] bytes of [z mod 2^(8n)], least significant first *)
Fixpoint le_bytes (n : nat) (z : Z) : bytes :=
  match n with
  | O => EmptyString
  | S n' => String (ascii_of_nat (Z.to_nat (z mod 256))) (le_bytes n' (z / 256))
  end.

(** [n] zero bytes *)
Fixpoint zeros (n : nat) : bytes :=
  match n with
  | O => EmptyString
  | S n' => String zero (zeros n')
  end.

End Bytes.

(** ** Python's [int(b)] for a byte string [b], and [str(z)]

    CPython's [PyLong_FromString] with base 10, as [_PyLong_FromBytes] calls
    it: leading white space, an optional sign, decimal digits with single
    underscores between them, trailing white space, and nothing else.  Every
    failure is a [ValueError], here [None]. *)

Module PyInt.

(** [Py_ISSPACE]: tab, line feed, vertical tab, form feed, carriage
    return, space *)
Definition Py_ISSPACE (c : ascii) : bool :=
  let n := nat_of_ascii c in
  (Nat.leb 9 n && Nat.leb n 13) || Nat.eqb n 32.

(** the value of a decimal digit *)
Definition digit_value (c : ascii) : option Z :=
  let n := Z.of_nat (nat_of_ascii c) in
  if (48 <=? n) && (n <=? 57) then Some (n - 48) else None.

Fixpoint skip_spaces (s : bytes) : bytes :=
  match s with
  | String c s' => if Py_ISSPACE c then skip_spaces s' else s
  | EmptyString => s
  end.

(** The scan over digits and underscores: [prev_us] says that the previous
    character was an underscore, [acc] is the value read so far and [nd]
    the number of digits.  Two underscores in a row and a trailing
    underscore are errors.  Returns the value, the digit count and the
    unread rest. *)
Fixpoint scan_digits (prev_us : bool) (acc : Z) (nd : nat) (s : bytes)
  : option (Z * nat * bytes) :=
  match s with
  | String c s' =>
      if Ascii.eqb c "_" then
        if prev_us then None else scan_digits true acc nd s'
      else
        match digit_value c with
        | Some d => scan_digits false (acc * 10 + d) (S nd) s'
        | None => if prev_us then None else Some (acc, nd, s)
        end
  | EmptyString => if prev_us then None else Some (acc, nd, s)
  end.

(** [_PY_LONG_MAX_STR_DIGITS_THRESHOLD] *)
Definition MAX_STR_DIGITS_THRESHOLD : nat := 640.

(** The limit on the number of digits of recent interpreters
    ([sys.get_int_max_str_digits()], 4300 unless configured, 0 for none):
    it applies above the threshold only. *)
Definition over_digit_limit (int_max_str_digits nd : nat) : bool :=
  Nat.ltb MAX_STR_DIGITS_THRESHOLD nd
  && Nat.ltb 0 int_max_str_digits && Nat.ltb int_max_str_digits nd.

Definition int_of_bytes (int_max_str_digits : nat) (b : bytes) : option Z :=
  let s := skip_spaces b in
  let '(sign, s) :=
    match s with
    | String c s' =>
        if Ascii.eqb c "+" then (1, s')
        else if Ascii.eqb c "-" then (-1, s')
        else (1, s)
    | EmptyString => (1, s)
    end in
  match s with
  | String c _ =>
      if Ascii.eqb c "_" then None
      else
        match scan_digits false 0 0 s with
        | None => None
        | Some (v, nd, rest) =>
            if over_digit_limit int_max_str_digits nd then None
            else if Nat.eqb nd 0 then None
            else
              match skip_spaces rest with
              | EmptyString => Some (sign * v)
              | String _ _ => None
              end
        end
  | EmptyString => None
  end.

Definition digit_char (d : Z) : ascii := ascii_of_nat (48 + Z.to_nat d).

Fixpoint digits_fuel (fuel : nat) (n : Z) (acc : bytes) : bytes :=
  match fuel with
  | O => acc
  | S fuel' =>
      let acc' := String (digit_char (n mod 10)) acc in
      if n <? 10 then acc' else digits_fuel fuel' (n / 10) acc'
  end.

(** the decimal digits of [n >= 0]; [Z.log2 n + 1] bounds their number *)
Definition digits (n : Z) : bytes :=
  digits_fuel (S (Z.to_nat (Z.log2 n))) n EmptyString.

(** [str(z)], which is also what [f"{z}"] gives *)
Definition str_of_int (z : Z) : bytes :=
  if z <? 0 then String "-" (digits (- z)) else digits z.

End PyInt.

(** ** Exceptions, and computations that may raise *)

Inductive exn : Set :=
| ValueError | IndexError | KeyError | TypeError | AssertionError
| ConnectionError | OverflowError.

Inductive result (A : Type) : Type :=
| Ok (a : A)
| Raise (e : exn).
Arguments Ok {A} a.
Arguments Raise {A} e.

(** ** What the logger and the sockets are asked to do *)

Inductive level : Set := DEBUG | INFO | WARNING | ERROR.

Inductive event : Type :=
| Log (l : level)                 (* a record handed to [self.logger] *)
| Send (frames : list bytes)      (* [socket.send_multipart] *)
| Connect                         (* a new socket, identified and connected *)
| Close                           (* [socket.close] *)
| Sleep.                          (* [sleep(self.retry_sleep)] *)

(** ** The monad *)

Definition Py (S A : Type) : Type := S -> result A * S * list event.

Definition ret {S A} (a : A) : Py S A := fun s => (Ok a, s, []).

Definition bind {S A B} (c : Py S A) (k : A -> Py S B) : Py S B :=
  fun s =>
    match c s with
    | (Ok a, s', t) => let '(r, s'', t') := k a s' in (r, s'', (t ++ t')%list)
    | (Raise e, s', t) => (Raise e, s', t)
    end.

Definition raise {S A} (e : exn) : Py S A := fun s => (Raise e, s, []).

Definition get {S} : Py S S := fun s => (Ok s, s, []).

Definition modify {S} (f : S -> S) : Py S unit := fun s => (Ok tt, f s, []).

Definition emit {S} (e : event) : Py S unit := fun s => (Ok tt, s, [e]).

(** a value or an exception that was computed without the state *)
Definition lift {S A} (r : result A) : Py S A := fun s => (r, s, []).

(** [try: c except (ValueError, AssertionError): ...]: [None] when one of the
    two was caught *)
Definition try_malformed {S A} (c : Py S A) : Py S (option A) :=
  fun s =>
    match c s with
    | (Ok a, s', t) => (Ok (Some a), s', t)
    | (Raise ValueError, s', t) | (Raise AssertionError, s', t) =>
        (Ok None, s', t)
    | (Raise e, s', t) => (Raise e, s', t)
    end.

Declare Scope py_scope.
Delimit Scope py_scope with py.
Notation "'let*' x := c 'in' k" := (bind c (fun x => k))
  (at level 10, x name, c at level 100, k at level 200) : py_scope.
Notation "c ;;; k" := (bind c (fun _ => k))
  (at level 100, k at level 200, right associativity) : py_scope.

(** the items of a list comprehension, in order; the first exception ends it *)
Fixpoint comprehension {S A B} (f : A -> Py S B) (l : list A) : Py S (list B) :=
  match l with
  | [] => ret []
  | x :: l' =>
      (let* y := f x in
       let* ys := comprehension f l' in
       ret (y :: ys))%py
  end.

(** ** Indexing *)

(** [l[k]] for a Python list and an index written as a literal [k >= 0] *)
Definition list_getitem {A} (l : list A) (k : nat) : result A :=
  match l !! k with
  | Some x => Ok x
  | None => Raise IndexError
  end.

(** The position a numpy array of length [n] gives to the index [i]:
    [i] itself in [0, n), [n + i] for [i] in [-n, 0), none everywhere
    else. *)
Definition np_index (n : nat) (i : Z) : option nat :=
  if (0 <=? i) && (i <? Z.of_nat n) then Some (Z.to_nat i)
  else if (- Z.of_nat n <=? i) && (i <? 0) then Some (Z.to_nat (Z.of_nat n + i))
  else None.

(** The exception of an index [i] that has no position.  An integer that
    does not fit an [intp] is made an array: in [2^63, 2^64) that is an
    array of [uint64], whose conversion to an index is an [OverflowError];
    beyond, it is an array of objects, which is no index, an [IndexError]
    like that of an [intp] out of bounds. *)
Definition index_error (i : Z) : exn :=
  if (2 ^ 63 <=? i) && (i <? 2 ^ 64) then OverflowError else IndexError.
Arguments index_error : simpl never.

(** [a[i]] *)
Definition np_getitem {A} (a : list A) (i : Z) : result A :=
  match np_index (length a) i with
  | Some k => list_getitem a k
  | None => Raise (index_error i)
  end.

(** [a[i] = x] for a scalar [x] *)
Definition np_setitem {A} (a : list A) (i : Z) (x : A) : result (list A) :=
  match np_index (length a) i with
  | Some k => Ok (<[k:=x]> a)
  | None => Raise (index_error i)
  end.

(** [a[i] = arr] for an array [arr]: the index is checked first, then the
    array has to hold exactly one item ("setting an array element with a
    sequence" is a [ValueError]), which is converted to the type of the
    column *)
Definition np_setitem_array {A B} (conv : B -> A) (a : list A) (i : Z)
  (arr : list B) : result (list A) :=
  match np_index (length a) i with
  | Some k =>
      match arr with
      | [x] => Ok (<[k:=conv x]> a)
      | _ => Raise ValueError
      end
  | None => Raise (index_error i)
  end.

(** [np.frombuffer(b, dtype)] for a dtype of [sz] bytes per item: an item
    size of zero and a buffer that is not a whole number of items are
    [ValueError]s; the items are the consecutive slices of the buffer. *)
Definition np_frombuffer (sz : nat) (b : bytes) : result (list bytes) :=
  if Nat.eqb sz 0 then Raise ValueError
  else if Nat.eqb (String.length b mod sz) 0
       then Ok (Bytes.split_items (String.length b / sz) sz b)
       else Raise ValueError.

(** the size of [np.uint], a C unsigned long, on a 64-bit Unix *)
Definition uint_itemsize : nat := 8.

(** the identity that [ZeroMQWorkerInterface.connect] gives to the socket of
    the worker of a run, [f"req_{self.run_id}".encode()]: the address under
    which the coordinator hears from it *)
Definition identity (run_id : Z) : bytes := "req_" ++ PyInt.str_of_int run_id.

(** ** The coordinator: [ZeroMQRunnerInterface] *)

Module Runner.

Section Runner.

(** The lists [self.input_vars] and [self.output_vars] are handed to
    [json.dumps] and to numpy, and never looked into: their type, the text
    [json.dumps(vars).encode()] and the size [np.dtype(vars).itemsize] of one
    record are taken as given. *)
Variable schema : Type.
Variable json_dumps : schema -> bytes.
Variable itemsize : schema -> nat.

(** the interpreter's limit on the digits [int()] reads *)
Variable int_max_str_digits : nat.

(** Modelled from the spec: the attributes that the base class
    [RunnerInterface] (module [profit.run.interface], which is not part of the
    sources at hand) gives to a runner, the RunTable of the spec: one input
    record and one output record per run, and the columns [DONE], [TIME] and
    [FLAGS] of [self.internal].  A record is the bytes that numpy keeps for
    it, a [FLAGS] entry is an [np.byte], a [TIME] entry is the unsigned
    integer that was reported, as [np.frombuffer] reads it from the message
    (a column of fewer bits than the message has keeps the low bits of it:
    from 2^32 on, for a column of 32 bits). *)
Record runner : Type := {
  input_vars : schema;
  output_vars : schema;
  input : list bytes;
  output : list bytes;
  DONE : list bool;
  TIME : list Z;
  FLAGS : list Z
}.

Definition with_output (o : list bytes) (self : runner) : runner :=
  {| input_vars := input_vars self; output_vars := output_vars self;
     input := input self; output := o; DONE := DONE self;
     TIME := TIME self; FLAGS := FLAGS self |}.

Definition with_DONE (d : list bool) (self : runner) : runner :=
  {| input_vars := input_vars self; output_vars := output_vars self;
     input := input self; output := output self; DONE := d;
     TIME := TIME self; FLAGS := FLAGS self |}.

Definition with_TIME (t : list Z) (self : runner) : runner :=
  {| input_vars := input_vars self; output_vars := output_vars self;
     input := input self; output := output self; DONE := DONE self;
     TIME := t; FLAGS := FLAGS self |}.

Definition with_FLAGS (f : list Z) (self : runner) : runner :=
  {| input_vars := input_vars self; output_vars := output_vars self;
     input := input self; output := output self; DONE := DONE self;
     TIME := TIME self; FLAGS := f |}.

Local Open Scope py_scope.

(** [self.internal["FLAGS"][run_id] |= bit]: the entry is read, or-ed with
    the bit and written back.  On an [np.byte] in [-128, 127] the bitwise or
    with 2, 4 or 8 stays in that range, so nothing wraps. *)
Definition flags_ior (run_id : Z) (bit : Z) : Py runner unit :=
  let* self := get in
  let* old := lift (np_getitem (FLAGS self) run_id) in
  let* new := lift (np_setitem (FLAGS self) run_id (Z.lor old bit)) in
  modify (with_FLAGS new).

(** [ZeroMQRunnerInterface.handle_msg].  The f-strings of the log records are
    evaluated whatever the level of the logger is: the one of the first
    record reads [msg[0]] (the comparisons with the verbs read it again),
    the one of the READY branch reads [self.input[run_id]] (as the list of
    frames does after it), the one of the DATA branch calls [np.frombuffer]
    a second time.  What is read twice is bound once here. *)
Definition handle_msg (address : bytes) (msg : list bytes) : Py runner unit :=
  if String.eqb (Bytes.take 4 address) "req_" then
    let* run_id :=
      match PyInt.int_of_bytes int_max_str_digits (Bytes.drop 4 address) with
      | Some z => ret z
      | None => raise ValueError
      end in
    let* verb := lift (list_getitem msg 0) in
    emit (Log DEBUG) ;;;
    if String.eqb verb "READY" then
      let* self := get in
      let input_descr := json_dumps (input_vars self) in
      let output_descr := json_dumps (output_vars self) in
      let* record := lift (np_getitem (input self) run_id) in
      emit (Log DEBUG) ;;;
      emit (Send [address; ""; input_descr; record; output_descr]) ;;;
      flags_ior run_id 2
    else if String.eqb verb "DATA" then
      let* self := get in
      let* payload := lift (list_getitem msg 1) in
      let* arr := lift (np_frombuffer (itemsize (output_vars self)) payload) in
      let* out := lift (np_setitem_array id (output self) run_id arr) in
      modify (with_output out) ;;;
      emit (Log DEBUG) ;;;
      let* self := get in
      let* done := lift (np_setitem (DONE self) run_id true) in
      modify (with_DONE done) ;;;
      flags_ior run_id 8 ;;;
      emit (Log DEBUG) ;;;
      emit (Send [address; ""; "ACK"])
    else if String.eqb verb "TIME" then
      let* self := get in
      let* payload := lift (list_getitem msg 1) in
      let* arr := lift (np_frombuffer uint_itemsize payload) in
      let* time :=
        lift (np_setitem_array Bytes.le_uint (TIME self) run_id arr) in
      modify (with_TIME time) ;;;
      emit (Log DEBUG) ;;;
      emit (Send [address; ""; "ACK"])
    else if String.eqb verb "DIE" then
      flags_ior run_id 4 ;;;
      emit (Log DEBUG) ;;;
      emit (Send [address; ""; "ACK"])
    else
      emit (Log WARNING)
  else
    emit (Log WARNING).

(** [ZeroMQRunnerInterface.poll], over the messages that the socket holds
    when it is called: [socket.poll] is true as long as one is left, and
    [recv_multipart] takes the first.  A message of a ROUTER socket is the
    address of the peer, the empty delimiter and the frames that the peer
    sent; [msg[2:]] is [skipn 2]. *)
Fixpoint poll_loop (queue : list (list bytes)) : Py runner unit :=
  match queue with
  | [] => ret tt
  | msg :: queue' =>
      let* address := lift (list_getitem msg 0) in
      handle_msg address (List.skipn 2 msg) ;;;
      poll_loop queue'
  end.

Definition poll (queue : list (list bytes)) : Py runner unit :=
  emit (Log DEBUG) ;;;
  poll_loop queue.

End Runner.

Arguments input_vars {schema} _.
Arguments output_vars {schema} _.
Arguments input {schema} _.
Arguments output {schema} _.
Arguments DONE {schema} _.
Arguments TIME {schema} _.
Arguments FLAGS {schema} _.
Arguments with_output {schema} _ _.
Arguments with_DONE {schema} _ _.
Arguments with_TIME {schema} _ _.
Arguments with_FLAGS {schema} _ _.
Arguments flags_ior {schema} _ _ _.
Arguments handle_msg {schema} _ _ _ _ _ _.
Arguments poll_loop {schema} _ _ _ _ _.
Arguments poll {schema} _ _ _ _ _.

End Runner.

(** ** Python values, as far as [json.loads] gives them *)

Module PyVal.

(** A Python [str] is its code points.  A [float] is kept as the text it was
    read from. *)
#[local] Unset Elimination Schemes.
Inductive pyval : Type :=
| PyNone
| PyBool (b : bool)
| PyInt (z : Z)
| PyFloat (text : bytes)
| PyStr (s : list N)
| PyList (l : list pyval)
| PyTuple (l : list pyval)
| PyDict (items : list (list N * pyval)).
#[local] Set Elimination Schemes.

(** the items that [for x in v] and [tuple(v)] go through *)
Definition iter (v : pyval) : result (list pyval) :=
  match v with
  | PyList l | PyTuple l => Ok l
  | PyStr s => Ok (List.map (fun c => PyStr [c]) s)
  | PyDict items => Ok (List.map (fun kv => PyStr (fst kv)) items)
  | PyNone | PyBool _ | PyInt _ | PyFloat _ => Raise TypeError
  end.

(** [tuple(v)] *)
Definition tuple (v : pyval) : result pyval :=
  match iter v with
  | Ok l => Ok (PyTuple l)
  | Raise e => Raise e
  end.

(** [v[:2]]; a dict refuses a slice as a key (with a [TypeError] up to
    Python 3.11, a [KeyError] from 3.12 on, where a slice can be hashed) *)
Definition slice_to_2 (v : pyval) : result pyval :=
  match v with
  | PyList l => Ok (PyList (List.firstn 2 l))
  | PyTuple l => Ok (PyTuple (List.firstn 2 l))
  | PyStr s => Ok (PyStr (List.firstn 2 s))
  | PyDict _ | PyNone | PyBool _ | PyInt _ | PyFloat _ => Raise TypeError
  end.

(** [v[2]]; the keys of a dict read from JSON are strings, never [2] *)
Definition getitem_2 (v : pyval) : result pyval :=
  match v with
  | PyList l | PyTuple l => list_getitem l 2
  | PyStr s =>
      match s !! 2%nat with
      | Some c => Ok (PyStr [c])
      | None => Raise IndexError
      end
  | PyDict _ => Raise KeyError
  | PyNone | PyBool _ | PyInt _ | PyFloat _ => Raise TypeError
  end.

(** [v + [x]], defined for a list [v] only *)
Definition add_list (v : pyval) (x : pyval) : result pyval :=
  match v with
  | PyList l => Ok (PyList (l ++ [x])%list)
  | _ => Raise TypeError
  end.

End PyVal.

(** ** The worker: [ZeroMQWorkerInterface] *)

Module Worker.

(** what [socket.poll] finds within the timeout: nothing, or a reply, which
    [recv_multipart] then returns (a REQ socket strips the delimiter) *)
Inductive poll_result : Type :=
| Timeout
| Reply (response : list bytes).

(** how one pass through the body of [while True] ends, when it does not
    raise *)
Inductive flow : Set :=
| Return
| Continue (tries : Z).

(** how a call of [request] stands when the replies of the script are used
    up: it has returned, it has raised, or it is still in its loop, with
    this value of [tries], waiting in [socket.poll] *)
Inductive outcome : Set :=
| Returned
| Raised (e : exn)
| Waiting (tries : Z).

Section Worker.

(** [json.loads(b.decode())]: [None] stands for the [ValueError] of a byte
    string that is not UTF-8 or not JSON ([UnicodeDecodeError] and
    [JSONDecodeError] are subclasses of it) *)
Variable json_loads : bytes -> option PyVal.pyval.

(** [np.dtype(descr).itemsize] for a list of field descriptions, or the
    exception with which numpy refuses the list *)
Variable np_dtype : list PyVal.pyval -> result nat.

(** The attributes of a worker that [request] uses.  [input] and [output]
    are the bytes of the two records, [time] is the elapsed time. *)
Record worker : Type := {
  connected : bool;
  retries : Z;
  input : bytes;
  output : bytes;
  time : Z
}.

Definition with_connected (b : bool) (self : worker) : worker :=
  {| connected := b; retries := retries self;
     input := input self; output := output self; time := time self |}.

Definition with_input (x : bytes) (self : worker) : worker :=
  {| connected := connected self; retries := retries self;
     input := x; output := output self; time := time self |}.

Definition with_output (x : bytes) (self : worker) : worker :=
  {| connected := connected self; retries := retries self;
     input := input self; output := x; time := time self |}.

Local Open Scope py_scope.

(** [connect]: a new REQ socket with the identity [req_<run_id>] is
    connected, which is logged *)
Definition connect : Py worker unit :=
  emit Connect ;;;
  emit (Log INFO) ;;;
  modify (with_connected true).

Definition disconnect : Py worker unit :=
  emit Close ;;;
  modify (with_connected false).

(** [json.loads(b.decode())] and the start of the iteration over it *)
Definition loads_columns (b : bytes) : Py worker (list PyVal.pyval) :=
  match json_loads b with
  | Some v => lift (PyVal.iter v)
  | None => raise ValueError
  end.

(** the READY branch of [request], from the unpacking of the response to
    the last log record *)
Definition receive_READY (response : list bytes) : Py worker unit :=
  match response with
  | [input_descr; input_data; output_descr] =>
      let* columns := loads_columns input_descr in
      let* input_descr :=
        comprehension (fun column => lift (PyVal.tuple column)) columns in
      let* columns := loads_columns output_descr in
      let* output_descr :=
        comprehension
          (fun column =>
             let* head := lift (PyVal.slice_to_2 column) in
             let* shape := lift (PyVal.getitem_2 column) in
             let* shape := lift (PyVal.tuple shape) in
             let* triple := lift (PyVal.add_list head shape) in
             lift (PyVal.tuple triple))
          columns in
      let* sz := lift (np_dtype input_descr) in
      let* arr := lift (np_frombuffer sz input_data) in
      let* record := lift (list_getitem arr 0) in
      modify (with_input record) ;;;
      let* sz := lift (np_dtype output_descr) in
      modify (with_output (Bytes.zeros sz)) ;;;
      emit (Log INFO) ;;;
      emit (Log DEBUG)
  | _ => raise ValueError
  end.

(** the frames of a request ([request.encode()] is the request itself for
    the three that are sent): [np.uint(self.time)] is sent as its eight
    bytes.  That is the conversion of a time in [0, 2^64); [np.uint] raises
    an [OverflowError] for an integer from 2^64 on or below -2^63, before
    anything is sent, which [le_bytes] does not follow: what is said of
    every exception of a TIME request, or of the time that arrives, is said
    of a time in range. *)
Definition message (request : bytes) (self : worker) : list bytes :=
  if String.eqb request "DATA" then [request; output self]
  else if String.eqb request "TIME"
       then [request; Bytes.le_bytes uint_itemsize (time self)]
       else [request].

(** from the top of the loop body to the call of [socket.poll] *)
Definition send_request (request : bytes) : Py worker unit :=
  let* self := get in
  emit (Send (message request self)) ;;;
  emit (Log DEBUG).

(** the body of [try], after [recv_multipart]; the [assert] is executed
    (the interpreter is not run with [-O]) *)
Definition receive (request : bytes) (response : list bytes) : Py worker unit :=
  if String.eqb request "READY" then receive_READY response
  else
    let* first := lift (list_getitem response 0) in
    if String.eqb first "ACK" then emit (Log DEBUG)
    else raise AssertionError.

(** the rest of the loop body, from the result of [socket.poll] on *)
Definition after_poll (request : bytes) (tries : Z) (p : poll_result)
  : Py worker flow :=
  let* next :=
    match p with
    | Reply response =>
        let* r := try_malformed (receive request response) in
        match r with
        | Some _ => ret Return
        | None => emit (Log DEBUG) ;;; emit (Log ERROR) ;;; ret (Continue tries)
        end
    | Timeout =>
        emit (Log WARNING) ;;;
        emit Sleep ;;;
        ret (Continue (tries + 1))
    end in
  match next with
  | Return => ret Return
  | Continue tries =>
      let* self := get in
      if retries self + 1 <=? tries then
        emit (Log ERROR) ;;;
        disconnect ;;;
        raise ConnectionError
      else
        disconnect ;;;
        connect ;;;
        ret (Continue tries)
  end.

(** one pass through the body of [while True] *)
Definition attempt (request : bytes) (tries : Z) (p : poll_result)
  : Py worker flow :=
  send_request request ;;;
  after_poll request tries p.

(** [while True]: one entry of [script] per call of [socket.poll].  When the
    script is used up the request has been sent and the worker waits. *)
Fixpoint lazy_pirate (script : list poll_result) (request : bytes) (tries : Z)
  : worker -> outcome * worker * list event :=
  match script with
  | [] =>
      fun self =>
        let '(_, self, t) := send_request request self in
        (Waiting tries, self, t)
  | p :: script' =>
      fun self =>
        match attempt request tries p self with
        | (Ok Return, self, t) => (Returned, self, t)
        | (Ok (Continue tries), self, t) =>
            let '(o, self, t') := lazy_pirate script' request tries self in
            (o, self, (t ++ t')%list)
        | (Raise e, self, t) => (Raised e, self, t)
        end
  end.

(** [ZeroMQWorkerInterface.request] *)
Definition request (script : list poll_result) (request : bytes)
  : worker -> outcome * worker * list event :=
  fun self =>
    let '(_, self, t) :=
      (if connected self then ret tt
       else emit (Log INFO) ;;; connect) self in
    if String.eqb request "READY" || String.eqb request "DATA"
       || String.eqb request "TIME"
    then
      let '(o, self, t') := lazy_pirate script request 0 self in
      (o, self, (t ++ t')%list)
    else (Raised ValueError, self, t).

End Worker.

End Worker.

(** ** The notions the properties are stated with *)

(** the bits of a [FLAGS] entry: 0x02, 0x04 and 0x08 *)
Definition ASSIGNED : Z := 2.
Definition TERMINATED : Z := 4.
Definition COMPLETED : Z := 8.

(** [flags & mask == mask] *)
Definition has_flag (mask flags : Z) : bool := Z.land flags mask =? mask.

(** the frames handed to [send_multipart], in order *)
Fixpoint sends (t : list event) : list (list bytes) :=
  match t with
  | [] => []
  | Send frames :: t' => frames :: sends t'
  | _ :: t' => sends t'
  end.

(** the number of calls of [sleep] *)
Fixpoint sleeps (t : list event) : nat :=
  match t with
  | [] => 0%nat
  | Sleep :: t' => S (sleeps t')
  | _ :: t' => sleeps t'
  end.

(** the same event with [a] as the first frame of what is sent *)
Definition readdress (a : bytes) (e : event) : event :=
  match e with
  | Send (_ :: frames) => Send (a :: frames)
  | _ => e
  end.


(** the requests that [request] accepts *)
Definition valid_request (request : bytes) : Prop :=
  request = "READY" \/ request = "DATA" \/ request = "TIME".

(** a reply to DATA or TIME whose first frame is not [ACK] *)
Definition not_ACK (p : Worker.poll_result) : Prop :=
  exists first frames, p = Worker.Reply (first :: frames) /\ first <> "ACK".

(** what [request] does first when the worker is not connected *)
Definition reconnection (connected : bool) : list event :=
  if connected then [] else [Log INFO; Connect; Log INFO].

(** what one pass through the loop of [request] does when the request
    [msg] gets no reply in time and tries are left, when it gets a reply that
    is not accepted, and when the last try gets no reply in time *)
Definition timeout_round (msg : list bytes) : list event :=
  [Send msg; Log DEBUG; Log WARNING; Sleep; Close; Connect; Log INFO].
Definition malformed_round (msg : list bytes) : list event :=
  [Send msg; Log DEBUG; Log DEBUG; Log ERROR; Close; Connect; Log INFO].
Definition last_round (msg : list bytes) : list event :=
  [Send msg; Log DEBUG; Log WARNING; Sleep; Log ERROR; Close].

(** the number of polls of a script that find no reply *)
Fixpoint timeouts (script : list Worker.poll_result) : Z :=
  match script with
  | [] => 0
  | Worker.Timeout :: script' => 1 + timeouts script'
  | Worker.Reply _ :: script' => timeouts script'
  end.

Module RunTable.
Import Runner.

Section RunTable.

Context {schema : Type}.
Variable json_dumps : schema -> bytes.
Variable itemsize : schema -> nat.
Variable int_max_str_digits : nat.

(** A table of [size] runs: every column has [size] entries, and [size] is
    a size that a numpy array can have (an [intp], 64 bits wide). *)
Definition wf (size : nat) (self : runner schema) : Prop :=
  length (input self) = size
  /\ length (output self) = size
  /\ length (DONE self) = size
  /\ length (TIME self) = size
  /\ length (FLAGS self) = size
  /\ Z.of_nat size < 2 ^ 63.

(** an address that [handle_msg] reads as the run id [i] *)
Definition reads_as (address : bytes) (i : Z) : Prop :=
  Bytes.take 4 address = "req_"
  /\ PyInt.int_of_bytes int_max_str_digits (Bytes.drop 4 address) = Some i.

(** for every run, the COMPLETED bit is set exactly when [DONE] is true *)
Definition completed_iff_done (self : runner schema) : Prop :=
  Forall2 (fun flags done => has_flag COMPLETED flags = done)
    (FLAGS self) (DONE self).

(** The table after the coordinator has handled the messages [msgs], each
    one an address and the frames that came with it.  Where [handle_msg]
    raises, the table is as the exception left it. *)
Fixpoint serve (msgs : list (bytes * list bytes)) (self : runner schema)
  : runner schema :=
  match msgs with
  | [] => self
  | (address, msg) :: msgs' =>
      serve msgs'
        (snd (fst (handle_msg json_dumps itemsize int_max_str_digits
                     address msg self)))
  end.

End RunTable.

End RunTable.

(** ** More notions on the table *)

Module Evolution.
Import Runner.

Section Evolution.

Context {schema : Type}.

(** What a message may do to a table: the schemas and the inputs stay, no
    column changes its length, a [DONE] entry that is true stays true, and
    a [FLAGS] entry only gains bits. *)
Definition evolves (self self' : runner schema) : Prop :=
  input_vars self' = input_vars self
  /\ output_vars self' = output_vars self
  /\ input self' = input self
  /\ length (output self') = length (output self)
  /\ length (DONE self') = length (DONE self)
  /\ length (TIME self') = length (TIME self)
  /\ length (FLAGS self') = length (FLAGS self)
  /\ (forall k, DONE self !! k = Some true -> DONE self' !! k = Some true)
  /\ (forall k flags, FLAGS self !! k = Some flags ->
        exists bits, FLAGS self' !! k = Some (Z.lor flags bits)).

End Evolution.

End Evolution.

(** ** The sessions of a worker: [retrieve], [transmit], [clean] *)

Module Session.
Import Worker.

Section Session.

Variable json_loads : bytes -> option PyVal.pyval.
Variable np_dtype : list PyVal.pyval -> result nat.

(** The loop of [request] as [Worker.lazy_pirate] has it, which also gives
    back the part of the script that no poll has used: what the responder
    does from then on. *)
Fixpoint lazy_pirate_rest (script : list poll_result) (request : bytes)
  (tries : Z)
  : worker -> outcome * worker * list event * list poll_result :=
  match script with
  | [] =>
      fun self =>
        let '(_, self, t) := send_request request self in
        (Waiting tries, self, t, [])
  | p :: script' =>
      fun self =>
        match attempt json_loads np_dtype request tries p self with
        | (Ok Return, self, t) => (Returned, self, t, script')
        | (Ok (Continue tries), self, t) =>
            let '(o, self, t', rest) :=
              lazy_pirate_rest script' request tries self in
            (o, self, (t ++ t')%list, rest)
        | (Raise e, self, t) => (Raised e, self, t, script')
        end
  end.

(** [request], with what is left of the script *)
Definition request_rest (script : list poll_result) (request : bytes)
  : worker -> outcome * worker * list event * list poll_result :=
  fun self =>
    let '(_, self, t) :=
      (if connected self then ret tt
       else emit (Log INFO) ;;; connect)%py self in
    if String.eqb request "READY" || String.eqb request "DATA"
       || String.eqb request "TIME"
    then
      let '(o, self, t', rest) := lazy_pirate_rest script request 0 self in
      (o, self, (t ++ t')%list, rest)
    else (Raised ValueError, self, t, script).

(** [ZeroMQWorkerInterface.retrieve]: [connect], [request("READY")],
    [disconnect].  An exception of [request] ends it there. *)
Definition retrieve (script : list poll_result)
  : worker -> outcome * worker * list event :=
  fun self =>
    let '(_, self, t0) := connect self in
    let '(o, self, t1, _) := request_rest script "READY" self in
    match o with
    | Returned =>
        let '(_, self, t2) := disconnect self in
        (Returned, self, (t0 ++ t1 ++ t2)%list)
    | _ => (o, self, (t0 ++ t1)%list)
    end.

(** [ZeroMQWorkerInterface.transmit]: [connect], [request("TIME")],
    [request("DATA")], [disconnect] *)
Definition transmit (script : list poll_result)
  : worker -> outcome * worker * list event :=
  fun self =>
    let '(_, self, t0) := connect self in
    let '(o, self, t1, rest) := request_rest script "TIME" self in
    match o with
    | Returned =>
        let '(o, self, t2, _) := request_rest rest "DATA" self in
        match o with
        | Returned =>
            let '(_, self, t3) := disconnect self in
            (Returned, self, (t0 ++ t1 ++ t2 ++ t3)%list)
        | _ => (o, self, (t0 ++ t1 ++ t2)%list)
        end
    | _ => (o, self, (t0 ++ t1)%list)
    end.

(** [ZeroMQWorkerInterface.clean] *)
Definition clean : Py worker unit :=
  (let* self := get in
   if connected self then disconnect else ret tt)%py.

End Session.

End Session.

(** the sockets that were connected and those that were closed *)
Fixpoint opened (t : list event) : Z :=
  match t with
  | [] => 0
  | Connect :: t' => 1 + opened t'
  | _ :: t' => opened t'
  end.

Fixpoint closed (t : list event) : Z :=
  match t with
  | [] => 0
  | Close :: t' => 1 + closed t'
  | _ :: t' => closed t'
  end.

(** a computation that only looks: it leaves the state as it is and asks
    nothing of the sockets and the logger *)
Definition pure {S A} (c : Py S A) : Prop :=
  forall s, exists r, c s = (r, s, []).

(** a reply with at least one frame, as every multipart message has *)
Definition framed (p : Worker.poll_result) : Prop :=
  p <> Worker.Reply [].

(** What a worker finds on its REQ socket of what the coordinator has sent
    on its ROUTER socket: the ROUTER socket takes the first frame as the
    address of the peer, the REQ socket of the peer takes the empty frame
    off. *)
Definition delivered (t : list event) : list Worker.poll_result :=
  List.map (fun frames => Worker.Reply (List.skipn 2 frames)) (sends t).

(** What the coordinator finds on its ROUTER socket of what a worker with
    the identity [address] has sent on its REQ socket: the address, the
    empty frame and the frames of the worker. *)
Definition received (address : bytes) (t : list event) : list (list bytes) :=
  List.map (fun frames => address :: "" :: frames) (sends t).

(** ** The schemas between the coordinator and a worker

    What the READY branch of [request] makes of a frame that holds a
    schema, without the worker: the columns that [json.loads] gives, each
    converted as the branch converts it, up to the first exception. *)

Module Schema.
Import PyVal.

(** [tuple(column)], for a column of the input schema *)
Definition input_column (column : pyval) : result pyval := tuple column.

(** [tuple(column[:2] + [tuple(column[2])])], for a column of the output
    schema *)
Definition output_column (column : pyval) : result pyval :=
  match slice_to_2 column with
  | Raise e => Raise e
  | Ok head =>
      match getitem_2 column with
      | Raise e => Raise e
      | Ok shape =>
          match tuple shape with
          | Raise e => Raise e
          | Ok shape =>
              match add_list head shape with
              | Raise e => Raise e
              | Ok triple => tuple triple
              end
          end
      end
  end.

(** [[f(column) for column in l]] *)
Fixpoint columns (f : pyval -> result pyval) (l : list pyval)
  : result (list pyval) :=
  match l with
  | [] => Ok []
  | column :: l' =>
      match f column with
      | Raise e => Raise e
      | Ok d =>
          match columns f l' with
          | Raise e => Raise e
          | Ok ds => Ok (d :: ds)
          end
      end
  end.

(** [[f(column) for column in json.loads(text.decode())]] *)
Definition decode (json_loads : bytes -> option pyval)
  (f : pyval -> result pyval) (text : bytes) : result (list pyval) :=
  match json_loads text with
  | None => Raise ValueError
  | Some v =>
      match iter v with
      | Raise e => Raise e
      | Ok l => columns f l
      end
  end.

(** What [json.loads] gives for the text that [json.dumps] gives for [v],
    after the conversion tables of the [json] module: a JSON array is
    written for a list and for a tuple, and a list is read from it; strings,
    integers, booleans and [None] come back as they were. *)
Fixpoint listify (v : pyval) : pyval :=
  match v with
  | PyList l | PyTuple l => PyList (List.map listify l)
  | PyDict items =>
      PyDict (List.map (fun kv => match kv with
                                  | (k, x) => (k, listify x)
                                  end) items)
  | PyNone | PyBool _ | PyInt _ | PyFloat _ | PyStr _ => v
  end.




(** the size of an item of [np.dtype(vars)], for the list [vars] of the
    fields; [0] stands for a list that is no dtype *)
Definition dtype_itemsize (np_dtype : list pyval -> result nat)
  (vars : pyval) : nat :=
  match iter vars with
  | Ok l =>
      match np_dtype l with
      | Ok sz => sz
      | Raise _ => 0%nat
      end
  | Raise _ => 0%nat
  end.

End Schema.

(** ** The registry of components: [Component]

    [ZeroMQRunnerInterface] and [ZeroMQWorkerInterface] are defined with
    [label="zeromq"]: their definition calls [Component.__init_subclass__].

    A class is [Component] itself or a class with one base.  The two class
    attributes that [__init_subclass__] sets, [_components] and
    [component], are set together or not at all; a class that does not
    have them finds them in its base.  A dictionary is an object of the
    heap, of which a class holds the address: classes that inherit
    [_components] share one dictionary. *)

Module Registry.

Inductive pyclass : Type :=
| Component
| Subclass (id : nat) (name : string) (base : pyclass)
    (own : option (nat * string)).

(** the identity of a class object *)
Definition id_of (cls : pyclass) : nat :=
  match cls with
  | Component => 0%nat
  | Subclass id _ _ _ => id
  end.

(** [item == cls] for two classes: they are the same object *)
Definition same (item cls : pyclass) : bool := Nat.eqb (id_of item) (id_of cls).

(** [cls._components], the address of the dictionary *)
Fixpoint _components (cls : pyclass) : nat :=
  match cls with
  | Component => 0%nat
  | Subclass _ _ _ (Some (d, _)) => d
  | Subclass _ _ base None => _components base
  end.

(** [cls.component] *)
Fixpoint component (cls : pyclass) : string :=
  match cls with
  | Component => "Component"
  | Subclass _ _ _ (Some (_, label)) => label
  | Subclass _ _ base None => component base
  end.

(** a dictionary with its items in the order of insertion *)
Definition dict : Type := list (string * pyclass).

(** [d[k]], [None] for a [KeyError] *)
Fixpoint dict_get (d : dict) (k : string) : option pyclass :=
  match d with
  | [] => None
  | (k', v) :: d' => if String.eqb k' k then Some v else dict_get d' k
  end.

(** [k in d] *)
Definition dict_contains (d : dict) (k : string) : bool :=
  match dict_get d k with Some _ => true | None => false end.

(** [d[k] = v]: a key that is there keeps its place *)
Fixpoint dict_set (d : dict) (k : string) (v : pyclass) : dict :=
  match d with
  | [] => [(k, v)]
  | (k', v') :: d' =>
      if String.eqb k' k then (k', v) :: d' else (k', v') :: dict_set d' k v
  end.

(** the dictionaries by their address, the address of the next dictionary
    and the identity of the next class *)
Record heap : Type := {
  dicts : nat -> dict;
  next_dict : nat;
  next_class : nat
}.

(** after the definition of [Component]: its [_components = {}] *)
Definition start : heap :=
  {| dicts := fun _ => []; next_dict := 1; next_class := 1 |}.

Definition store (d : nat) (v : dict) (h : heap) : heap :=
  {| dicts := fun d' => if Nat.eqb d' d then v else dicts h d';
     next_dict := next_dict h;
     next_class := next_class h |}.

Definition with_dict (h : heap) : heap :=
  {| dicts := fun d' => if Nat.eqb d' (next_dict h) then [] else dicts h d';
     next_dict := S (next_dict h);
     next_class := next_class h |}.

Definition with_class (h : heap) : heap :=
  {| dicts := dicts h;
     next_dict := next_dict h;
     next_class := S (next_class h) |}.

(** [{}] *)
Definition new_dict : Py heap nat :=
  fun h => (Ok (next_dict h), with_dict h, []).

Definition new_class_id : Py heap nat :=
  fun h => (Ok (next_class h), with_class h, []).

Local Open Scope py_scope.

(** [cls.register(label)(subcls)]; the record of [logging.warning] is
    written [Log WARNING] *)
Definition register (cls : pyclass) (label : string) (subcls : pyclass)
  : Py heap pyclass :=
  let* h := get in
  let registry := dicts h (_components cls) in
  (if dict_contains registry label then emit (Log WARNING) else ret tt) ;;;
  modify (store (_components cls) (dict_set registry label subcls)) ;;;
  ret subcls.

(** [__init_subclass__] for the class [name] with the identity [id] and the
    base [base]; the result is the class with the attributes that were set *)
Definition init_subclass (id : nat) (name : string) (base : pyclass)
  (label : option string) : Py heap pyclass :=
  let cls := Subclass id name base None in
  if String.eqb (component cls) "Component" then
    let label := match label with Some l => l | None => name end in
    let* d := new_dict in
    let cls := Subclass id name base (Some (d, label)) in
    register cls label cls
  else
    match label with
    | Some label => register cls label cls
    | None => ret cls
    end.

(** [class name(base, label=label)] with a body that defines neither
    [_components] nor [component] *)
Definition define (name : string) (base : pyclass) (label : option string)
  : Py heap pyclass :=
  let* id := new_class_id in
  init_subclass id name base label.

(** [cls[label]] *)
Definition class_getitem (cls : pyclass) (label : string) : Py heap pyclass :=
  let* h := get in
  match dict_get (dicts h (_components cls)) label with
  | Some subcls => ret subcls
  | None => raise KeyError
  end.

(** [cls.label], where a class method may wrap a property (Python 3.9 to
    3.12) *)
Definition label (cls : pyclass) : Py heap string :=
  let* h := get in
  match List.find (fun '(_, item) => same item cls)
          (dicts h (_components cls)) with
  | Some (label, _) => ret label
  | None => raise KeyError
  end.

(** [list(cls.labels)] *)
Definition labels (cls : pyclass) : Py heap (list string) :=
  let* h := get in
  ret (List.map fst (dicts h (_components cls))).

(** What holds of a heap that definitions of classes have made: no key is
    twice in a dictionary, the classes in the dictionaries have been
    defined, and a dictionary that was not made yet is empty. *)
Definition wf (h : heap) : Prop :=
  (forall d, NoDup (List.map fst (dicts h d)))
  /\ (forall d l item, In (l, item) (dicts h d) ->
       (id_of item < next_class h)%nat)
  /\ (forall d, (next_dict h <= d)%nat -> dicts h d = []).

(** a class that was defined in the heap *)
Definition defined (h : heap) (cls : pyclass) : Prop :=
  (id_of cls < next_class h)%nat /\ (_components cls < next_dict h)%nat.

End Registry.

(** ** A campaign of three runs and a worker, to try things on *)

Module Example.

(** a schema is given by the text that [json.dumps] makes of it and by the
    size of its records *)
Definition schema : Type := bytes * nat.
Definition json_dumps (vars : schema) : bytes := fst vars.
Definition itemsize (vars : schema) : nat := snd vars.

(** the limit of an interpreter as it is installed *)
Definition int_max_str_digits : nat := 4300.

Definition table : Runner.runner schema :=
  {| Runner.input_vars := ("input schema", 2%nat);
     Runner.output_vars := ("output schema", 2%nat);
     Runner.input := ["a0"; "a1"; "a2"];
     Runner.output := [Bytes.zeros 2; Bytes.zeros 2; Bytes.zeros 2];
     Runner.DONE := [false; false; false];
     Runner.TIME := [0; 0; 0];
     Runner.FLAGS := [0; 0; 0] |}.

Definition handle_msg := Runner.handle_msg json_dumps itemsize int_max_str_digits.

(** a Python string of plain characters, and the text of its code points *)
Definition str (s : bytes) : PyVal.pyval :=
  PyVal.PyStr (List.map (fun c => N.of_nat (nat_of_ascii c))
                 (list_ascii_of_string s)).
Definition text (s : list N) : bytes :=
  string_of_list_ascii (List.map ascii_of_N s).

(** the quotation mark *)
Definition quote : bytes := String (ascii_of_nat 34) EmptyString.

Fixpoint join (l : list bytes) : bytes :=
  match l with
  | [] => ""
  | x :: l' =>
      match l' with
      | [] => x
      | _ :: _ => x ++ ", " ++ join l'
      end
  end.

(** the text that [json.dumps] writes, for values whose strings are plain
    characters without quotation mark and backslash; a float is the text
    it was read from *)
Fixpoint dumps (v : PyVal.pyval) : bytes :=
  match v with
  | PyVal.PyNone => "null"
  | PyVal.PyBool true => "true"
  | PyVal.PyBool false => "false"
  | PyVal.PyInt z => PyInt.str_of_int z
  | PyVal.PyFloat t => t
  | PyVal.PyStr s => quote ++ text s ++ quote
  | PyVal.PyList l | PyVal.PyTuple l => "[" ++ join (List.map dumps l) ++ "]"
  | PyVal.PyDict items =>
      "{" ++ join (List.map (fun kv => match kv with
                                     | (k, x) =>
                                         quote ++ text k ++ quote ++ ": "
                                         ++ dumps x
                                     end) items) ++ "}"
  end.

(** the schemas of a campaign with one input [x] and one output [f] of one
    number each; an output schema whose field has no shape *)
Definition fields_in : PyVal.pyval :=
  PyVal.PyList [PyVal.PyTuple [str "x"; str "float64"]].
Definition fields_out : PyVal.pyval :=
  PyVal.PyList
    [PyVal.PyTuple [str "f"; str "float64"; PyVal.PyTuple [PyVal.PyInt 1]]].
Definition fields_out_unshaped : PyVal.pyval :=
  PyVal.PyList [PyVal.PyTuple [str "f"; str "float64"]].

(** a JSON reader that knows five texts: the empty list, the empty object
    and the texts of the three schemas *)
Definition json_loads (b : bytes) : option PyVal.pyval :=
  if String.eqb b "[]" then Some (PyVal.PyList [])
  else if String.eqb b "{}" then Some (PyVal.PyDict [])
  else if String.eqb b (dumps fields_in)
       then Some (Schema.listify fields_in)
  else if String.eqb b (dumps fields_out)
       then Some (Schema.listify fields_out)
  else if String.eqb b (dumps fields_out_unshaped)
       then Some (Schema.listify fields_out_unshaped)
  else None.

(** a numpy that knows five types.  The size of an item of the dtype made
    of a list of fields [(name, type)] and [(name, type, shape)], with a
    tuple of integers or an integer as the shape: the sizes of the fields
    add up, a name that comes twice is a [ValueError], what is no such
    field or no such type a [TypeError]. *)
Definition type_size (t : list N) : option nat :=
  if String.eqb (text t) "float64" then Some 8%nat
  else if String.eqb (text t) "int64" then Some 8%nat
  else if String.eqb (text t) "int32" then Some 4%nat
  else if String.eqb (text t) "uint8" then Some 1%nat
  else if String.eqb (text t) "bool" then Some 1%nat
  else None.

Fixpoint shape_items (shape : list PyVal.pyval) : option nat :=
  match shape with
  | [] => Some 1%nat
  | PyVal.PyInt z :: shape' =>
      if z <? 0 then None
      else match shape_items shape' with
           | Some n => Some (Z.to_nat z * n)%nat
           | None => None
           end
  | _ :: _ => None
  end.

Definition field_size (field : PyVal.pyval) : result nat :=
  match field with
  | PyVal.PyTuple [PyVal.PyStr _; PyVal.PyStr t] =>
      match type_size t with
      | Some n => Ok n
      | None => Raise TypeError
      end
  | PyVal.PyTuple [PyVal.PyStr _; PyVal.PyStr t; PyVal.PyTuple shape] =>
      match type_size t, shape_items shape with
      | Some n, Some m => Ok (n * m)%nat
      | _, _ => Raise TypeError
      end
  | PyVal.PyTuple [PyVal.PyStr _; PyVal.PyStr t; PyVal.PyInt z] =>
      match type_size t, shape_items [PyVal.PyInt z] with
      | Some n, Some m => Ok (n * m)%nat
      | _, _ => Raise TypeError
      end
  | _ => Raise TypeError
  end.

Definition field_name (field : PyVal.pyval) : bytes :=
  match field with
  | PyVal.PyTuple (PyVal.PyStr name :: _) => text name
  | _ => ""
  end.

Fixpoint twice (names : list bytes) : bool :=
  match names with
  | [] => false
  | name :: names' => existsb (String.eqb name) names' || twice names'
  end.

Fixpoint fields_size (fields : list PyVal.pyval) : result nat :=
  match fields with
  | [] => Ok 0%nat
  | field :: fields' =>
      match field_size field with
      | Raise e => Raise e
      | Ok n =>
          match fields_size fields' with
          | Raise e => Raise e
          | Ok m => Ok (n + m)%nat
          end
      end
  end.

Definition np_dtype (descr : list PyVal.pyval) : result nat :=
  match fields_size descr with
  | Raise e => Raise e
  | Ok n => if twice (List.map field_name descr) then Raise ValueError else Ok n
  end.

Definition worker : Worker.worker :=
  {| Worker.connected := false;
     Worker.retries := 3;
     Worker.input := "";
     Worker.output := "oo";
     Worker.time := 5 |}.

Definition request := Worker.request json_loads np_dtype.

(** a responder that never answers, one that answers ACK after three
    timeouts, one that answers READY after three timeouts, and one that
    answers NAK three times *)
Definition silence : list Worker.poll_result :=
  [Worker.Timeout; Worker.Timeout; Worker.Timeout; Worker.Timeout;
   Worker.Reply ["ACK"]].
Definition late_ACK : list Worker.poll_result :=
  [Worker.Timeout; Worker.Timeout; Worker.Timeout; Worker.Reply ["ACK"]].
Definition late_READY : list Worker.poll_result :=
  [Worker.Timeout; Worker.Timeout; Worker.Timeout;
   Worker.Reply [dumps fields_in; "abcdefgh"; dumps fields_out]].
Definition three_NAK : list Worker.poll_result :=
  [Worker.Reply ["NAK"]; Worker.Reply ["NAK"]; Worker.Reply ["NAK"]].

(** a campaign of three runs with the two schemas, its records of eight
    bytes, and the same campaign with the output schema without a shape *)
Definition campaign : Runner.runner PyVal.pyval :=
  {| Runner.input_vars := fields_in;
     Runner.output_vars := fields_out;
     Runner.input := ["input 0."; "input 1."; "input 2."];
     Runner.output := [Bytes.zeros 8; Bytes.zeros 8; Bytes.zeros 8];
     Runner.DONE := [false; false; false];
     Runner.TIME := [0; 0; 0];
     Runner.FLAGS := [0; 0; 0] |}.


(** the heap after [class RunnerInterface(Component)], and that class *)
Definition RunnerInterface : Registry.pyclass :=
  Registry.Subclass 1 "RunnerInterface" Registry.Component
    (Some (1%nat, "RunnerInterface")).
Definition classes : Registry.heap :=
  snd (fst (Registry.define "RunnerInterface" Registry.Component None
              Registry.start)).

End Example.

(** * Properties *)

(** ** Byte strings *)

Module BytesFacts.
Import Bytes.

Lemma take_app (a b : bytes) : take (String.length a) (a ++ b) = a.
Proof. induction a as [|c a IH]; simpl; [by destruct b | by rewrite IH]. Qed.

Lemma drop_app (a b : bytes) : drop (String.length a) (a ++ b) = b.
Proof. induction a as [|c a IH]; simpl; [done | exact IH]. Qed.

Lemma take_all (b : bytes) : take (String.length b) b = b.
Proof. induction b as [|c b IH]; simpl; [done | by rewrite IH]. Qed.

Lemma split_items_one (b : bytes) :
  split_items 1 (String.length b) b = [b].
Proof. simpl. by rewrite take_all. Qed.

End BytesFacts.

(** ** [int()] reads what [str()] writes *)

Module PyIntFacts.
Import PyInt.

Lemma digit_char_facts (d : Z) :
  0 <= d < 10 ->
  digit_value (digit_char d) = Some d
  /\ Py_ISSPACE (digit_char d) = false
  /\ Ascii.eqb (digit_char d) "+" = false
  /\ Ascii.eqb (digit_char d) "-" = false
  /\ Ascii.eqb (digit_char d) "_" = false.
Proof.
  intros Hd.
  assert (d = 0 \/ d = 1 \/ d = 2 \/ d = 3 \/ d = 4 \/ d = 5 \/ d = 6
          \/ d = 7 \/ d = 8 \/ d = 9) as Hcases by lia.
  repeat (destruct Hcases as [-> | Hcases]); try subst d;
    by vm_compute.
Qed.

(** the digits start with a digit *)
Lemma digits_fuel_head (fuel : nat) (n : Z) (acc : bytes) :
  0 <= n ->
  exists d tail, 0 <= d < 10
    /\ digits_fuel (S fuel) n acc = String (digit_char d) tail.
Proof.
  revert n acc; induction fuel as [|fuel IH]; intros n acc Hn.
  - exists (n mod 10), acc. split; [apply Z.mod_pos_bound; lia|].
    simpl. by destruct (n <? 10).
  - cbn [digits_fuel]. destruct (n <? 10) eqn:E.
    + exists (n mod 10), acc. split; [apply Z.mod_pos_bound; lia | done].
    + apply (IH (n / 10) (String (digit_char (n mod 10)) acc)).
      apply Z.div_pos; lia.
Qed.

(** Scanning the digits of [n] adds them to the value read so far; [k] is
    their number, which is at most [m] when [n < 10^m]. *)
Lemma scan_digits_fuel (fuel : nat) :
  forall (n : Z) (rest : bytes) (p : bool) (a : Z) (nd : nat),
  0 <= n < 10 ^ Z.of_nat (S fuel) ->
  exists k : nat,
    (1 <= k)%nat
    /\ scan_digits p a nd (digits_fuel (S fuel) n rest)
       = scan_digits false (a * 10 ^ Z.of_nat k + n) (nd + k) rest
    /\ forall m : nat, (1 <= m)%nat -> n < 10 ^ Z.of_nat m -> (k <= m)%nat.
Proof.
  assert (forall n rest p a nd, 0 <= n < 10 ->
    scan_digits p a nd (String (digit_char (n mod 10)) rest)
    = scan_digits false (a * 10 ^ Z.of_nat 1 + n) (nd + 1) rest) as Hone.
  { intros n rest p a nd Hn. rewrite Z.mod_small by lia.
    destruct (digit_char_facts n) as (Hv & _ & _ & _ & Hu); [lia|].
    cbn [scan_digits]. rewrite Hu, Hv. f_equal; lia. }
  induction fuel as [|fuel IH]; intros n rest p a nd Hn.
  - change (10 ^ Z.of_nat 1) with 10 in Hn.
    exists 1%nat. split; [lia|]. split; [|lia].
    cbn [digits_fuel]. destruct (n <? 10); by apply Hone.
  - cbn [digits_fuel]. destruct (n <? 10) eqn:E.
    + apply Z.ltb_lt in E. exists 1%nat. split; [lia|]. split; [|lia].
      apply Hone; lia.
    + apply Z.ltb_ge in E.
      assert (0 <= n / 10 < 10 ^ Z.of_nat (S fuel)) as Hq.
      { split; [apply Z.div_pos; lia|].
        apply Z.div_lt_upper_bound; [lia|].
        replace (10 * 10 ^ Z.of_nat (S fuel))
          with (10 ^ Z.of_nat (S (S fuel))); [lia|].
        rewrite (Nat2Z.inj_succ (S fuel)), Z.pow_succ_r; lia. }
      destruct (IH (n / 10) (String (digit_char (n mod 10)) rest) p a nd Hq)
        as (k & Hk & Hscan & Hbound).
      exists (S k). split; [lia|]. split.
      * etransitivity; [exact Hscan|].
        destruct (digit_char_facts (n mod 10)) as (Hv & _ & _ & _ & Hu);
          [apply Z.mod_pos_bound; lia|].
        cbn [scan_digits]. rewrite Hu, Hv.
        f_equal; [|lia].
        rewrite Nat2Z.inj_succ, Z.pow_succ_r by lia.
        pose proof (Z.div_mod n 10). lia.
      * intros [|m] Hm Hlt; [lia|].
        destruct m as [|m]; [change (10 ^ Z.of_nat 1) with 10 in Hlt; lia|].
        apply le_n_S, Hbound; [lia|].
        apply Z.div_lt_upper_bound; [lia|].
        replace (10 * 10 ^ Z.of_nat (S m)) with (10 ^ Z.of_nat (S (S m))); [lia|].
        rewrite (Nat2Z.inj_succ (S m)), Z.pow_succ_r; lia.
Qed.

(** the fuel of [digits] is enough *)
Lemma digits_fuel_enough (n : Z) :
  0 <= n -> n < 10 ^ Z.of_nat (S (Z.to_nat (Z.log2 n))).
Proof.
  intros Hn.
  rewrite Nat2Z.inj_succ, Z2Nat.id by apply Z.log2_nonneg.
  destruct (Z.eq_dec n 0) as [->|Hne]; [by vm_compute|].
  pose proof (Z.log2_spec n ltac:(lia)) as [_ Hlt].
  eapply Z.lt_le_trans; [exact Hlt|].
  apply Z.pow_le_mono_l. pose proof (Z.log2_nonneg n). lia.
Qed.

(** reading the digits of a natural number below [10^640] *)
Lemma int_of_digits (lim : nat) (sign : Z) (n : Z) :
  0 <= n < 10 ^ 640 ->
  match scan_digits false 0 0 (digits n) with
  | Some (v, nd, rest) =>
      v = n /\ rest = EmptyString /\ nd <> 0%nat
      /\ over_digit_limit lim nd = false
  | None => False
  end.
Proof.
  intros Hn. unfold digits.
  destruct (scan_digits_fuel (Z.to_nat (Z.log2 n)) n EmptyString false 0 0)
    as (k & Hk & Hscan & Hbound).
  { split; [lia | apply digits_fuel_enough; lia]. }
  rewrite Hscan. cbn [scan_digits].
  split; [lia|]. split; [done|]. split; [lia|].
  assert (k <= 640)%nat as Hle.
  { apply Hbound; [lia|]. change (Z.of_nat 640) with 640. lia. }
  unfold over_digit_limit, MAX_STR_DIGITS_THRESHOLD.
  replace (Nat.ltb 640 (0 + k)) with false; [done|].
  symmetry. apply Nat.ltb_ge. lia.
Qed.

(** [int(str(z).encode()) == z], for an integer of up to 640 digits *)
Lemma int_of_bytes_str_of_int (lim : nat) (z : Z) :
  - 10 ^ 640 < z < 10 ^ 640 ->
  int_of_bytes lim (str_of_int z) = Some z.
Proof.
  intros Hz. unfold str_of_int.
  destruct (z <? 0) eqn:E.
  - apply Z.ltb_lt in E.
    pose proof (int_of_digits lim (-1) (- z) ltac:(lia)) as Hscan.
    unfold digits in *.
    destruct (digits_fuel_head (Z.to_nat (Z.log2 (- z))) (- z) EmptyString)
      as (d & tail & Hd & Heq); [lia|].
    rewrite Heq in *.
    destruct (digit_char_facts d Hd) as (_ & _ & _ & _ & Hu).
    unfold int_of_bytes. cbn [skip_spaces].
    change (Py_ISSPACE "-") with false. cbv iota.
    change (Ascii.eqb "-" "+") with false.
    change (Ascii.eqb "-" "-") with true. cbv iota.
    rewrite Hu.
    destruct (scan_digits false 0 0 (String (digit_char d) tail))
      as [[[v nd] rest]|]; [|done].
    destruct Hscan as (-> & -> & Hnd & ->).
    apply Nat.eqb_neq in Hnd. rewrite Hnd. cbn [skip_spaces].
    f_equal. lia.
  - apply Z.ltb_ge in E.
    pose proof (int_of_digits lim 1 z ltac:(lia)) as Hscan.
    unfold digits in *.
    destruct (digits_fuel_head (Z.to_nat (Z.log2 z)) z EmptyString)
      as (d & tail & Hd & Heq); [lia|].
    rewrite Heq in *.
    destruct (digit_char_facts d Hd) as (_ & Hs & Hp & Hm & Hu).
    unfold int_of_bytes. cbn [skip_spaces]. rewrite Hs, Hp, Hm, Hu.
    destruct (scan_digits false 0 0 (String (digit_char d) tail))
      as [[[v nd] rest]|]; [|done].
    destruct Hscan as (-> & -> & Hnd & ->).
    apply Nat.eqb_neq in Hnd. rewrite Hnd. cbn [skip_spaces].
    f_equal. lia.
Qed.

End PyIntFacts.

Example int_of_bytes_12 : PyInt.int_of_bytes 4300 "12" = Some 12.
Proof. reflexivity. Qed.
Example int_of_bytes_neg : PyInt.int_of_bytes 4300 " -1_0 " = Some (-10).
Proof. reflexivity. Qed.
Example int_of_bytes_bad : PyInt.int_of_bytes 4300 "1__0" = None.
Proof. reflexivity. Qed.
Example int_of_bytes_empty : PyInt.int_of_bytes 4300 "" = None.
Proof. reflexivity. Qed.
Example str_of_int_1203 : PyInt.str_of_int 1203 = "1203".
Proof. reflexivity. Qed.
Example str_of_int_neg : PyInt.str_of_int (-45) = "-45".
Proof. reflexivity. Qed.
Example str_of_int_0 : PyInt.str_of_int 0 = "0".
Proof. reflexivity. Qed.

(** ** Indexing *)

Lemma np_index_nonneg (n : nat) (i : Z) :
  0 <= i < Z.of_nat n -> np_index n i = Some (Z.to_nat i).
Proof.
  intros H. unfold np_index.
  destruct (0 <=? i) eqn:E1; [|lia]. destruct (i <? Z.of_nat n) eqn:E2; [done|lia].
Qed.


Lemma np_index_lt (n : nat) (i : Z) (k : nat) :
  np_index n i = Some k -> (k < n)%nat.
Proof.
  unfold np_index.
  destruct (0 <=? i) eqn:E1; destruct (i <? Z.of_nat n) eqn:E2; cbn [andb];
    try (intros [= <-]; lia);
    destruct (- Z.of_nat n <=? i) eqn:E3; destruct (i <? 0) eqn:E4; cbn [andb];
    try (intros [= <-]; lia); done.
Qed.

Lemma index_error_intp (i : Z) : i < 2 ^ 63 -> index_error i = IndexError.
Proof.
  intros H. unfold index_error. by destruct (Z.leb_spec (2 ^ 63) i); [lia|].
Qed.

Lemma index_error_uint64 (i : Z) :
  2 ^ 63 <= i < 2 ^ 64 -> index_error i = OverflowError.
Proof.
  intros H. unfold index_error.
  destruct (Z.leb_spec (2 ^ 63) i); [|lia].
  by destruct (Z.ltb_spec i (2 ^ 64)); [|lia].
Qed.

Lemma index_error_beyond (i : Z) : 2 ^ 64 <= i -> index_error i = IndexError.
Proof.
  intros H. unfold index_error.
  destruct (Z.ltb_spec i (2 ^ 64)); [lia|]. by rewrite andb_false_r.
Qed.

Lemma np_getitem_Some {A} (a : list A) (i : Z) (k : nat) (x : A) :
  np_index (length a) i = Some k -> a !! k = Some x -> np_getitem a i = Ok x.
Proof. intros Hi Hk. unfold np_getitem, list_getitem. by rewrite Hi, Hk. Qed.

Lemma np_setitem_Some {A} (a : list A) (i : Z) (k : nat) (x : A) :
  np_index (length a) i = Some k -> np_setitem a i x = Ok (<[k:=x]> a).
Proof. intros Hi. unfold np_setitem. by rewrite Hi. Qed.

(** the item of a buffer that holds exactly one *)
Lemma np_frombuffer_one (sz : nat) (b : bytes) :
  String.length b = sz -> sz <> 0%nat -> np_frombuffer sz b = Ok [b].
Proof.
  intros <- Hsz. unfold np_frombuffer.
  destruct (Nat.eqb_spec (String.length b) 0); [done|].
  rewrite Nat.Div0.mod_same, Nat.div_same by done.
  cbn [Nat.eqb]. by rewrite BytesFacts.split_items_one.
Qed.

(** ** Flags *)

Lemma has_flag_testbit (k flags : Z) :
  0 <= k -> has_flag (2 ^ k) flags = Z.testbit flags k.
Proof.
  intros Hk. unfold has_flag.
  destruct (Z.testbit flags k) eqn:E.
  - apply Z.eqb_eq, Z.bits_inj'. intros n Hn.
    rewrite Z.land_spec, Z.pow2_bits_eqb by done.
    destruct (Z.eqb_spec k n) as [<-|]; [by rewrite E | apply andb_false_r].
  - apply Z.eqb_neq. intros Heq.
    assert (Z.testbit (Z.land flags (2 ^ k)) k = true) as Hbit.
    { rewrite Heq, Z.pow2_bits_eqb, Z.eqb_refl; done. }
    rewrite Z.land_spec, E in Hbit. done.
Qed.

Lemma has_flag_ior_same (k flags : Z) :
  0 <= k -> has_flag (2 ^ k) (Z.lor flags (2 ^ k)) = true.
Proof.
  intros Hk. rewrite has_flag_testbit, Z.lor_spec, Z.pow2_bits_eqb by done.
  rewrite Z.eqb_refl. apply orb_true_r.
Qed.

Lemma has_flag_ior_other (k j flags : Z) :
  0 <= k -> 0 <= j -> j <> k ->
  has_flag (2 ^ k) (Z.lor flags (2 ^ j)) = has_flag (2 ^ k) flags.
Proof.
  intros Hk Hj Hne. rewrite !has_flag_testbit, Z.lor_spec, Z.pow2_bits_eqb by done.
  destruct (Z.eqb_spec j k); [done | apply orb_false_r].
Qed.

(** ** The address of a run *)

Lemma identity_prefix (i : Z) : Bytes.take 4 (identity i) = "req_".
Proof. reflexivity. Qed.

Lemma identity_run_id (lim : nat) (i : Z) :
  - 2 ^ 63 < i < 2 ^ 63 ->
  PyInt.int_of_bytes lim (Bytes.drop 4 (identity i)) = Some i.
Proof.
  intros Hi. change (Bytes.drop 4 (identity i)) with (PyInt.str_of_int i).
  apply PyIntFacts.int_of_bytes_str_of_int.
  assert (2 ^ 63 < 10 ^ 640) by (by vm_compute). lia.
Qed.

(** ** The coordinator *)

Ltac py_run :=
  unfold bind, ret, lift, get, emit, modify, raise; simpl.

Module RunnerFacts.
Import Runner RunTable.

Section RunnerFacts.

Context {schema : Type}.
Variable json_dumps : schema -> bytes.
Variable itemsize : schema -> nat.
Variable lim : nat.

Local Abbreviation handle_msg := (handle_msg json_dumps itemsize lim).
Local Abbreviation poll_loop := (poll_loop json_dumps itemsize lim).
Local Abbreviation serve := (serve json_dumps itemsize lim).
Local Abbreviation reads_as := (reads_as lim).

Lemma flags_ior_at (self : runner schema) (i bit : Z) (k : nat) (flags : Z) :
  np_index (length (FLAGS self)) i = Some k ->
  FLAGS self !! k = Some flags ->
  flags_ior i bit self
  = (Ok tt, with_FLAGS (<[k:=Z.lor flags bit]> (FLAGS self)) self, []).
Proof.
  intros Hi Hk. unfold flags_ior, bind, get, lift, modify.
  rewrite (np_getitem_Some _ _ _ _ Hi Hk), (np_setitem_Some _ _ _ _ Hi).
  reflexivity.
Qed.

Lemma handle_READY_at (self : runner schema) (address : bytes) (i : Z)
  (rest : list bytes) (k : nat) (record : bytes) (flags : Z) :
  reads_as address i ->
  np_index (length (input self)) i = Some k ->
  input self !! k = Some record ->
  np_index (length (FLAGS self)) i = Some k ->
  FLAGS self !! k = Some flags ->
  handle_msg address ("READY" :: rest) self
  = (Ok tt, with_FLAGS (<[k:=Z.lor flags 2]> (FLAGS self)) self,
     [Log DEBUG; Log DEBUG;
      Send [address; ""; json_dumps (input_vars self); record;
            json_dumps (output_vars self)]]).
Proof.
  intros [Hpre Hint] Hi Hk Hfi Hfk. unfold Runner.handle_msg.
  rewrite Hpre, Hint. py_run.
  by rewrite (np_getitem_Some _ _ _ _ Hi Hk), (flags_ior_at _ _ _ _ _ Hfi Hfk).
Qed.

Lemma handle_DATA_at (self : runner schema) (address : bytes) (i : Z)
  (payload : bytes) (rest : list bytes) (k : nat) (flags : Z) :
  reads_as address i ->
  String.length payload = itemsize (output_vars self) ->
  itemsize (output_vars self) <> 0%nat ->
  np_index (length (output self)) i = Some k ->
  np_index (length (DONE self)) i = Some k ->
  np_index (length (FLAGS self)) i = Some k ->
  FLAGS self !! k = Some flags ->
  handle_msg address ("DATA" :: payload :: rest) self
  = (Ok tt,
     with_FLAGS (<[k:=Z.lor flags 8]> (FLAGS self))
       (with_DONE (<[k:=true]> (DONE self))
          (with_output (<[k:=payload]> (output self)) self)),
     [Log DEBUG; Log DEBUG; Log DEBUG; Send [address; ""; "ACK"]]).
Proof.
  intros [Hpre Hint] Hlen Hsz Ho Hd Hfi Hfk. unfold Runner.handle_msg.
  rewrite Hpre, Hint. py_run.
  rewrite (np_frombuffer_one _ _ Hlen Hsz).
  unfold np_setitem_array. rewrite Ho.
  rewrite (np_setitem_Some _ _ _ _ Hd).
  by rewrite (flags_ior_at _ i 8 k flags).
Qed.

Lemma handle_TIME_at (self : runner schema) (address : bytes) (i : Z)
  (payload : bytes) (rest : list bytes) (k : nat) :
  reads_as address i ->
  String.length payload = uint_itemsize ->
  np_index (length (TIME self)) i = Some k ->
  handle_msg address ("TIME" :: payload :: rest) self
  = (Ok tt, with_TIME (<[k:=Bytes.le_uint payload]> (TIME self)) self,
     [Log DEBUG; Log DEBUG; Send [address; ""; "ACK"]]).
Proof.
  intros [Hpre Hint] Hlen Ht. unfold Runner.handle_msg.
  rewrite Hpre, Hint. py_run.
  rewrite (np_frombuffer_one _ _ Hlen) by done.
  unfold np_setitem_array. by rewrite Ht.
Qed.

Lemma handle_DIE_at (self : runner schema) (address : bytes) (i : Z)
  (rest : list bytes) (k : nat) (flags : Z) :
  reads_as address i ->
  np_index (length (FLAGS self)) i = Some k ->
  FLAGS self !! k = Some flags ->
  handle_msg address ("DIE" :: rest) self
  = (Ok tt, with_FLAGS (<[k:=Z.lor flags 4]> (FLAGS self)) self,
     [Log DEBUG; Log DEBUG; Send [address; ""; "ACK"]]).
Proof.
  intros [Hpre Hint] Hfi Hfk. unfold Runner.handle_msg.
  rewrite Hpre, Hint. py_run.
  by rewrite (flags_ior_at _ _ _ _ _ Hfi Hfk).
Qed.

(** the address of the worker of a run in range is read as that run *)
Lemma identity_reads_as (size : nat) (i : Z) :
  Z.of_nat size < 2 ^ 63 -> - Z.of_nat size <= i < Z.of_nat size ->
  reads_as (identity i) i.
Proof.
  intros Hsize Hi. split; [apply identity_prefix|].
  apply identity_run_id. lia.
Qed.

Lemma wf_lookup (size : nat) (self : runner schema) (k : nat) :
  wf size self -> (k < size)%nat ->
  exists record flags,
    input self !! k = Some record /\ FLAGS self !! k = Some flags.
Proof.
  intros (Hi & _ & _ & _ & Hf & _) Hk.
  destruct (lookup_lt_is_Some_2 (input self) k) as [record Hr]; [lia|].
  destruct (lookup_lt_is_Some_2 (FLAGS self) k) as [flags Hfl]; [lia|].
  by exists record, flags.
Qed.

(** C3: in a table of [size] runs, a READY message from the address of a
    run [run_id] in [0, size) is answered with exactly the five frames
    address, empty frame, input schema, input record of that run, output
    schema, and sets the ASSIGNED bit (0x02) of that run; the inputs, the
    outputs, [DONE] and [TIME] of all runs and the flags of every other run
    stay as they were. *)
Theorem ready_replies_and_assigns (size : nat) (self : runner schema)
  (run_id : Z) (rest : list bytes) :
  wf size self ->
  0 <= run_id < Z.of_nat size ->
  exists record flags,
    input self !! Z.to_nat run_id = Some record
    /\ FLAGS self !! Z.to_nat run_id = Some flags
    /\ let self' :=
         with_FLAGS (<[Z.to_nat run_id := Z.lor flags 2]> (FLAGS self)) self in
       handle_msg (identity run_id) ("READY" :: rest) self
       = (Ok tt, self',
          [Log DEBUG; Log DEBUG;
           Send [identity run_id; ""; json_dumps (input_vars self); record;
                 json_dumps (output_vars self)]])
       /\ FLAGS self' !! Z.to_nat run_id = Some (Z.lor flags 2)
       /\ has_flag ASSIGNED (Z.lor flags 2) = true
       /\ (forall j, j <> Z.to_nat run_id -> FLAGS self' !! j = FLAGS self !! j)
       /\ input self' = input self
       /\ output self' = output self
       /\ DONE self' = DONE self
       /\ TIME self' = TIME self.
Proof.
  intros Hwf Hrun.
  destruct (wf_lookup size self (Z.to_nat run_id) Hwf) as (record & flags & Hr & Hf);
    [lia|].
  pose proof Hwf as (Hi & _ & _ & _ & Hfl & Hsize).
  exists record, flags.
  split; [done|]. split; [done|]. cbv zeta. split.
  { apply (handle_READY_at _ _ run_id); try done.
    - apply (identity_reads_as size); lia.
    - rewrite Hi. by apply np_index_nonneg.
    - rewrite Hfl. by apply np_index_nonneg. }
  split; [apply list_lookup_insert_eq; cbn; lia|].
  split; [apply (has_flag_ior_same 1); lia|].
  split; [|done].
  intros j Hj. by apply list_lookup_insert_ne.
Qed.

Lemma wf_with_output (size : nat) (self : runner schema) (o : list bytes) :
  wf size self -> length o = size -> wf size (with_output o self).
Proof. intros (? & ? & ? & ? & ? & ?) Ho. by unfold wf. Qed.

Lemma wf_with_DONE (size : nat) (self : runner schema) (d : list bool) :
  wf size self -> length d = size -> wf size (with_DONE d self).
Proof. intros (? & ? & ? & ? & ? & ?) Hd. by unfold wf. Qed.

Lemma wf_with_TIME (size : nat) (self : runner schema) (t : list Z) :
  wf size self -> length t = size -> wf size (with_TIME t self).
Proof. intros (? & ? & ? & ? & ? & ?) Ht. by unfold wf. Qed.

Lemma wf_with_FLAGS (size : nat) (self : runner schema) (f : list Z) :
  wf size self -> length f = size -> wf size (with_FLAGS f self).
Proof. intros (? & ? & ? & ? & ? & ?) Hf. by unfold wf. Qed.

(** what a DATA message with a payload of the size of an output record does
    to a table of [size] runs, for an address read as [i] in [-size, size) *)
Lemma handle_DATA_wf (size : nat) (self : runner schema) (address : bytes)
  (i : Z) (k : nat) (payload : bytes) (rest : list bytes) :
  wf size self ->
  reads_as address i ->
  np_index size i = Some k ->
  String.length payload = itemsize (output_vars self) ->
  itemsize (output_vars self) <> 0%nat ->
  exists flags self',
    FLAGS self !! k = Some flags
    /\ self' = with_FLAGS (<[k:=Z.lor flags 8]> (FLAGS self))
                 (with_DONE (<[k:=true]> (DONE self))
                    (with_output (<[k:=payload]> (output self)) self))
    /\ handle_msg address ("DATA" :: payload :: rest) self
       = (Ok tt, self',
          [Log DEBUG; Log DEBUG; Log DEBUG; Send [address; ""; "ACK"]])
    /\ wf size self'
    /\ output self' !! k = Some payload
    /\ DONE self' !! k = Some true
    /\ (exists flags', FLAGS self' !! k = Some flags'
                       /\ has_flag COMPLETED flags' = true).
Proof.
  intros Hwf Hread Hk Hlen Hsz.
  pose proof (np_index_lt _ _ _ Hk) as Hlt.
  destruct (wf_lookup size self k Hwf Hlt) as (_ & flags & _ & Hf).
  pose proof Hwf as (_ & Ho & Hd & _ & Hfl & _).
  eexists flags, _. split; [done|]. split; [reflexivity|]. split.
  { apply (handle_DATA_at _ _ i); try done; congruence. }
  split.
  { apply wf_with_FLAGS; [apply wf_with_DONE; [apply wf_with_output|]|];
      try done; by rewrite length_insert. }
  cbn. split; [apply list_lookup_insert_eq; lia|].
  split; [apply list_lookup_insert_eq; lia|].
  exists (Z.lor flags 8). split; [apply list_lookup_insert_eq; lia|].
  apply (has_flag_ior_same 3). lia.
Qed.

(** C4: in a table of [size] runs, a DATA message from the address of a run
    [run_id] in [0, size) whose payload has the size of an output record
    stores the payload as the output of that run, sets its [DONE] entry and
    its COMPLETED bit (0x08) and is answered with address, empty frame, ACK;
    a second DATA message for the same run does the same with its own
    payload, which replaces the first. *)
Theorem data_stores_and_acknowledges (size : nat) (self : runner schema)
  (run_id : Z) (payload payload' : bytes) (rest rest' : list bytes) :
  wf size self ->
  0 <= run_id < Z.of_nat size ->
  itemsize (output_vars self) <> 0%nat ->
  String.length payload = itemsize (output_vars self) ->
  String.length payload' = itemsize (output_vars self) ->
  let k := Z.to_nat run_id in
  let ack := [Log DEBUG; Log DEBUG; Log DEBUG; Send [identity run_id; ""; "ACK"]] in
  exists self1 self2 flags1 flags2,
    handle_msg (identity run_id) ("DATA" :: payload :: rest) self
    = (Ok tt, self1, ack)
    /\ output self1 !! k = Some payload
    /\ DONE self1 !! k = Some true
    /\ FLAGS self1 !! k = Some flags1 /\ has_flag COMPLETED flags1 = true
    /\ handle_msg (identity run_id) ("DATA" :: payload' :: rest') self1
       = (Ok tt, self2, ack)
    /\ output self2 !! k = Some payload'
    /\ DONE self2 !! k = Some true
    /\ FLAGS self2 !! k = Some flags2 /\ has_flag COMPLETED flags2 = true.
Proof.
  intros Hwf Hrun Hsz Hlen Hlen' k ack.
  pose proof Hwf as (_ & _ & _ & _ & _ & Hsize).
  assert (reads_as (identity run_id) run_id) as Hread
    by (apply (identity_reads_as size); lia).
  assert (np_index size run_id = Some k) as Hk by (by apply np_index_nonneg).
  destruct (handle_DATA_wf size self _ run_id k payload rest Hwf Hread Hk Hlen Hsz)
    as (f & self1 & _ & Hself1 & H1 & Hwf1 & Ho1 & Hd1 & flags1 & Hf1 & Hc1).
  assert (output_vars self1 = output_vars self) as Hvars by (by subst self1).
  destruct (handle_DATA_wf size self1 _ run_id k payload' rest' Hwf1 Hread Hk)
    as (f' & self2 & _ & _ & H2 & _ & Ho2 & Hd2 & flags2 & Hf2 & Hc2);
    [by rewrite Hvars | by rewrite Hvars |].
  by exists self1, self2, flags1, flags2.
Qed.


(** Two addresses that are read as indices of the same position are handled
    alike: same result, same table, same log records and replies, but for
    the address the replies are sent to. *)
Lemma handle_msg_same_position (size : nat) (self : runner schema)
  (a1 a2 : bytes) (i1 i2 : Z) (msg : list bytes) :
  wf size self ->
  reads_as a1 i1 -> reads_as a2 i2 ->
  np_index size i1 = np_index size i2 ->
  index_error i1 = index_error i2 ->
  forall r self' t,
    handle_msg a2 msg self = (r, self', t) ->
    handle_msg a1 msg self = (r, self', List.map (readdress a1) t).
Proof.
  intros (Hi & Ho & Hd & Ht & Hf & _) [Hp1 Hr1] [Hp2 Hr2] Hidx Herr r self' t.
  unfold Runner.handle_msg, flags_ior.
  rewrite Hp1, Hp2, Hr1, Hr2.
  unfold np_getitem, np_setitem, np_setitem_array.
  destruct msg as [|verb rest]; py_run; [by intros [= <- <- <-]|].
  destruct (String.eqb verb "READY");
    [|destruct (String.eqb verb "DATA");
      [|destruct (String.eqb verb "TIME");
        [|destruct (String.eqb verb "DIE")]]];
    simpl; rewrite ?Hi, ?Ho, ?Hd, ?Ht, ?Hf, ?Hidx, ?Herr;
    repeat case_match; simplify_eq; by intros [= <- <- <-].
Qed.


(** ** Messages from unknown clients *)

(** C1, as far as it holds: a message whose address does not start with the
    four bytes [req_] is logged with a warning and ignored: no reply is
    sent, the table is unchanged, [handle_msg] returns, and [poll] goes on
    with the messages that follow. *)
Theorem unknown_client_is_ignored (self : runner schema) (address : bytes)
  (msg : list bytes) :
  Bytes.take 4 address <> "req_" ->
  handle_msg address msg self = (Ok tt, self, [Log WARNING])
  /\ forall delimiter queue r self' t,
       poll_loop queue self = (r, self', t) ->
       poll_loop ((address :: delimiter :: msg) :: queue) self
       = (r, self', Log WARNING :: t).
Proof.
  intros Hpre.
  assert (handle_msg address msg self = (Ok tt, self, [Log WARNING])) as H.
  { unfold Runner.handle_msg.
    destruct (String.eqb_spec (Bytes.take 4 address) "req_"); [done|].
    reflexivity. }
  split; [done|].
  intros delimiter queue r self' t Hq.
  cbn [Runner.poll_loop]. unfold bind, lift. cbn [list_getitem lookup list_lookup].
  change (skipn 2 (address :: delimiter :: msg)) with msg.
  rewrite H, Hq. reflexivity.
Qed.


(** ** The COMPLETED bit and [DONE] *)

Lemma completed_ior (self : runner schema) (k : nat) (flags bit : Z) :
  completed_iff_done self ->
  FLAGS self !! k = Some flags ->
  has_flag COMPLETED (Z.lor flags bit) = has_flag COMPLETED flags ->
  completed_iff_done (with_FLAGS (<[k:=Z.lor flags bit]> (FLAGS self)) self).
Proof.
  unfold completed_iff_done. cbn. intros Hinv Hk Hbit.
  destruct (Forall2_lookup_l _ _ _ _ _ Hinv Hk) as (done & Hd & Hfd).
  rewrite <- (list_insert_id (DONE self) k done Hd).
  apply Forall2_insert; [done | congruence].
Qed.

Lemma completed_data (self : runner schema) (i : Z) (k1 k2 : nat) (flags : Z)
  (o : list bytes) :
  completed_iff_done self ->
  np_index (length (DONE self)) i = Some k1 ->
  np_index (length (FLAGS self)) i = Some k2 ->
  completed_iff_done
    (with_FLAGS (<[k2:=Z.lor flags 8]> (FLAGS self))
       (with_DONE (<[k1:=true]> (DONE self)) (with_output o self))).
Proof.
  unfold completed_iff_done. cbn. intros Hinv H1 H2.
  rewrite (Forall2_length _ _ _ Hinv) in H2. simplify_eq.
  apply Forall2_insert; [done | apply (has_flag_ior_same 3); lia].
Qed.

Lemma completed_flags_index (self : runner schema) (i : Z) (k : nat) :
  completed_iff_done self ->
  np_index (length (DONE self)) i = Some k ->
  exists flags,
    np_index (length (FLAGS self)) i = Some k /\ FLAGS self !! k = Some flags.
Proof.
  unfold completed_iff_done. intros Hinv Hk.
  pose proof (Forall2_length _ _ _ Hinv) as Hlen.
  destruct (lookup_lt_is_Some_2 (FLAGS self) k) as [flags Hf].
  { rewrite Hlen. by eapply np_index_lt. }
  exists flags. by rewrite Hlen.
Qed.

Lemma handle_msg_completed (self : runner schema) (address : bytes)
  (msg : list bytes) :
  completed_iff_done self ->
  completed_iff_done (snd (fst (handle_msg address msg self))).
Proof.
  intros Hinv. unfold Runner.handle_msg, flags_ior.
  unfold np_getitem, np_setitem, np_setitem_array, list_getitem.
  destruct (String.eqb (Bytes.take 4 address) "req_"); [|done].
  destruct (PyInt.int_of_bytes lim (Bytes.drop 4 address)) as [i|]; [|done].
  destruct msg as [|verb rest]; py_run; [done|].
  destruct (String.eqb verb "READY");
    [|destruct (String.eqb verb "DATA");
      [|destruct (String.eqb verb "TIME");
        [|destruct (String.eqb verb "DIE")]]];
    simpl; repeat case_match; simplify_eq; simpl; try done.
  - apply completed_ior; [done..|]. apply (has_flag_ior_other 3 1); lia.
  - by eapply completed_data.
  - exfalso. edestruct (completed_flags_index self i) as (f & Hi & Hf); [done..|].
    simplify_eq.
  - exfalso. edestruct (completed_flags_index self i) as (f & Hi & Hf); [done..|].
    simplify_eq.
  - apply completed_ior; [done..|]. apply (has_flag_ior_other 3 2); lia.
Qed.

Lemma serve_completed (msgs : list (bytes * list bytes)) :
  forall self : runner schema,
  completed_iff_done self -> completed_iff_done (serve msgs self).
Proof.
  induction msgs as [|[address msg] msgs IH]; intros self Hinv; [done|].
  cbn [RunTable.serve]. by apply IH, handle_msg_completed.
Qed.


Lemma poll_loop_cons (self self1 self2 : runner schema)
  (address delimiter : bytes) (msg : list bytes) (queue : list (list bytes))
  (t1 t2 : list event) (r : result unit) :
  handle_msg address msg self = (Ok tt, self1, t1) ->
  poll_loop queue self1 = (r, self2, t2) ->
  poll_loop ((address :: delimiter :: msg) :: queue) self
  = (r, self2, (t1 ++ t2)%list).
Proof.
  intros H1 H2. cbn [Runner.poll_loop]. unfold bind, lift.
  cbn [list_getitem lookup list_lookup].
  change (skipn 2 (address :: delimiter :: msg)) with msg.
  by rewrite H1, H2.
Qed.

Lemma handle_READY_wf (size : nat) (self : runner schema) (address : bytes)
  (i : Z) (k : nat) (rest : list bytes) :
  wf size self ->
  reads_as address i ->
  np_index size i = Some k ->
  exists self' t,
    handle_msg address ("READY" :: rest) self = (Ok tt, self', t)
    /\ wf size self'
    /\ output_vars self' = output_vars self
    /\ DONE self' = DONE self.
Proof.
  intros Hwf Hread Hk.
  pose proof (np_index_lt _ _ _ Hk) as Hlt.
  destruct (wf_lookup size self k Hwf Hlt) as (record & flags & Hr & Hf).
  pose proof Hwf as (Hi & _ & _ & _ & Hfl & _).
  eexists _, _. split.
  { apply (handle_READY_at _ _ i _ k record flags); try done; congruence. }
  split; [|done]. apply wf_with_FLAGS; [done|]. by rewrite length_insert.
Qed.

Lemma handle_TIME_wf (size : nat) (self : runner schema) (address : bytes)
  (i : Z) (k : nat) (payload : bytes) (rest : list bytes) :
  wf size self ->
  reads_as address i ->
  np_index size i = Some k ->
  String.length payload = uint_itemsize ->
  exists self' t,
    handle_msg address ("TIME" :: payload :: rest) self = (Ok tt, self', t)
    /\ wf size self'
    /\ output_vars self' = output_vars self
    /\ DONE self' = DONE self
    /\ FLAGS self' = FLAGS self.
Proof.
  intros Hwf Hread Hk Hlen.
  pose proof Hwf as (_ & _ & _ & Ht & _ & _).
  eexists _, _. split.
  { apply (handle_TIME_at _ _ i _ _ k); try done; congruence. }
  split; [|done]. apply wf_with_TIME; [done|]. by rewrite length_insert.
Qed.

(** C5: if the COMPLETED bit (0x08) of every run is set exactly when its
    [DONE] entry is true, as in a table in which no flag is set and no run
    is done, then it is so after any sequence of messages the coordinator
    handles, whatever the addresses, verbs and payloads are.  And in a table
    of [size] runs, READY, DATA and TIME from the worker of a run in range,
    with a payload of the size of an output record and an elapsed time of
    the size of an unsigned integer, are all handled without an exception
    and leave the COMPLETED bit set and [DONE] true, whether DATA or TIME
    comes first. *)
Theorem completed_exactly_when_done (self : runner schema)
  (msgs : list (bytes * list bytes)) :
  completed_iff_done self ->
  completed_iff_done (serve msgs self)
  /\ forall (size : nat) (table : runner schema) (run_id : Z)
       (payload elapsed : bytes),
       wf size table ->
       0 <= run_id < Z.of_nat size ->
       itemsize (output_vars table) <> 0%nat ->
       String.length payload = itemsize (output_vars table) ->
       String.length elapsed = uint_itemsize ->
       let address := identity run_id in
       let ready := [address; ""; "READY"] in
       let data := [address; ""; "DATA"; payload] in
       let time := [address; ""; "TIME"; elapsed] in
       forall queue,
         queue = [ready; data; time] \/ queue = [ready; time; data] ->
         exists final t flags,
           poll_loop queue table = (Ok tt, final, t)
           /\ DONE final !! Z.to_nat run_id = Some true
           /\ FLAGS final !! Z.to_nat run_id = Some flags
           /\ has_flag COMPLETED flags = true.
Proof.
  intros Hinv. split; [by apply serve_completed|].
  intros size table run_id payload elapsed Hwf Hrun Hsz Hlen Hlen'
    address ready data time queue Hqueue.
  pose proof Hwf as (_ & _ & _ & _ & _ & Hsize).
  assert (reads_as address run_id) as Hread
    by (apply (identity_reads_as size); lia).
  assert (np_index size run_id = Some (Z.to_nat run_id)) as Hk
    by (by apply np_index_nonneg).
  destruct (handle_READY_wf size table address run_id _ [] Hwf Hread Hk)
    as (s1 & t1 & H1 & Hwf1 & Hv1 & _).
  destruct Hqueue as [-> | ->].
  - destruct (handle_DATA_wf size s1 address run_id _ payload [] Hwf1 Hread Hk)
      as (f & s2 & _ & _ & H2 & Hwf2 & _ & Hd2 & flags & Hf2 & Hc2);
      [by rewrite Hv1 | by rewrite Hv1 |].
    destruct (handle_TIME_wf size s2 address run_id _ elapsed [] Hwf2 Hread Hk Hlen')
      as (s3 & t3 & H3 & _ & _ & Hd3 & Hf3).
    eexists s3, _, flags. split.
    { eapply poll_loop_cons; [exact H1|].
      eapply poll_loop_cons; [exact H2|].
      eapply poll_loop_cons; [exact H3|]. reflexivity. }
    by rewrite Hd3, Hf3.
  - destruct (handle_TIME_wf size s1 address run_id _ elapsed [] Hwf1 Hread Hk Hlen')
      as (s2 & t2 & H2 & Hwf2 & Hv2 & _ & _).
    destruct (handle_DATA_wf size s2 address run_id _ payload [] Hwf2 Hread Hk)
      as (f & s3 & _ & _ & H3 & _ & _ & Hd3 & flags & Hf3 & Hc3);
      [by rewrite Hv2, Hv1 | by rewrite Hv2, Hv1 |].
    eexists s3, _, flags. split; [|done].
    eapply poll_loop_cons; [exact H1|].
    eapply poll_loop_cons; [exact H2|].
    eapply poll_loop_cons; [exact H3|]. reflexivity.
Qed.

End RunnerFacts.
End RunnerFacts.

(** ** The worker *)

Module WorkerFacts.
Import Worker.

Section WorkerFacts.

Variable json_loads : bytes -> option PyVal.pyval.
Variable np_dtype : list PyVal.pyval -> result nat.

Local Abbreviation receive := (receive json_loads np_dtype).
Local Abbreviation after_poll := (after_poll json_loads np_dtype).
Local Abbreviation attempt := (attempt json_loads np_dtype).
Local Abbreviation lazy_pirate := (lazy_pirate json_loads np_dtype).
Local Abbreviation request := (request json_loads np_dtype).

Lemma with_connected_id (self : worker) :
  connected self = true -> with_connected true self = self.
Proof. destruct self as [c r i o t]. cbn. by intros ->. Qed.

Lemma message_with_connected (req : bytes) (b : bool) (self : worker) :
  message req (with_connected b self) = message req self.
Proof. reflexivity. Qed.

Lemma send_request_eq (req : bytes) (self : worker) :
  send_request req self = (Ok tt, self, [Send (message req self); Log DEBUG]).
Proof. reflexivity. Qed.

(** a timeout that leaves tries to spare *)
Lemma after_timeout_continue (req : bytes) (tries : Z) (self : worker) :
  tries < retries self ->
  after_poll req tries Timeout self
  = (Ok (Continue (tries + 1)), with_connected true self,
     [Log WARNING; Sleep; Close; Connect; Log INFO]).
Proof.
  intros H. unfold Worker.after_poll. py_run.
  destruct (Z.leb_spec (retries self + 1) (tries + 1)); [lia|]. reflexivity.
Qed.

(** the timeout that uses up the last try *)
Lemma after_timeout_abandon (req : bytes) (tries : Z) (self : worker) :
  retries self <= tries ->
  after_poll req tries Timeout self
  = (Raise ConnectionError, with_connected false self,
     [Log WARNING; Sleep; Log ERROR; Close]).
Proof.
  intros H. unfold Worker.after_poll. py_run.
  destruct (Z.leb_spec (retries self + 1) (tries + 1)); [|lia]. reflexivity.
Qed.

(** a reply that the body of [try] accepts *)
Lemma after_reply_return (req : bytes) (tries : Z) (response : list bytes)
  (self self1 : worker) (t1 : list event) :
  receive req response self = (Ok tt, self1, t1) ->
  after_poll req tries (Reply response) self = (Ok Return, self1, t1).
Proof.
  intros H. unfold Worker.after_poll, bind, try_malformed. rewrite H.
  py_run. by rewrite !app_nil_r.
Qed.

Lemma receive_ACK (req : bytes) (frames : list bytes) (self : worker) :
  req <> "READY" ->
  receive req ("ACK" :: frames) self = (Ok tt, self, [Log DEBUG]).
Proof.
  intros H. unfold Worker.receive.
  destruct (String.eqb_spec req "READY"); [done|]. reflexivity.
Qed.

Lemma receive_not_ACK (req first : bytes) (frames : list bytes) (self : worker) :
  req <> "READY" -> first <> "ACK" ->
  receive req (first :: frames) self = (Raise AssertionError, self, []).
Proof.
  intros H Hf. unfold Worker.receive.
  destruct (String.eqb_spec req "READY"); [done|]. py_run.
  by destruct (String.eqb_spec first "ACK").
Qed.

(** a reply to DATA or TIME that is not ACK, with tries to spare *)
Lemma after_reply_malformed (req first : bytes) (frames : list bytes)
  (tries : Z) (self : worker) :
  req <> "READY" -> first <> "ACK" ->
  tries <= retries self ->
  after_poll req tries (Reply (first :: frames)) self
  = (Ok (Continue tries), with_connected true self,
     [Log DEBUG; Log ERROR; Close; Connect; Log INFO]).
Proof.
  intros H Hf Ht. unfold Worker.after_poll, bind at 1, try_malformed.
  unfold bind at 1.
  rewrite (receive_not_ACK _ _ _ _ H Hf). py_run.
  destruct (Z.leb_spec (retries self + 1) tries); [lia|]. reflexivity.
Qed.

Lemma sends_app (t t' : list event) :
  sends (t ++ t')%list = (sends t ++ sends t')%list.
Proof.
  induction t as [|e t IH]; [done|]. destruct e; cbn; by rewrite IH.
Qed.

Lemma sleeps_app (t t' : list event) :
  sleeps (t ++ t')%list = (sleeps t + sleeps t')%nat.
Proof.
  induction t as [|e t IH]; [done|]. destruct e; cbn; by rewrite IH.
Qed.

Lemma sends_timeout_rounds (msg : list bytes) (n : nat) :
  sends (concat (repeat (timeout_round msg) n)) = repeat msg n.
Proof. induction n as [|n IH]; [done|]. cbn. by rewrite IH. Qed.

Lemma sleeps_timeout_rounds (msg : list bytes) (n : nat) :
  sleeps (concat (repeat (timeout_round msg) n)) = n.
Proof. induction n as [|n IH]; [done|]. cbn. by rewrite IH. Qed.

Lemma sends_malformed_rounds (msg : list bytes) (n : nat) :
  sends (concat (repeat (malformed_round msg) n)) = repeat msg n.
Proof. induction n as [|n IH]; [done|]. cbn. by rewrite IH. Qed.

Lemma sleeps_malformed_rounds (msg : list bytes) (n : nat) :
  sleeps (concat (repeat (malformed_round msg) n)) = 0%nat.
Proof. induction n as [|n IH]; [done|]. cbn. by rewrite IH. Qed.

(** the loop goes on after a pass that ends in [Continue] *)
Lemma lazy_pirate_continue (p : poll_result) (script : list poll_result)
  (req : bytes) (tries tries' : Z) (self self' : worker) (t : list event) :
  after_poll req tries p self = (Ok (Continue tries'), self', t) ->
  lazy_pirate (p :: script) req tries self
  = let '(o, s, t') := lazy_pirate script req tries' self' in
    (o, s, (Send (message req self) :: Log DEBUG :: t ++ t')%list).
Proof.
  intros H. cbn [Worker.lazy_pirate]. unfold Worker.attempt, bind.
  rewrite send_request_eq, H. reflexivity.
Qed.

Lemma lazy_pirate_return (p : poll_result) (script : list poll_result)
  (req : bytes) (tries : Z) (self self' : worker) (t : list event) :
  after_poll req tries p self = (Ok Return, self', t) ->
  lazy_pirate (p :: script) req tries self
  = (Returned, self', (Send (message req self) :: Log DEBUG :: t)%list).
Proof.
  intros H. cbn [Worker.lazy_pirate]. unfold Worker.attempt, bind.
  rewrite send_request_eq, H. reflexivity.
Qed.

Lemma lazy_pirate_raise (p : poll_result) (script : list poll_result)
  (req : bytes) (tries : Z) (self self' : worker) (t : list event) (e : exn) :
  after_poll req tries p self = (Raise e, self', t) ->
  lazy_pirate (p :: script) req tries self
  = (Raised e, self', (Send (message req self) :: Log DEBUG :: t)%list).
Proof.
  intros H. cbn [Worker.lazy_pirate]. unfold Worker.attempt, bind.
  rewrite send_request_eq, H. reflexivity.
Qed.

(** [n] timeouts that leave the loop running *)
Lemma lazy_pirate_timeouts (req : bytes) (rest : list poll_result) (n : nat) :
  forall (tries : Z) (self : worker),
  connected self = true ->
  tries + Z.of_nat n <= retries self ->
  lazy_pirate (repeat Timeout n ++ rest)%list req tries self
  = let '(o, s, t) := lazy_pirate rest req (tries + Z.of_nat n) self in
    (o, s, (concat (repeat (timeout_round (message req self)) n) ++ t)%list).
Proof.
  induction n as [|n IH]; intros tries self Hc Hn.
  - cbn [repeat app concat]. rewrite Z.add_0_r.
    by destruct (lazy_pirate rest req tries self) as [[o s] t].
  - cbn [repeat app]. 
    rewrite (lazy_pirate_continue _ _ _ _ _ _ _ _
               (after_timeout_continue req tries self ltac:(lia))).
    rewrite (with_connected_id self Hc), IH by (done || lia).
    replace (tries + 1 + Z.of_nat n) with (tries + Z.of_nat (S n)) by lia.
    destruct (lazy_pirate rest req (tries + Z.of_nat (S n)) self) as [[o s] t].
    reflexivity.
Qed.

(** what [request] does before its loop *)
Lemma request_valid (script : list poll_result) (req : bytes) (self : worker) :
  valid_request req ->
  request script req self
  = let '(o, s, t) := lazy_pirate script req 0 (with_connected true self) in
    (o, s, (reconnection (connected self) ++ t)%list).
Proof.
  intros Hv. unfold Worker.request.
  assert (String.eqb req "READY" || String.eqb req "DATA"
          || String.eqb req "TIME" = true) as ->.
  { destruct Hv as [-> | [-> | ->]]; reflexivity. }
  destruct (connected self) eqn:Hc.
  - cbn. rewrite (with_connected_id self Hc).
    by destruct (lazy_pirate script req 0 self) as [[o s] t].
  - py_run. reflexivity.
Qed.

Lemma sends_reconnection (c : bool) : sends (reconnection c) = [].
Proof. by destruct c. Qed.

Lemma sleeps_reconnection (c : bool) : sleeps (reconnection c) = 0%nat.
Proof. by destruct c. Qed.

(** C2: for a request READY, DATA or TIME and a retry count that is not
    negative: when no attempt gets a reply in time, the request is sent
    [retries + 1] times, after which the worker closes its socket and raises
    [ConnectionError], whatever the responder would do next (and it is still
    waiting after any smaller number of timeouts); when the first [retries]
    attempts get no reply in time and the next one gets a reply that the body
    of [try] accepts, [request] returns; for DATA and TIME a reply whose first
    frame is ACK is accepted. *)
Theorem request_retries (self : worker) (req : bytes) :
  valid_request req ->
  0 <= retries self ->
  let n := Z.to_nat (retries self) in
  let msg := message req self in
  let before :=
    (reconnection (connected self)
     ++ concat (repeat (timeout_round msg) n))%list in
  (forall rest,
     request (repeat Timeout (S n) ++ rest)%list req self
     = (Raised ConnectionError, with_connected false self,
        (before ++ last_round msg)%list))
  /\ sends (before ++ last_round msg)%list = repeat msg (S n)
  /\ sleeps (before ++ last_round msg)%list = S n
  /\ (forall k, (k <= n)%nat ->
        fst (fst (request (repeat Timeout k) req self))
        = Waiting (Z.of_nat k))
  /\ (forall response rest self1 t1,
        receive req response (with_connected true self) = (Ok tt, self1, t1) ->
        request (repeat Timeout n ++ Reply response :: rest)%list req self
        = (Returned, self1, (before ++ Send msg :: Log DEBUG :: t1)%list))
  /\ (req <> "READY" ->
      forall frames s, receive req ("ACK" :: frames) s = (Ok tt, s, [Log DEBUG])).
Proof.
  intros Hv Hr n msg before.
  assert (connected (with_connected true self) = true) as Hc by done.
  split; [|split; [|split; [|split; [|split]]]].
  - intros rest. rewrite (request_valid _ _ _ Hv).
    change (repeat Timeout (S n)) with (Timeout :: repeat Timeout n).
    rewrite repeat_cons, <- app_assoc. cbn [app].
    rewrite lazy_pirate_timeouts
      by (first [done | unfold n; cbn [retries with_connected]; lia]).
    rewrite (lazy_pirate_raise _ rest _ _ _ _ _ _
               (after_timeout_abandon req (0 + Z.of_nat n)
                  (with_connected true self) ltac:(unfold n; cbn; lia))).
    unfold before, last_round, msg. by rewrite <- app_assoc.
  - unfold before. rewrite !sends_app, sends_reconnection, sends_timeout_rounds.
    cbn [app sends last_round]. by rewrite <- repeat_cons.
  - unfold before. rewrite !sleeps_app, sleeps_reconnection, sleeps_timeout_rounds.
    cbn. lia.
  - intros k Hk. rewrite (request_valid _ _ _ Hv).
    rewrite <- (app_nil_r (repeat Timeout k)).
    rewrite lazy_pirate_timeouts
      by (first [done | unfold n; cbn [retries with_connected]; lia]).
    reflexivity.
  - intros response rest self1 t1 Hrecv. rewrite (request_valid _ _ _ Hv).
    rewrite lazy_pirate_timeouts
      by (first [done | unfold n; cbn [retries with_connected]; lia]).
    rewrite (lazy_pirate_return _ _ _ _ _ _ _
               (after_reply_return _ _ _ _ _ _ Hrecv)).
    unfold before, msg. by rewrite <- app_assoc.
  - intros Hreq frames s. by apply receive_ACK.
Qed.

Lemma not_ready (req : bytes) : req = "DATA" \/ req = "TIME" -> req <> "READY".
Proof. by intros [-> | ->]. Qed.

Lemma data_time_valid (req : bytes) :
  req = "DATA" \/ req = "TIME" -> valid_request req.
Proof. unfold valid_request. tauto. Qed.

(** replies that are not ACK leave the loop running, with [tries] as it was *)
Lemma lazy_pirate_malformed (req : bytes) (script : list poll_result) :
  forall (tries : Z) (self : worker),
  req = "DATA" \/ req = "TIME" ->
  connected self = true ->
  tries <= retries self ->
  Forall not_ACK script ->
  lazy_pirate script req tries self
  = (Waiting tries, self,
     (concat (repeat (malformed_round (message req self)) (length script))
      ++ [Send (message req self); Log DEBUG])%list).
Proof.
  induction script as [|p script IH]; intros tries self Hreq Hc Ht Hall; [done|].
  apply Forall_cons in Hall as [(first & frames & -> & Hfirst) Hall].
  rewrite (lazy_pirate_continue _ _ _ _ _ _ _ _
             (after_reply_malformed req first frames tries self
                (not_ready _ Hreq) Hfirst Ht)).
  rewrite (with_connected_id self Hc), IH by done. reflexivity.
Qed.

(** what the counter of tries is made of, for DATA and TIME and a script of
    timeouts and replies that are not ACK *)
Lemma tries_are_timeouts (req : bytes) (script : list poll_result) :
  forall (tries : Z) (self : worker),
  req = "DATA" \/ req = "TIME" ->
  tries <= retries self ->
  Forall (fun p => p = Timeout \/ not_ACK p) script ->
  match fst (fst (lazy_pirate script req tries self)) with
  | Waiting tries' => tries' = tries + timeouts script
  | Raised e => e = ConnectionError /\ retries self + 1 <= tries + timeouts script
  | Returned => False
  end.
Proof.
  induction script as [|p script IH]; intros tries self Hreq Ht Hall.
  - cbn. lia.
  - apply Forall_cons in Hall as [Hp Hall].
    assert (0 <= timeouts script) as Hpos.
    { clear. induction script as [|[|r] script IH]; cbn [timeouts]; lia. }
    destruct Hp as [-> | (first & frames & -> & Hfirst)].
    + destruct (Z.lt_ge_cases tries (retries self)) as [Hlt | Hge].
      * rewrite (lazy_pirate_continue _ _ _ _ _ _ _ _
                   (after_timeout_continue req tries self Hlt)).
        specialize (IH (tries + 1) (with_connected true self) Hreq
                      ltac:(cbn; lia) Hall).
        destruct (lazy_pirate script req (tries + 1) (with_connected true self))
          as [[o s] t].
        cbn [fst timeouts] in *.
        destruct o; cbn [retries with_connected] in IH;
          [done | destruct IH; split; [done | lia] | lia].
      * rewrite (lazy_pirate_raise _ _ _ _ _ _ _ _
                   (after_timeout_abandon req tries self Hge)).
        cbn [fst timeouts]. split; [done | lia].
    + rewrite (lazy_pirate_continue _ _ _ _ _ _ _ _
                 (after_reply_malformed req first frames tries self
                    (not_ready _ Hreq) Hfirst Ht)).
      specialize (IH tries (with_connected true self) Hreq ltac:(cbn; lia) Hall).
      destruct (lazy_pirate script req tries (with_connected true self))
        as [[o s] t].
      cbn [fst timeouts] in *.
      destruct o; cbn [retries with_connected] in IH;
        [done | destruct IH; split; [done | lia] | lia].
Qed.

(** C6: for DATA and TIME, in a pass through the loop that starts with
    [tries <= retries] (as every pass does when [retries] is not negative),
    a reply whose first frame is not ACK leaves [tries] as it is: the error
    is logged, the socket is closed and a new one connected, nothing sleeps,
    and the loop goes on with the same request.  So in a script of timeouts
    and such replies the counter is the number of timeouts, and
    [ConnectionError] takes [retries + 1] of them. *)
Theorem malformed_reply_is_not_counted (self : worker) (req first : bytes)
  (frames : list bytes) (tries : Z) :
  req = "DATA" \/ req = "TIME" ->
  first <> "ACK" ->
  tries <= retries self ->
  let msg := message req self in
  attempt req tries (Reply (first :: frames)) self
  = (Ok (Continue tries), with_connected true self, malformed_round msg)
  /\ message req (with_connected true self) = msg
  /\ sleeps (malformed_round msg) = 0%nat
  /\ (forall script,
        lazy_pirate (Reply (first :: frames) :: script) req tries self
        = let '(o, s, t) :=
            lazy_pirate script req tries (with_connected true self) in
          (o, s, (malformed_round msg ++ t)%list))
  /\ (forall script,
        Forall (fun p => p = Timeout \/ not_ACK p) script ->
        match fst (fst (lazy_pirate script req tries self)) with
        | Waiting tries' => tries' = tries + timeouts script
        | Raised e =>
            e = ConnectionError /\ retries self + 1 <= tries + timeouts script
        | Returned => False
        end).
Proof.
  intros Hreq Hfirst Ht msg.
  pose proof (after_reply_malformed req first frames tries self
                (not_ready _ Hreq) Hfirst Ht) as Hafter.
  split; [|split; [done|split; [done|split]]].
  - unfold Worker.attempt, bind. rewrite send_request_eq, Hafter. reflexivity.
  - intros script. by rewrite (lazy_pirate_continue _ _ _ _ _ _ _ _ Hafter).
  - intros script Hall. by apply tries_are_timeouts.
Qed.

(** C10: for DATA and TIME and a retry count that is not negative, as long
    as every reply comes in time with a first frame that is not ACK,
    [request] neither returns nor raises: after any number of such replies
    it is waiting for the next one, with [tries] still 0, having sent the
    request once more than it got replies and never slept.  The responder
    that always answers NAK is one that does this. *)
Theorem request_may_loop_forever (self : worker) (req : bytes)
  (script : list poll_result) :
  req = "DATA" \/ req = "TIME" ->
  0 <= retries self ->
  Forall not_ACK script ->
  let msg := message req self in
  let t :=
    (reconnection (connected self)
     ++ concat (repeat (malformed_round msg) (length script))
     ++ [Send msg; Log DEBUG])%list in
  request script req self = (Waiting 0, with_connected true self, t)
  /\ sends t = repeat msg (S (length script))
  /\ sleeps t = 0%nat
  /\ forall n, Forall not_ACK (repeat (Reply ["NAK"]) n).
Proof.
  intros Hreq Hr Hall msg t.
  split; [|split; [|split]].
  - rewrite (request_valid _ _ _ (data_time_valid _ Hreq)).
    by rewrite lazy_pirate_malformed.
  - unfold t. rewrite !sends_app, sends_reconnection, sends_malformed_rounds.
    cbn [app sends]. by rewrite <- repeat_cons.
  - unfold t. by rewrite !sleeps_app, sleeps_reconnection, sleeps_malformed_rounds.
  - intros n. induction n as [|n IH]; constructor; [|done].
    by exists "NAK", [].
Qed.

(** C7, as far as it holds: a request other than READY, DATA and TIME makes
    [request] raise [ValueError] before anything is sent and without a
    poll; a worker that is connected is left as it was, and nothing at all
    is done; a worker that is not connected is connected first, which is
    logged. *)
Theorem invalid_request_raises (self : worker) (req : bytes)
  (script : list poll_result) :
  ~ valid_request req ->
  request script req self
  = (Raised ValueError, with_connected true self,
     reconnection (connected self))
  /\ sends (reconnection (connected self)) = []
  /\ (connected self = true ->
      request script req self = (Raised ValueError, self, [])).
Proof.
  intros Hv. unfold valid_request in Hv.
  assert (request script req self
          = (Raised ValueError, with_connected true self,
             reconnection (connected self))) as H.
  { unfold Worker.request.
    destruct (String.eqb_spec req "READY"); [tauto|].
    destruct (String.eqb_spec req "DATA"); [tauto|].
    destruct (String.eqb_spec req "TIME"); [tauto|].
    destruct (connected self) eqn:Hc; py_run; [|done].
    by rewrite (with_connected_id self Hc). }
  split; [done|]. split; [apply sends_reconnection|].
  intros Hc. by rewrite H, Hc, (with_connected_id self Hc).
Qed.

End WorkerFacts.
End WorkerFacts.

(** ** The two sides on the campaign of three runs *)

Module ExampleFacts.

Example ready_run_1 :
  Example.handle_msg "req_1" ["READY"] Example.table
  = (Ok tt, Runner.with_FLAGS [0; 2; 0] Example.table,
     [Log DEBUG; Log DEBUG;
      Send ["req_1"; ""; "input schema"; "a1"; "output schema"]]).
Proof. reflexivity. Qed.

Example data_of_the_wrong_size :
  Example.handle_msg "req_1" ["DATA"; "xyz"] Example.table
  = (Raise ValueError, Example.table, [Log DEBUG]).
Proof. reflexivity. Qed.

Example unknown_verb :
  Example.handle_msg "req_1" ["HELLO"] Example.table
  = (Ok tt, Example.table, [Log DEBUG; Log WARNING]).
Proof. reflexivity. Qed.

Example poll_three_messages :
  Runner.poll Example.json_dumps Example.itemsize Example.int_max_str_digits
    [["req_1"; ""; "READY"]; ["worker-7"; ""; "READY"];
     ["req_2"; ""; "DATA"; "xy"]]
    Example.table
  = (Ok tt,
     Runner.with_FLAGS [0; 2; 8]
       (Runner.with_DONE [false; false; true]
          (Runner.with_output [Bytes.zeros 2; Bytes.zeros 2; "xy"]
             Example.table)),
     [Log DEBUG; Log DEBUG; Log DEBUG;
      Send ["req_1"; ""; "input schema"; "a1"; "output schema"];
      Log WARNING;
      Log DEBUG; Log DEBUG; Log DEBUG; Send ["req_2"; ""; "ACK"]]).
Proof. reflexivity. Qed.

(** READY is answered after three timeouts: the worker takes the record *)
Example ready_after_three_timeouts :
  exists t,
    Example.request Example.late_READY "READY" Example.worker
    = (Worker.Returned,
       Worker.with_output (Bytes.zeros 8)
         (Worker.with_input "abcdefgh"
            (Worker.with_connected true Example.worker)), t)
    /\ sends t = [["READY"]; ["READY"]; ["READY"]; ["READY"]].
Proof. eexists. split; reflexivity. Qed.

(** a reply to READY that is not JSON is tried again, one whose output
    schema has a column without a shape ends the request with the
    [IndexError] of [column[2]] *)
Example ready_not_json :
  fst (fst (Example.request [Worker.Reply ["?"; "ab"; "[]"]] "READY"
              Example.worker))
  = Worker.Waiting 0.
Proof. reflexivity. Qed.

Example ready_column_without_shape :
  fst (fst (Example.request
              [Worker.Reply [Example.dumps Example.fields_in; "abcdefgh";
                             Example.dumps Example.fields_out_unshaped]]
              "READY" Example.worker))
  = Worker.Raised IndexError.
Proof. reflexivity. Qed.

End ExampleFacts.

(** ** The theorems on the campaign of three runs and on its worker *)

Module Witness.
Import RunTable.

Lemma example_wf : wf 3 Example.table.
Proof. unfold wf. repeat split; reflexivity. Defined.

Lemma ready_replies_and_assigns_witness :
  wf 3 Example.table /\ 0 <= 1 < 3
  /\ exists record flags,
       Example.handle_msg (identity 1) ["READY"] Example.table
       = (Ok tt,
          Runner.with_FLAGS (<[1%nat := Z.lor flags 2]> (Runner.FLAGS Example.table))
            Example.table,
          [Log DEBUG; Log DEBUG;
           Send ["req_1"; ""; "input schema"; record; "output schema"]]).
Proof.
  split; [exact example_wf|]. split; [lia|].
  destruct (RunnerFacts.ready_replies_and_assigns Example.json_dumps
              Example.itemsize Example.int_max_str_digits 3 Example.table 1 []
              example_wf ltac:(lia))
    as (record & flags & _ & _ & H & _).
  exists record, flags. exact H.
Defined.

Lemma data_stores_and_acknowledges_witness :
  wf 3 Example.table /\ 0 <= 2 < 3
  /\ exists self1 self2,
       Example.handle_msg (identity 2) ["DATA"; "xy"] Example.table
       = (Ok tt, self1,
          [Log DEBUG; Log DEBUG; Log DEBUG; Send ["req_2"; ""; "ACK"]])
       /\ Runner.output self1 !! 2%nat = Some "xy"
       /\ Example.handle_msg (identity 2) ["DATA"; "zw"] self1
          = (Ok tt, self2,
             [Log DEBUG; Log DEBUG; Log DEBUG; Send ["req_2"; ""; "ACK"]])
       /\ Runner.output self2 !! 2%nat = Some "zw"
       /\ Runner.DONE self2 !! 2%nat = Some true.
Proof.
  split; [exact example_wf|]. split; [lia|].
  destruct (RunnerFacts.data_stores_and_acknowledges Example.json_dumps
              Example.itemsize Example.int_max_str_digits 3 Example.table 2
              "xy" "zw" [] [] example_wf ltac:(lia) ltac:(discriminate)
              eq_refl eq_refl)
    as (self1 & self2 & f1 & f2 & H1 & Ho1 & _ & _ & _ & H2 & Ho2 & Hd2 & _).
  exists self1, self2. repeat split; assumption.
Defined.


Lemma unknown_client_is_ignored_witness :
  Bytes.take 4 "worker-7" <> "req_"
  /\ Example.handle_msg "worker-7" ["DATA"; "xy"] Example.table
     = (Ok tt, Example.table, [Log WARNING]).
Proof.
  split; [discriminate|].
  exact (proj1 (RunnerFacts.unknown_client_is_ignored Example.json_dumps
                  Example.itemsize Example.int_max_str_digits Example.table
                  "worker-7" ["DATA"; "xy"] ltac:(discriminate))).
Defined.

Lemma example_completed_iff_done : completed_iff_done Example.table.
Proof. unfold completed_iff_done. repeat constructor. Defined.

Lemma completed_exactly_when_done_witness :
  completed_iff_done Example.table
  /\ completed_iff_done
       (serve Example.json_dumps Example.itemsize Example.int_max_str_digits
          [("req_1", ["READY"]); ("req_-1", ["DATA"; "xy"]);
           ("req_1", ["DIE"]); ("req_9", ["DATA"; "xy"]);
           ("req_0", ["DATA"; "toolong"])]
          Example.table).
Proof.
  split; [exact example_completed_iff_done|].
  exact (proj1 (RunnerFacts.completed_exactly_when_done Example.json_dumps
                  Example.itemsize Example.int_max_str_digits Example.table _
                  example_completed_iff_done)).
Defined.

Lemma example_valid : valid_request "TIME".
Proof. right. right. reflexivity. Defined.

Lemma request_retries_witness :
  valid_request "TIME" /\ 0 <= Worker.retries Example.worker
  /\ fst (fst (Example.request Example.silence "TIME" Example.worker))
     = Worker.Raised ConnectionError
  /\ fst (fst (Example.request Example.late_ACK "TIME" Example.worker))
     = Worker.Returned.
Proof.
  split; [exact example_valid|]. split; [discriminate|].
  pose proof (WorkerFacts.request_retries Example.json_loads Example.np_dtype
                Example.worker "TIME" example_valid ltac:(discriminate)) as H.
  cbv zeta in H. destruct H as (Hraise & _ & _ & _ & Hreturn & Hack).
  split.
  - exact (f_equal (fun x => fst (fst x)) (Hraise [Worker.Reply ["ACK"]])).
  - exact (f_equal (fun x => fst (fst x))
             (Hreturn ["ACK"] [] _ _ (Hack ltac:(discriminate) [] _))).
Defined.

Lemma malformed_reply_is_not_counted_witness :
  ("DATA" = "DATA" \/ "DATA" = "TIME") /\ "NAK" <> "ACK"
  /\ 0 <= Worker.retries Example.worker
  /\ Worker.attempt Example.json_loads Example.np_dtype "DATA" 0
       (Worker.Reply ["NAK"]) Example.worker
     = (Ok (Worker.Continue 0), Worker.with_connected true Example.worker,
        malformed_round ["DATA"; "oo"]).
Proof.
  split; [by left|]. split; [discriminate|]. split; [discriminate|].
  exact (proj1 (WorkerFacts.malformed_reply_is_not_counted Example.json_loads
                  Example.np_dtype Example.worker "DATA" "NAK" [] 0
                  (or_introl eq_refl) ltac:(discriminate) ltac:(discriminate))).
Defined.

Lemma example_not_ACK : Forall not_ACK Example.three_NAK.
Proof.
  repeat constructor; exists "NAK", []; (split; [reflexivity | discriminate]).
Defined.

Lemma request_may_loop_forever_witness :
  ("DATA" = "DATA" \/ "DATA" = "TIME") /\ 0 <= Worker.retries Example.worker
  /\ Forall not_ACK Example.three_NAK
  /\ fst (fst (Example.request Example.three_NAK "DATA" Example.worker))
     = Worker.Waiting 0.
Proof.
  split; [by left|]. split; [discriminate|]. split; [exact example_not_ACK|].
  exact (f_equal (fun x => fst (fst x))
           (proj1 (WorkerFacts.request_may_loop_forever Example.json_loads
                     Example.np_dtype Example.worker "DATA" _
                     (or_introl eq_refl) ltac:(discriminate) example_not_ACK))).
Defined.

Lemma example_invalid : ~ valid_request "DIE".
Proof. intros [H | [H | H]]; discriminate H. Defined.

Lemma invalid_request_raises_witness :
  ~ valid_request "DIE"
  /\ Example.request [Worker.Reply ["ACK"]] "DIE"
       (Worker.with_connected true Example.worker)
     = (Worker.Raised ValueError, Worker.with_connected true Example.worker, []).
Proof.
  split; [exact example_invalid|].
  exact (proj2 (proj2 (WorkerFacts.invalid_request_raises Example.json_loads
                         Example.np_dtype (Worker.with_connected true Example.worker)
                         "DIE" [Worker.Reply ["ACK"]] example_invalid)) eq_refl).
Defined.

End Witness.

(** ** Where the behaviour differs from what one may expect *)

Module Counterexample.


(** C1 fails as it is stated.  In the campaign of three runs, [req_-1] is
    not the address of a run in [0, 3), yet a DATA message from it is
    acknowledged and overwrites the output, [DONE] and [FLAGS] of the last
    run; READY from [req_3], one past the last run, makes [handle_msg] raise
    [IndexError]; and [req_x] makes it raise [ValueError]. *)
Lemma out_of_range_address_is_not_ignored :
  PyInt.int_of_bytes Example.int_max_str_digits (Bytes.drop 4 "req_-1")
  = Some (-1)
  /\ ~ (0 <= -1 < 3)
  /\ Example.handle_msg "req_-1" ["DATA"; "xy"] Example.table
  = (Ok tt,
     Runner.with_FLAGS [0; 0; 8]
       (Runner.with_DONE [false; false; true]
          (Runner.with_output [Bytes.zeros 2; Bytes.zeros 2; "xy"] Example.table)),
     [Log DEBUG; Log DEBUG; Log DEBUG; Send ["req_-1"; ""; "ACK"]])
  /\ Example.handle_msg "req_3" ["READY"] Example.table
     = (Raise IndexError, Example.table, [Log DEBUG])
  /\ Example.handle_msg "req_x" ["READY"] Example.table
     = (Raise ValueError, Example.table, []).
Proof. repeat split. lia. Qed.

(** C7 fails as it is stated.  A worker without a connection that is asked
    for DIE connects a socket, and counts as connected from then on, before
    [ValueError] is raised. *)
Lemma invalid_request_connects_first :
  Worker.connected Example.worker = false
  /\ Example.request [] "DIE" Example.worker
     = (Worker.Raised ValueError, Worker.with_connected true Example.worker,
        [Log INFO; Connect; Log INFO])
  /\ Worker.with_connected true Example.worker <> Example.worker.
Proof. repeat split. discriminate. Qed.


End Counterexample.

(** * More on [int()] *)

Module PyIntMore.
Import PyInt.

Lemma space_facts :
  Py_ISSPACE " " = true /\ Py_ISSPACE "+" = false
  /\ Ascii.eqb "+" "+" = true
  /\ digit_value "0" = Some 0 /\ Py_ISSPACE "0" = false
  /\ Ascii.eqb "0" "+" = false /\ Ascii.eqb "0" "-" = false
  /\ Ascii.eqb "0" "_" = false.
Proof. by vm_compute. Qed.

(** the digits of a number, behind a plus sign, a space or a zero *)
Lemma int_of_bytes_variants (lim : nat) (n : Z) :
  0 <= n < 10 ^ 639 ->
  int_of_bytes lim (String "+" (digits n)) = Some n
  /\ int_of_bytes lim (String " " (digits n)) = Some n
  /\ int_of_bytes lim (String "0" (digits n)) = Some n.
Proof.
  intros Hn.
  assert (10 ^ 639 < 10 ^ 640) as Hpow by (by vm_compute).
  pose proof (PyIntFacts.int_of_digits lim 1 n ltac:(lia)) as Hscan.
  clear Hpow.
  destruct (PyIntFacts.scan_digits_fuel (Z.to_nat (Z.log2 n)) n EmptyString
              false 0 1) as (k & Hk & Hscan0 & Hbound).
  { split; [lia | apply PyIntFacts.digits_fuel_enough; lia]. }
  assert (k <= 639)%nat as Hle.
  { apply Hbound; [lia|]. change (Z.of_nat 639) with 639. lia. }
  unfold digits in *.
  destruct (PyIntFacts.digits_fuel_head (Z.to_nat (Z.log2 n)) n EmptyString)
    as (d & tail & Hd & Heq); [lia|].
  rewrite Heq in *.
  destruct (PyIntFacts.digit_char_facts d Hd) as (_ & Hs & Hp & Hm & Hu).
  destruct (scan_digits false 0 0 (String (digit_char d) tail))
    as [[[v nd] rest]|] eqn:E; [|done].
  destruct Hscan as (-> & -> & Hnd & Hlimit).
  apply Nat.eqb_neq in Hnd.
  split; [|split].
  - unfold int_of_bytes. cbn [skip_spaces].
    change (Py_ISSPACE "+") with false. cbv iota.
    change (Ascii.eqb "+" "+") with true. cbv iota.
    rewrite Hu, E, Hlimit, Hnd. cbn [skip_spaces]. f_equal. lia.
  - unfold int_of_bytes. cbn [skip_spaces].
    change (Py_ISSPACE " ") with true. cbv iota.
    rewrite Hs, Hp, Hm, Hu, E, Hlimit, Hnd. cbn [skip_spaces]. f_equal. lia.
  - unfold int_of_bytes. cbn [skip_spaces].
    change (Py_ISSPACE "0") with false. cbv iota.
    change (Ascii.eqb "0" "+") with false.
    change (Ascii.eqb "0" "-") with false.
    change (Ascii.eqb "0" "_") with false. cbv iota.
    change (scan_digits false 0 0 (String "0" (String (digit_char d) tail)))
      with (scan_digits false 0 1 (String (digit_char d) tail)).
    rewrite Hscan0. cbn [scan_digits].
    unfold over_digit_limit, MAX_STR_DIGITS_THRESHOLD.
    replace (Nat.ltb 640 (1 + k)) with false
      by (symmetry; apply Nat.ltb_ge; lia).
    cbn [andb Nat.eqb Nat.add skip_spaces]. f_equal. lia.
Qed.

End PyIntMore.

(** * More on the coordinator *)

Module RunnerMore.
Import Runner RunTable Evolution.

Section RunnerMore.

Context {schema : Type}.
Variable json_dumps : schema -> bytes.
Variable itemsize : schema -> nat.
Variable lim : nat.

Local Abbreviation handle_msg := (handle_msg json_dumps itemsize lim).
Local Abbreviation poll_loop := (poll_loop json_dumps itemsize lim).
Local Abbreviation serve := (serve json_dumps itemsize lim).
Local Abbreviation reads_as := (reads_as lim).

Lemma evolves_refl (self : runner schema) : evolves self self.
Proof.
  unfold evolves. repeat split; try done.
  intros k flags H. exists 0. by rewrite Z.lor_0_r.
Qed.

Lemma evolves_trans (s1 s2 s3 : runner schema) :
  evolves s1 s2 -> evolves s2 s3 -> evolves s1 s3.
Proof.
  intros (? & ? & ? & ? & ? & ? & ? & Hd1 & Hf1)
         (? & ? & ? & ? & ? & ? & ? & Hd2 & Hf2).
  unfold evolves. repeat split; try congruence.
  - intros k Hk. by apply Hd2, Hd1.
  - intros k flags Hk. destruct (Hf1 k flags Hk) as (b1 & Hb1).
    destruct (Hf2 k _ Hb1) as (b2 & Hb2).
    exists (Z.lor b1 b2). by rewrite Z.lor_assoc.
Qed.

Lemma evolves_output (self : runner schema) (k : nat) (x : bytes) :
  evolves self (with_output (<[k:=x]> (output self)) self).
Proof.
  unfold evolves. cbn. rewrite length_insert. repeat split; try done.
  intros j flags H. exists 0. by rewrite Z.lor_0_r.
Qed.

Lemma evolves_TIME (self : runner schema) (k : nat) (x : Z) :
  evolves self (with_TIME (<[k:=x]> (TIME self)) self).
Proof.
  unfold evolves. cbn. rewrite length_insert. repeat split; try done.
  intros j flags H. exists 0. by rewrite Z.lor_0_r.
Qed.

Lemma evolves_DONE (self : runner schema) (k : nat) :
  evolves self (with_DONE (<[k:=true]> (DONE self)) self).
Proof.
  unfold evolves. cbn. rewrite length_insert. repeat split; try done.
  - intros j Hj. destruct (decide (k = j)) as [<-|Hne].
    + apply list_lookup_insert_eq. by eapply lookup_lt_Some.
    + by rewrite list_lookup_insert_ne.
  - intros j flags H. exists 0. by rewrite Z.lor_0_r.
Qed.

Lemma evolves_FLAGS (self : runner schema) (k : nat) (flags bit : Z) :
  FLAGS self !! k = Some flags ->
  evolves self (with_FLAGS (<[k:=Z.lor flags bit]> (FLAGS self)) self).
Proof.
  intros Hk. unfold evolves. cbn. rewrite length_insert.
  repeat split; try done.
  intros j f Hj. destruct (decide (k = j)) as [<-|Hne].
  - exists bit. simplify_eq.
    apply list_lookup_insert_eq. by eapply lookup_lt_Some.
  - exists 0. by rewrite list_lookup_insert_ne, Z.lor_0_r.
Qed.

Ltac evolve :=
  lazymatch goal with
  | |- evolves ?s ?s => apply evolves_refl
  | |- evolves ?s (with_FLAGS (<[?k:=Z.lor ?f ?b]> _) ?s') =>
      apply (evolves_trans s s');
      [evolve | apply (evolves_FLAGS s' k f b); assumption]
  | |- evolves ?s (with_DONE (<[?k:=true]> _) ?s') =>
      apply (evolves_trans s s'); [evolve | apply (evolves_DONE s' k)]
  | |- evolves ?s (with_output (<[?k:=?x]> _) ?s') =>
      apply (evolves_trans s s'); [evolve | apply (evolves_output s' k x)]
  | |- evolves ?s (with_TIME (<[?k:=?x]> _) ?s') =>
      apply (evolves_trans s s'); [evolve | apply (evolves_TIME s' k x)]
  end.

(** every message, whatever [handle_msg] makes of it *)
Lemma handle_msg_evolves (self : runner schema) (address : bytes)
  (msg : list bytes) :
  evolves self (snd (fst (handle_msg address msg self))).
Proof.
  unfold Runner.handle_msg, flags_ior.
  unfold np_getitem, np_setitem, np_setitem_array, list_getitem.
  destruct (String.eqb (Bytes.take 4 address) "req_"); [|apply evolves_refl].
  destruct (PyInt.int_of_bytes lim (Bytes.drop 4 address)) as [i|];
    [|apply evolves_refl].
  destruct msg as [|verb rest]; py_run; [apply evolves_refl|].
  destruct (String.eqb verb "READY");
    [|destruct (String.eqb verb "DATA");
      [|destruct (String.eqb verb "TIME");
        [|destruct (String.eqb verb "DIE")]]];
    simpl; repeat case_match; simplify_eq; simpl; evolve.
Qed.

Lemma serve_evolves (msgs : list (bytes * list bytes)) :
  forall self : runner schema, evolves self (serve msgs self).
Proof.
  induction msgs as [|[address msg] msgs IH]; intros self;
    [apply evolves_refl|].
  cbn [RunTable.serve]. eapply evolves_trans; [|apply IH].
  apply handle_msg_evolves.
Qed.

Lemma has_flag_lor (mask flags bits : Z) :
  has_flag mask flags = true -> has_flag mask (Z.lor flags bits) = true.
Proof.
  unfold has_flag. intros H%Z.eqb_eq. apply Z.eqb_eq.
  rewrite Z.land_lor_distr_l, H.
  apply Z.bits_inj'. intros n Hn.
  rewrite Z.lor_spec, Z.land_spec.
  destruct (Z.testbit mask n); [done | by rewrite andb_false_r].
Qed.

(** X1: whatever the messages are that the coordinator handles, also
    those it raises on, the inputs and the two schemas of the table stay as
    they are and every column keeps its length: a table of [size] runs stays
    one. *)
Theorem serve_keeps_the_inputs (size : nat) (self : runner schema)
  (msgs : list (bytes * list bytes)) :
  wf size self ->
  let self' := serve msgs self in
  wf size self'
  /\ input self' = input self
  /\ input_vars self' = input_vars self
  /\ output_vars self' = output_vars self.
Proof.
  intros (Hi & Ho & Hd & Ht & Hf & Hsize) self'.
  destruct (serve_evolves msgs self) as (Hiv & Hov & Hin & Hlo & Hld & Hlt & Hlf & _).
  fold self' in Hiv, Hov, Hin, Hlo, Hld, Hlt, Hlf.
  split; [|done]. unfold wf. repeat split; congruence.
Qed.

(** X2: a run that is done stays done, and a flag that is set stays set,
    whatever messages the coordinator handles afterwards and from whom. *)
Theorem serve_never_clears (self : runner schema)
  (msgs : list (bytes * list bytes)) (k : nat) :
  let self' := serve msgs self in
  (DONE self !! k = Some true -> DONE self' !! k = Some true)
  /\ (forall mask flags,
        FLAGS self !! k = Some flags -> has_flag mask flags = true ->
        exists flags',
          FLAGS self' !! k = Some flags' /\ has_flag mask flags' = true).
Proof.
  intros self'.
  destruct (serve_evolves msgs self) as (_ & _ & _ & _ & _ & _ & _ & Hd & Hf).
  split; [apply Hd|].
  intros mask flags Hk Hm. destruct (Hf k flags Hk) as (bits & Hb).
  exists (Z.lor flags bits). split; [done | by apply has_flag_lor].
Qed.

Lemma np_index_lookup {A} (l : list A) (i : Z) (k : nat) :
  np_index (length l) i = Some k -> l !! k = None -> False.
Proof.
  intros Hi Hk. apply np_index_lt in Hi.
  apply lookup_ge_None in Hk. lia.
Qed.

(** X3: in a table of [size] runs a message on which [handle_msg] raises
    has no effect: the table is as before and no reply was sent. *)
Theorem raising_message_has_no_effect (size : nat) (self self' : runner schema)
  (address : bytes) (msg : list bytes) (e : exn) (t : list event) :
  wf size self ->
  handle_msg address msg self = (Raise e, self', t) ->
  self' = self /\ sends t = [].
Proof.
  intros (Hi & Ho & Hd & Ht & Hf & _).
  unfold Runner.handle_msg, flags_ior.
  unfold np_getitem, np_setitem, np_setitem_array, list_getitem.
  destruct (String.eqb (Bytes.take 4 address) "req_"); [|done].
  destruct (PyInt.int_of_bytes lim (Bytes.drop 4 address)) as [i|];
    [|by intros [= <- <- <-]].
  destruct msg as [|verb rest]; py_run; [by intros [= <- <- <-]|].
  destruct (String.eqb verb "READY");
    [|destruct (String.eqb verb "DATA");
      [|destruct (String.eqb verb "TIME");
        [|destruct (String.eqb verb "DIE")]]];
    simpl; rewrite ?Hi, ?Ho, ?Hd, ?Ht, ?Hf;
    repeat case_match; simplify_eq; simpl; intros [= <- <- <-]; try done.
  all: exfalso;
    match goal with
    | H : _ !! ?n = None, Hn : np_index _ _ = Some ?n |- _ =>
        apply lookup_ge_None in H; apply np_index_lt in Hn; lia
    end.
Qed.

(** X4: [handle_msg] sends at most one reply for a message, and sends it
    to the address the message came from, behind an empty frame: the reply
    is the acknowledgement or the three frames of an assignment. *)
Theorem at_most_one_reply_to_the_sender (self : runner schema)
  (address : bytes) (msg : list bytes) :
  let t := snd (handle_msg address msg self) in
  sends t = []
  \/ sends t = [[address; ""; "ACK"]]
  \/ exists record,
       sends t = [[address; ""; json_dumps (input_vars self); record;
                   json_dumps (output_vars self)]].
Proof.
  unfold Runner.handle_msg, flags_ior.
  unfold np_getitem, np_setitem, np_setitem_array, list_getitem.
  destruct (String.eqb (Bytes.take 4 address) "req_"); [|by left].
  destruct (PyInt.int_of_bytes lim (Bytes.drop 4 address)) as [i|];
    [|by left].
  destruct msg as [|verb rest]; py_run; [by left|].
  destruct (String.eqb verb "READY");
    [|destruct (String.eqb verb "DATA");
      [|destruct (String.eqb verb "TIME");
        [|destruct (String.eqb verb "DIE")]]];
    simpl; repeat case_match; simplify_eq; simpl;
    first [by left | by right; left | right; right; by eexists].
Qed.

(** X5: a message with a verb other than READY, DATA, TIME and DIE from an
    address that is read as a run id, in range or not, is logged with a
    warning and changes nothing; no reply is sent. *)
Theorem unknown_verb_is_ignored (self : runner schema) (address verb : bytes)
  (rest : list bytes) (i : Z) :
  reads_as address i ->
  verb <> "READY" -> verb <> "DATA" -> verb <> "TIME" -> verb <> "DIE" ->
  handle_msg address (verb :: rest) self
  = (Ok tt, self, [Log DEBUG; Log WARNING]).
Proof.
  intros [Hpre Hint] H1 H2 H3 H4. unfold Runner.handle_msg.
  rewrite Hpre, Hint. py_run.
  destruct (String.eqb_spec verb "READY"); [done|].
  destruct (String.eqb_spec verb "DATA"); [done|].
  destruct (String.eqb_spec verb "TIME"); [done|].
  destruct (String.eqb_spec verb "DIE"); [done|].
  reflexivity.
Qed.

(** X6: in a table of [size] runs, DIE from the worker of a run in range
    sets the TERMINATED bit (0x04) of that run and is acknowledged; the
    other bits of the run, the flags of the other runs and all other
    columns stay as they are. *)
Theorem die_marks_terminated (size : nat) (self : runner schema)
  (run_id : Z) (rest : list bytes) :
  wf size self ->
  0 <= run_id < Z.of_nat size ->
  exists flags,
    FLAGS self !! Z.to_nat run_id = Some flags
    /\ handle_msg (identity run_id) ("DIE" :: rest) self
       = (Ok tt,
          with_FLAGS (<[Z.to_nat run_id := Z.lor flags 4]> (FLAGS self)) self,
          [Log DEBUG; Log DEBUG; Send [identity run_id; ""; "ACK"]])
    /\ has_flag TERMINATED (Z.lor flags 4) = true
    /\ has_flag ASSIGNED (Z.lor flags 4) = has_flag ASSIGNED flags
    /\ has_flag COMPLETED (Z.lor flags 4) = has_flag COMPLETED flags.
Proof.
  intros Hwf Hrun.
  destruct (RunnerFacts.wf_lookup size self (Z.to_nat run_id) Hwf)
    as (_ & flags & _ & Hfl); [lia|].
  pose proof Hwf as (_ & _ & _ & _ & Hf & Hsize).
  exists flags. split; [done|]. split.
  { apply (RunnerFacts.handle_DIE_at _ _ _ _ _ run_id); try done.
    - apply (RunnerFacts.identity_reads_as _ size); lia.
    - rewrite Hf. by apply np_index_nonneg. }
  split; [apply (has_flag_ior_same 2); lia|].
  split; [apply (has_flag_ior_other 1 2); lia|].
  apply (has_flag_ior_other 3 2); lia.
Qed.

Lemma np_index_out (n : nat) (i : Z) :
  Z.of_nat n <= i \/ i < - Z.of_nat n -> np_index n i = None.
Proof.
  intros H. unfold np_index.
  destruct (Z.leb_spec 0 i); destruct (Z.ltb_spec i (Z.of_nat n)); cbn [andb];
    try lia;
    destruct (Z.leb_spec (- Z.of_nat n) i); destruct (Z.ltb_spec i 0);
    cbn [andb]; try lia; done.
Qed.

(** X7: in a table of [size] runs, a message from an address that is read
    as a run id [i] with [i >= size] or [i < -size] makes [handle_msg]
    raise, for READY and DIE and for DATA and TIME with a payload of the
    right size: an [OverflowError] for [i] in [2^63, 2^64), an [IndexError]
    for every other [i].  The table is unchanged and no reply is sent. *)
Theorem run_id_beyond_the_table_raises (size : nat) (self : runner schema)
  (address : bytes) (i : Z) (payload elapsed : bytes) (rest : list bytes) :
  wf size self ->
  reads_as address i ->
  Z.of_nat size <= i \/ i < - Z.of_nat size ->
  itemsize (output_vars self) <> 0%nat ->
  String.length payload = itemsize (output_vars self) ->
  String.length elapsed = uint_itemsize ->
  exists e,
    let raised := (Raise e, self, [Log DEBUG]) in
    handle_msg address ("READY" :: rest) self = raised
    /\ handle_msg address ("DATA" :: payload :: rest) self = raised
    /\ handle_msg address ("TIME" :: elapsed :: rest) self = raised
    /\ handle_msg address ("DIE" :: rest) self = raised
    /\ (2 ^ 63 <= i < 2 ^ 64 -> e = OverflowError)
    /\ (i < 2 ^ 63 \/ 2 ^ 64 <= i -> e = IndexError).
Proof.
  intros (Hi & Ho & Hd & Ht & Hf & _) [Hpre Hint] Hout Hsz Hlen Hlen'.
  pose proof (np_index_out size i Hout) as Hnone.
  exists (index_error i). cbv zeta.
  unfold Runner.handle_msg, flags_ior.
  unfold np_getitem, np_setitem, np_setitem_array.
  rewrite Hpre, Hint. py_run.
  rewrite (np_frombuffer_one _ _ Hlen Hsz).
  rewrite (np_frombuffer_one _ _ Hlen') by done.
  rewrite Hi, Ho, Ht, Hf, Hnone.
  repeat split; try reflexivity.
  - apply index_error_uint64.
  - intros [H|H]; [by apply index_error_intp | by apply index_error_beyond].
Qed.

Lemma poll_loop_app (queue1 queue2 : list (list bytes)) :
  forall (self self1 : runner schema) (t1 : list event),
  poll_loop queue1 self = (Ok tt, self1, t1) ->
  poll_loop (queue1 ++ queue2)%list self
  = let '(r, self2, t2) := poll_loop queue2 self1 in
    (r, self2, (t1 ++ t2)%list).
Proof.
  induction queue1 as [|m queue1 IH]; intros self self1 t1.
  - cbn. intros [= <- <-]. by destruct (poll_loop queue2 self) as [[r s] t].
  - cbn [app Runner.poll_loop]. unfold bind, lift.
    destruct (list_getitem m 0) as [address|e]; [|done].
    destruct (handle_msg address (skipn 2 m) self) as [[[[]|e] s0] t0]; [|done].
    destruct (poll_loop queue1 s0) as [[r' s'] t'] eqn:E1.
    intros [= -> -> <-]. cbn [app].
    rewrite (IH s0 self1 t' E1).
    destruct (poll_loop queue2 self1) as [[r2 s2] t2].
    by rewrite app_assoc.
Qed.

(** X8: [poll] handles the queued messages in order, each on the table the
    one before has left: handling two queues one after the other is
    handling their concatenation.  The first message on which [handle_msg]
    raises ends it with that exception: the messages behind it are not
    handled.  A message without frames raises [IndexError]. *)
Theorem poll_in_order_until_an_exception (queue1 queue2 : list (list bytes))
  (self self1 : runner schema) (t1 : list event) :
  poll_loop queue1 self = (Ok tt, self1, t1) ->
  (forall r self2 t2,
     poll_loop queue2 self1 = (r, self2, t2) ->
     poll_loop (queue1 ++ queue2)%list self = (r, self2, (t1 ++ t2)%list))
  /\ (forall address frames e self2 t2,
        handle_msg address (skipn 1 frames) self1 = (Raise e, self2, t2) ->
        poll_loop (queue1 ++ (address :: frames) :: queue2)%list self
        = (Raise e, self2, (t1 ++ t2)%list))
  /\ poll_loop (queue1 ++ [] :: queue2)%list self
     = (Raise IndexError, self1, t1).
Proof.
  intros H1. split; [|split].
  - intros r self2 t2 H2. by rewrite (poll_loop_app _ _ _ _ _ H1), H2.
  - intros address frames e self2 t2 He.
    rewrite (poll_loop_app _ _ _ _ _ H1).
    cbn [Runner.poll_loop]. unfold bind, lift.
    cbn [list_getitem lookup list_lookup].
    change (skipn 2 (address :: frames)) with (skipn 1 frames).
    rewrite He. by rewrite app_nil_l.
  - rewrite (poll_loop_app _ _ _ _ _ H1). cbn. by rewrite app_nil_r.
Qed.

(** X9: the address of a run is not the only one that is read as its run
    id: in a table of [size] runs and for a run in range, the decimal run id
    behind a plus sign, behind a space or behind a zero is read as the same
    run, and a message from such an address is handled as the same message
    from the worker of the run is, up to the address the reply goes to. *)
Theorem other_addresses_of_a_run (size : nat) (self : runner schema)
  (run_id : Z) (address : bytes) :
  wf size self ->
  0 <= run_id < Z.of_nat size ->
  address = "req_+" ++ PyInt.str_of_int run_id
  \/ address = "req_ " ++ PyInt.str_of_int run_id
  \/ address = "req_0" ++ PyInt.str_of_int run_id ->
  reads_as address run_id
  /\ forall msg r self' t,
       handle_msg (identity run_id) msg self = (r, self', t) ->
       handle_msg address msg self = (r, self', List.map (readdress address) t).
Proof.
  intros Hwf Hrun Haddr.
  pose proof Hwf as (_ & _ & _ & _ & _ & Hsize).
  assert (2 ^ 63 < 10 ^ 639) as Hpow by (by vm_compute).
  assert (0 <= run_id < 10 ^ 639) as Hn by lia. clear Hpow.
  destruct (PyIntMore.int_of_bytes_variants lim run_id Hn) as (Hplus & Hspace & Hzero).
  assert (PyInt.str_of_int run_id = PyInt.digits run_id) as Hstr.
  { unfold PyInt.str_of_int. destruct (Z.ltb_spec run_id 0); [lia | done]. }
  assert (reads_as address run_id) as Hread.
  { rewrite Hstr in Haddr. destruct Haddr as [-> | [-> | ->]]; by split. }
  split; [done|].
  intros msg r self' t.
  apply (RunnerFacts.handle_msg_same_position _ _ _ size self address _
           run_id run_id); try done.
  apply (RunnerFacts.identity_reads_as _ size); lia.
Qed.

End RunnerMore.
End RunnerMore.

(** * More on the worker *)

Module WorkerMore.
Import Worker.

Lemma pure_ret {S A} (a : A) : pure (ret a : Py S A).
Proof. intros s. by eexists. Qed.

Lemma pure_raise {S A} (e : exn) : pure (raise e : Py S A).
Proof. intros s. by eexists. Qed.

Lemma pure_lift {S A} (r : result A) : pure (lift r : Py S A).
Proof. intros s. by eexists. Qed.

Lemma pure_bind {S A B} (c : Py S A) (k : A -> Py S B) :
  pure c -> (forall a, pure (k a)) -> pure (bind c k).
Proof.
  intros Hc Hk s. unfold bind. destruct (Hc s) as [[a|e] ->]; [|by eexists].
  destruct (Hk a s) as [r ->]. by eexists.
Qed.

Lemma pure_comprehension {S A B} (f : A -> Py S B) (l : list A) :
  (forall x, pure (f x)) -> pure (comprehension f l).
Proof.
  intros Hf. induction l as [|x l IH]; [apply pure_ret|].
  cbn [comprehension]. apply pure_bind; [apply Hf|].
  intros y. apply pure_bind; [apply IH|]. intros ys. apply pure_ret.
Qed.

(** what holds of the results of [k] holds of [bind c k] for a [c] that
    only looks, if it holds when [c] raises *)
Lemma bind_pure {S A B} (P : result B * S * list event -> Prop)
  (c : Py S A) (k : A -> Py S B) (s : S) :
  pure c ->
  (forall e, P (Raise e, s, [])) ->
  (forall a, c s = (Ok a, s, []) -> P (k a s)) ->
  P (bind c k s).
Proof.
  intros Hc He Hk. unfold bind. destruct (Hc s) as [[a|e] Hr]; rewrite Hr.
  - specialize (Hk a Hr). by destruct (k a s) as [[r' s'] t'].
  - apply He.
Qed.

Lemma opened_app (t t' : list event) :
  opened (t ++ t')%list = opened t + opened t'.
Proof.
  induction t as [|e t IH]; [done|]. destruct e; cbn [app opened]; lia.
Qed.

Lemma closed_app (t t' : list event) :
  closed (t ++ t')%list = closed t + closed t'.
Proof.
  induction t as [|e t IH]; [done|]. destruct e; cbn [app closed]; lia.
Qed.

Section WorkerMore.

Variable json_loads : bytes -> option PyVal.pyval.
Variable np_dtype : list PyVal.pyval -> result nat.

Local Abbreviation receive_READY := (receive_READY json_loads np_dtype).
Local Abbreviation receive := (receive json_loads np_dtype).
Local Abbreviation after_poll := (after_poll json_loads np_dtype).
Local Abbreviation attempt := (attempt json_loads np_dtype).
Local Abbreviation lazy_pirate := (lazy_pirate json_loads np_dtype).
Local Abbreviation request := (request json_loads np_dtype).

Lemma pure_loads_columns (b : bytes) :
  pure (loads_columns json_loads b).
Proof.
  unfold loads_columns. destruct (json_loads b); [apply pure_lift | apply pure_raise].
Qed.

Lemma pure_input_columns (columns : list PyVal.pyval) :
  pure (comprehension (fun column => lift (PyVal.tuple column) : Py worker _)
          columns).
Proof. apply pure_comprehension. intros x. apply pure_lift. Qed.

Lemma pure_output_columns (columns : list PyVal.pyval) :
  pure (comprehension
          (fun column =>
             bind (lift (PyVal.slice_to_2 column)) (fun head =>
             bind (lift (PyVal.getitem_2 column)) (fun shape =>
             bind (lift (PyVal.tuple shape)) (fun shape =>
             bind (lift (PyVal.add_list head shape)) (fun triple =>
             lift (PyVal.tuple triple)))))
             : Py worker _)
          columns).
Proof.
  apply pure_comprehension. intros x.
  repeat (apply pure_bind; [apply pure_lift | intros ?]). apply pure_lift.
Qed.

(** What the READY branch may do to the worker and ask of the world,
    however the reply is made: it sets [input], or [input] and [output], or
    nothing, and writes log records. *)
Lemma receive_READY_effect (response : list bytes) (self : worker) :
  let '(r, self', t) := receive_READY response self in
  connected self' = connected self
  /\ retries self' = retries self
  /\ time self' = time self
  /\ sends t = [] /\ sleeps t = 0%nat.
Proof.
  unfold Worker.receive_READY.
  destruct response as [|d_in [|data [|d_out [|extra response]]]]; try done.
  apply (bind_pure (fun x => let '(r, self', t) := x in _));
    [apply pure_loads_columns | done | intros columns _].
  apply (bind_pure (fun x => let '(r, self', t) := x in _));
    [apply pure_input_columns | done | intros input_descr _].
  apply (bind_pure (fun x => let '(r, self', t) := x in _));
    [apply pure_loads_columns | done | intros columns' _].
  apply (bind_pure (fun x => let '(r, self', t) := x in _));
    [apply pure_output_columns | done | intros output_descr _].
  apply (bind_pure (fun x => let '(r, self', t) := x in _));
    [apply pure_lift | done | intros sz _].
  apply (bind_pure (fun x => let '(r, self', t) := x in _));
    [apply pure_lift | done | intros arr _].
  apply (bind_pure (fun x => let '(r, self', t) := x in _));
    [apply pure_lift | done | intros record _].
  py_run. by destruct (np_dtype output_descr).
Qed.

Lemma receive_READY_events (response : list bytes) (self : worker) :
  let '(r, self', t) := receive_READY response self in
  opened t = 0 /\ closed t = 0.
Proof.
  unfold Worker.receive_READY.
  destruct response as [|d_in [|data [|d_out [|extra response]]]]; try done.
  apply (bind_pure (fun x => let '(r, self', t) := x in _));
    [apply pure_loads_columns | done | intros columns _].
  apply (bind_pure (fun x => let '(r, self', t) := x in _));
    [apply pure_input_columns | done | intros input_descr _].
  apply (bind_pure (fun x => let '(r, self', t) := x in _));
    [apply pure_loads_columns | done | intros columns' _].
  apply (bind_pure (fun x => let '(r, self', t) := x in _));
    [apply pure_output_columns | done | intros output_descr _].
  apply (bind_pure (fun x => let '(r, self', t) := x in _));
    [apply pure_lift | done | intros sz _].
  apply (bind_pure (fun x => let '(r, self', t) := x in _));
    [apply pure_lift | done | intros arr _].
  apply (bind_pure (fun x => let '(r, self', t) := x in _));
    [apply pure_lift | done | intros record _].
  py_run. by destruct (np_dtype output_descr).
Qed.

Lemma receive_effect (req : bytes) (response : list bytes) (self : worker) :
  let '(r, self', t) := receive req response self in
  connected self' = connected self
  /\ retries self' = retries self
  /\ time self' = time self
  /\ sends t = [] /\ sleeps t = 0%nat
  /\ opened t = 0 /\ closed t = 0
  /\ (req <> "READY" -> self' = self).
Proof.
  unfold Worker.receive. destruct (String.eqb_spec req "READY") as [->|Hne].
  - pose proof (receive_READY_effect response self) as H.
    pose proof (receive_READY_events response self) as H'.
    destruct (receive_READY response self) as [[r self'] t].
    destruct H as (? & ? & ? & ? & ?), H' as (? & ?). by repeat split.
  - py_run. destruct response as [|first frames]; [done|]. cbn.
    by destruct (String.eqb first "ACK").
Qed.

Lemma after_poll_effect (req : bytes) (tries : Z) (p : poll_result)
  (self : worker) :
  connected self = true ->
  let '(r, self', t) := after_poll req tries p self in
  retries self' = retries self
  /\ time self' = time self
  /\ sends t = []
  /\ message req self' = message req self
  /\ Z.b2z (connected self') = 1 + opened t - closed t
  /\ sleeps t = match p with Timeout => 1%nat | Reply _ => 0%nat end
  /\ match r with
     | Ok (Continue tries') =>
         connected self' = true
         /\ tries' = tries + Z.of_nat (sleeps t)
         /\ tries' <= retries self
     | Ok Return => connected self' = true
     | Raise _ => True
     end.
Proof.
  intros Hc. unfold Worker.after_poll. destruct p as [|response].
  - py_run. destruct (Z.leb_spec (retries self + 1) (tries + 1)); cbn;
      rewrite ?Hc; repeat split; try done; lia.
  - unfold bind, try_malformed. cbv beta.
    pose proof (receive_effect req response self) as H.
    destruct (receive req response self) as [[r s'] t].
    destruct H as (Hc' & Hr & Ht & Hs & Hsl & Ho & Hcl & Hsame).
    assert (message req s' = message req self) as Hmsg.
    { destruct (String.eqb_spec req "READY") as [->|Hne]; [done|].
      by rewrite (Hsame Hne). }
    assert (forall b, message req (with_connected b s') = message req self)
      as Hmsg' by (intros b; exact Hmsg).
    destruct r as [[]|e]; [|destruct e]; py_run;
      rewrite ?app_nil_r;
      try (destruct (Z.leb_spec (retries s' + 1) tries)); cbn;
      rewrite ?WorkerFacts.sends_app, ?WorkerFacts.sleeps_app, ?Hs, ?Hsl;
      rewrite ?opened_app, ?closed_app, ?Ho, ?Hcl, ?Hc', ?Hc; cbn;
      repeat split; try done; try lia.
Qed.

Lemma timeouts_nonneg (script : list poll_result) : 0 <= timeouts script.
Proof. induction script as [|[|r] script IH]; cbn [timeouts]; lia. Qed.

Lemma lazy_pirate_effect (req : bytes) (script : list poll_result) :
  forall (tries : Z) (self : worker),
  connected self = true ->
  let '(o, self', t) := lazy_pirate script req tries self in
  retries self' = retries self
  /\ time self' = time self
  /\ sends t = repeat (message req self) (length (sends t))
  /\ (length (sends t) <= S (length script))%nat
  /\ Z.b2z (connected self') = 1 + opened t - closed t
  /\ Z.of_nat (sleeps t) <= timeouts script
  /\ match o with
     | Waiting k => k = tries + Z.of_nat (sleeps t) /\ connected self' = true
     | Returned => connected self' = true
     | Raised _ => True
     end.
Proof.
  induction script as [|p script IH]; intros tries self Hc.
  - cbn. rewrite Hc. repeat split; try done; lia.
  - cbn [Worker.lazy_pirate]. unfold Worker.attempt, bind.
    rewrite WorkerFacts.send_request_eq.
    pose proof (after_poll_effect req tries p self Hc) as H.
    destruct (after_poll req tries p self) as [[r s1] t1].
    destruct H as (Hr & Ht & Hs & Hmsg & Hb & Hsl & Hres).
    assert (Z.of_nat (sleeps t1) <= timeouts (p :: script)) as Hsleep.
    { pose proof (timeouts_nonneg script). rewrite Hsl.
      destruct p; cbn [timeouts]; lia. }
    destruct r as [[|tries']|e].
    + cbn [app sends sleeps opened closed length]. rewrite Hs.
      cbn [length repeat]. repeat split; try done; lia.
    + destruct Hres as (Hc1 & Htries & _).
      specialize (IH tries' s1 Hc1).
      destruct (lazy_pirate script req tries' s1) as [[o s2] t2].
      destruct IH as (Hr2 & Ht2 & Hs2 & Hlen2 & Hb2 & Hsl2 & Hres2).
      cbn [app sends sleeps opened closed length].
      rewrite WorkerFacts.sends_app, WorkerFacts.sleeps_app, opened_app,
        closed_app, Hs.
      cbn [app length repeat]. rewrite Hmsg in Hs2.
      split; [congruence|]. split; [congruence|].
      rewrite Hc1 in Hb. cbn [Z.b2z] in Hb.
      split; [by rewrite Hs2 at 1|]. split; [lia|]. split; [lia|].
      split.
      { rewrite Hsl in *. destruct p; cbn [timeouts]; lia. }
      destruct o; [done | done |].
      destruct Hres2 as (-> & ?). split; [lia | done].
    + cbn [app sends sleeps opened closed length]. rewrite Hs.
      cbn [length repeat]. repeat split; try done; lia.
Qed.

Lemma request_invalid (script : list poll_result) (req : bytes) (self : worker) :
  ~ valid_request req ->
  request script req self
  = (Raised ValueError, with_connected true self,
     reconnection (connected self)).
Proof.
  intros Hv. unfold valid_request in Hv. unfold Worker.request.
  destruct (String.eqb_spec req "READY"); [tauto|].
  destruct (String.eqb_spec req "DATA"); [tauto|].
  destruct (String.eqb_spec req "TIME"); [tauto|].
  destruct (connected self) eqn:Hc; py_run; [|done].
  by rewrite (WorkerFacts.with_connected_id self Hc).
Qed.

Lemma valid_request_dec (req : bytes) :
  valid_request req \/ ~ valid_request req.
Proof.
  unfold valid_request.
  destruct (String.eqb_spec req "READY"); [tauto|].
  destruct (String.eqb_spec req "DATA"); [tauto|].
  destruct (String.eqb_spec req "TIME"); tauto.
Qed.

Lemma request_effect (self : worker) (req : bytes)
  (script : list poll_result) :
  let '(o, self', t) := request script req self in
  retries self' = retries self
  /\ time self' = time self
  /\ sends t = repeat (message req self) (length (sends t))
  /\ (length (sends t) <= S (length script))%nat
  /\ Z.of_nat (sleeps t) <= timeouts script
  /\ Z.b2z (connected self')
     = Z.b2z (connected self) + opened t - closed t.
Proof.
  destruct (valid_request_dec req) as [Hv | Hv].
  - rewrite (WorkerFacts.request_valid _ _ _ _ _ Hv).
    pose proof (lazy_pirate_effect req script 0 (with_connected true self)
                  eq_refl) as H.
    destruct (lazy_pirate script req 0 (with_connected true self))
      as [[o s'] t].
    destruct H as (Hr & Ht & Hs & Hlen & Hb & Hsl & _).
    rewrite WorkerFacts.sends_app, WorkerFacts.sleeps_app, opened_app,
      closed_app, WorkerFacts.sends_reconnection,
      WorkerFacts.sleeps_reconnection.
    cbn [app Nat.add]. repeat split; try done.
    destruct (connected self); cbn in *; lia.
  - rewrite (request_invalid _ _ _ Hv).
    rewrite WorkerFacts.sends_reconnection, WorkerFacts.sleeps_reconnection.
    pose proof (timeouts_nonneg script).
    destruct (connected self); cbn; repeat split; try done; lia.
Qed.

(** X10: whatever the request is and whatever the responder does,
    [request] sends nothing but the one message of the request, once more at
    most than there are polls, sleeps at most once per poll without a reply,
    leaves [retries] and [time] as they are, and keeps [_connected] in step
    with the sockets: it is true at the end exactly when one more socket was
    connected than closed, counting the one of a worker that was
    connected. *)
Theorem request_sends_one_message (self : worker) (req : bytes)
  (script : list poll_result) :
  let '(o, self', t) := request script req self in
  retries self' = retries self
  /\ time self' = time self
  /\ sends t = repeat (message req self) (length (sends t))
  /\ (length (sends t) <= S (length script))%nat
  /\ Z.of_nat (sleeps t) <= timeouts script
  /\ Z.b2z (connected self')
     = Z.b2z (connected self) + opened t - closed t.
Proof. apply request_effect. Qed.

Lemma lazy_pirate_data_time (req : bytes) (script : list poll_result) :
  forall (tries : Z) (self : worker),
  req = "DATA" \/ req = "TIME" ->
  connected self = true ->
  tries <= retries self ->
  Forall framed script ->
  let '(o, self', t) := lazy_pirate script req tries self in
  match o with
  | Returned => self' = self
  | Raised e =>
      e = ConnectionError /\ self' = with_connected false self
      /\ tries + Z.of_nat (sleeps t) = retries self + 1
  | Waiting k =>
      self' = self /\ k = tries + Z.of_nat (sleeps t) /\ k <= retries self
  end.
Proof.
  induction script as [|p script IH]; intros tries self Hreq Hc Ht Hall.
  - cbn. repeat split; [lia | done].
  - apply Forall_cons in Hall as [Hp Hall].
    pose proof (WorkerFacts.not_ready _ Hreq) as Hnr.
    destruct p as [|[|first frames]]; [| by destruct Hp |].
    + destruct (Z.lt_ge_cases tries (retries self)) as [Hlt | Hge].
      * rewrite (WorkerFacts.lazy_pirate_continue _ _ _ _ _ _ _ _ _ _
                   (WorkerFacts.after_timeout_continue _ _ req tries self Hlt)).
        rewrite (WorkerFacts.with_connected_id self Hc).
        specialize (IH (tries + 1) self Hreq Hc ltac:(lia) Hall).
        destruct (lazy_pirate script req (tries + 1) self) as [[o s] t].
        cbn [app sleeps].
        destruct o; [done | | ]; destruct IH as (? & ? & ?);
          repeat split; try done; lia.
      * rewrite (WorkerFacts.lazy_pirate_raise _ _ _ _ _ _ _ _ _ _
                   (WorkerFacts.after_timeout_abandon _ _ req tries self Hge)).
        cbn [sleeps]. repeat split; try done; lia.
    + destruct (String.eqb_spec first "ACK") as [-> | Hfirst].
      * by rewrite (WorkerFacts.lazy_pirate_return _ _ _ _ _ _ _ _ _
                     (WorkerFacts.after_reply_return _ _ _ _ _ _ _ _
                        (WorkerFacts.receive_ACK _ _ req frames self Hnr))).
      * rewrite (WorkerFacts.lazy_pirate_continue _ _ _ _ _ _ _ _ _ _
                   (WorkerFacts.after_reply_malformed _ _ req first frames
                      tries self Hnr Hfirst Ht)).
        rewrite (WorkerFacts.with_connected_id self Hc).
        specialize (IH tries self Hreq Hc Ht Hall).
        destruct (lazy_pirate script req tries self) as [[o s] t].
        cbn [app sleeps].
        destruct o; [done | | ]; destruct IH as (? & ? & ?);
          repeat split; try done; lia.
Qed.

(** X11: for DATA, and for TIME with a time in [0, 2^64) (which [np.uint]
    converts), and a retry count that is not negative, whatever the
    responder does with replies of at least one frame:
    [request] ends in one of two ways.  It returns, with the socket
    connected and the worker as it was; or it raises [ConnectionError] after
    exactly [retries + 1] sleeps, one per poll without a reply, with the
    socket closed.  As long as it does neither it has slept at most
    [retries] times.  No other exception leaves it, and it changes nothing
    of the worker but [_connected]. *)
Theorem data_and_time_requests_end_in_two_ways (self : worker) (req : bytes)
  (script : list poll_result) :
  req = "DATA" \/ req = "TIME" ->
  (req = "TIME" -> 0 <= time self < 2 ^ 64) ->
  0 <= retries self ->
  Forall framed script ->
  let '(o, self', t) := request script req self in
  match o with
  | Returned => self' = with_connected true self
  | Raised e =>
      e = ConnectionError /\ self' = with_connected false self
      /\ Z.of_nat (sleeps t) = retries self + 1
  | Waiting k =>
      self' = with_connected true self
      /\ k = Z.of_nat (sleeps t) /\ k <= retries self
  end.
Proof.
  intros Hreq _ Hr Hall.
  assert (valid_request req) as Hv by (unfold valid_request; tauto).
  rewrite (WorkerFacts.request_valid _ _ _ _ _ Hv).
  pose proof (lazy_pirate_data_time req script 0 (with_connected true self)
                Hreq eq_refl Hr Hall) as H.
  destruct (lazy_pirate script req 0 (with_connected true self))
    as [[o s'] t].
  rewrite WorkerFacts.sleeps_app, WorkerFacts.sleeps_reconnection.
  cbn [Nat.add].
  destruct o; [done | | ]; destruct H as (? & ? & ?);
    repeat split; try done; lia.
Qed.

Lemma after_poll_caught (req : bytes) (tries : Z) (response : list bytes)
  (self : worker) (e : exn) :
  receive req response self = (Raise e, self, []) ->
  e = ValueError \/ e = AssertionError ->
  tries <= retries self ->
  after_poll req tries (Reply response) self
  = (Ok (Continue tries), with_connected true self,
     [Log DEBUG; Log ERROR; Close; Connect; Log INFO]).
Proof.
  intros Hrecv He Ht. unfold Worker.after_poll, bind, try_malformed.
  rewrite Hrecv. destruct He as [-> | ->]; py_run;
    by destruct (Z.leb_spec (retries self + 1) tries); [lia|].
Qed.

Lemma after_poll_uncaught (req : bytes) (tries : Z) (response : list bytes)
  (self self' : worker) (e : exn) (t : list event) :
  receive req response self = (Raise e, self', t) ->
  e <> ValueError -> e <> AssertionError ->
  after_poll req tries (Reply response) self = (Raise e, self', t).
Proof.
  intros Hrecv H1 H2. unfold Worker.after_poll, bind, try_malformed.
  rewrite Hrecv. by destruct e.
Qed.

(** X12: for READY, in a pass through the loop that starts with
    [tries <= retries], a reply that does not have exactly three frames, or
    whose first frame [json.loads] refuses, is treated as a reply without
    ACK is for DATA: [tries] stays as it is, the error is logged, the socket
    is closed and a new one connected, and READY is sent again; the worker
    keeps its input and output. *)
Theorem ready_malformed_is_not_counted (self : worker) (tries : Z)
  (response : list bytes) :
  tries <= retries self ->
  length response <> 3%nat
  \/ (exists d_in data d_out,
        response = [d_in; data; d_out] /\ json_loads d_in = None) ->
  attempt "READY" tries (Reply response) self
  = (Ok (Continue tries), with_connected true self,
     malformed_round ["READY"]).
Proof.
  intros Ht Hresp.
  assert (receive "READY" response self = (Raise ValueError, self, []))
    as Hrecv.
  { unfold Worker.receive. cbn [String.eqb Ascii.eqb Bool.eqb].
    unfold Worker.receive_READY.
    destruct Hresp as [Hlen | (d_in & data & d_out & -> & Hjson)].
    - by destruct response as [|? [|? [|? [|? ?]]]].
    - unfold bind at 1, loads_columns. by rewrite Hjson. }
  unfold Worker.attempt, bind. rewrite WorkerFacts.send_request_eq.
  by rewrite (after_poll_caught _ _ _ _ _ Hrecv (or_introl eq_refl) Ht).
Qed.

Lemma input_columns_ok (columns : list PyVal.pyval) (self : worker) :
  Forall (fun c => exists l, PyVal.iter c = Ok l) columns ->
  exists descr,
    comprehension (fun column => lift (PyVal.tuple column)) columns self
    = (Ok descr, self, []).
Proof.
  induction 1 as [|c columns [l Hl] _ [descr IH]]; [by eexists|].
  assert (PyVal.tuple c = Ok (PyVal.PyTuple l)) as Ht
    by (unfold PyVal.tuple; by rewrite Hl).
  cbn [comprehension]. unfold bind at 1, lift at 1. rewrite Ht.
  unfold bind at 1. rewrite IH. by eexists.
Qed.

(** X13: a reply to READY whose input schema is a list of columns, and
    whose output schema is a list that starts with a column of fewer than
    three items (a name and a type, without a shape), makes [request] raise
    the [IndexError] of [column[2]]: it is not caught, the worker has sent
    READY once, keeps the socket connected and its input and output. *)
Theorem ready_output_column_needs_a_shape (self : worker)
  (d_in data d_out : bytes) (v_in : PyVal.pyval)
  (columns items more : list PyVal.pyval) (script : list poll_result) :
  json_loads d_in = Some v_in ->
  PyVal.iter v_in = Ok columns ->
  Forall (fun c => exists l, PyVal.iter c = Ok l) columns ->
  json_loads d_out = Some (PyVal.PyList (PyVal.PyList items :: more)) ->
  (length items < 3)%nat ->
  request (Reply [d_in; data; d_out] :: script) "READY" self
  = (Raised IndexError, with_connected true self,
     (reconnection (connected self) ++ [Send ["READY"]; Log DEBUG])%list).
Proof.
  intros Hin Hiter Hcols Hout Hlen.
  set (self1 := with_connected true self).
  assert (receive "READY" [d_in; data; d_out] self1
          = (Raise IndexError, self1, [])) as Hrecv.
  { unfold Worker.receive. cbn [String.eqb Ascii.eqb Bool.eqb].
    unfold Worker.receive_READY.
    unfold bind at 1, loads_columns at 1. rewrite Hin. unfold lift at 1.
    rewrite Hiter.
    destruct (input_columns_ok columns self1 Hcols) as [descr Hdescr].
    unfold bind at 1. rewrite Hdescr.
    unfold bind at 1, loads_columns at 1. rewrite Hout.
    cbn [PyVal.iter lift comprehension].
    unfold bind at 1. unfold bind at 1. unfold bind at 1.
    cbn [PyVal.slice_to_2 lift]. unfold bind at 1.
    cbn [PyVal.getitem_2 lift]. unfold list_getitem.
    by rewrite (lookup_ge_None_2 items 2) by lia. }
  rewrite (WorkerFacts.request_valid _ _ _ _ _ (or_introl eq_refl)).
  fold self1.
  rewrite (WorkerFacts.lazy_pirate_raise _ _ _ _ _ _ _ _ _ _
             (after_poll_uncaught _ _ _ _ _ _ _ Hrecv
                ltac:(discriminate) ltac:(discriminate))).
  reflexivity.
Qed.

Lemma frombuffer_first (sz : nat) (data record : bytes) (arr : list bytes) :
  np_frombuffer sz data = Ok arr ->
  list_getitem arr 0 = Ok record ->
  sz <> 0%nat /\ (String.length data mod sz = 0)%nat
  /\ (sz <= String.length data)%nat /\ record = Bytes.take sz data.
Proof.
  unfold np_frombuffer, list_getitem.
  destruct (Nat.eqb_spec sz 0) as [|Hsz]; [done|].
  destruct (Nat.eqb_spec (String.length data mod sz) 0) as [Hmod|]; [|done].
  intros [= <-].
  destruct (String.length data / sz)%nat as [|n] eqn:Hdiv; [done|].
  cbn. intros [= <-]. repeat split; try done.
  destruct (Nat.le_gt_cases sz (String.length data)) as [|Hlt]; [done|].
  rewrite (Nat.div_small _ _ Hlt) in Hdiv. done.
Qed.

Lemma loads_columns_eq (b : bytes) (self : worker) :
  loads_columns json_loads b self
  = (match json_loads b with
     | Some v => PyVal.iter v
     | None => Raise ValueError
     end, self, []).
Proof. unfold loads_columns. by destruct (json_loads b). Qed.

Lemma comprehension_lift (f : PyVal.pyval -> result PyVal.pyval)
  (l : list PyVal.pyval) (self : worker) :
  comprehension (fun column => lift (f column)) l self
  = (Schema.columns f l, self, []).
Proof.
  induction l as [|c l IH]; [done|].
  cbn [comprehension Schema.columns]. unfold bind at 1, lift at 1.
  destruct (f c) as [d|e]; [|done].
  unfold bind at 1. rewrite IH.
  by destruct (Schema.columns f l).
Qed.

Lemma comprehension_ext {S A B} (f g : A -> Py S B) (l : list A) (s : S) :
  (forall x s, f x s = g x s) -> comprehension f l s = comprehension g l s.
Proof.
  intros H. revert s. induction l as [|x l IH]; intros s; [done|].
  cbn [comprehension]. unfold bind at 1 3. rewrite H.
  destruct (g x s) as [[[y|e] s'] t]; [|done].
  unfold bind. by rewrite IH.
Qed.

Lemma output_column_eq (column : PyVal.pyval) (self : worker) :
  bind (lift (PyVal.slice_to_2 column)) (fun head =>
  bind (lift (PyVal.getitem_2 column)) (fun shape =>
  bind (lift (PyVal.tuple shape)) (fun shape =>
  bind (lift (PyVal.add_list head shape)) (fun triple =>
  lift (PyVal.tuple triple))))) self
  = lift (Schema.output_column column) self.
Proof.
  unfold bind, lift, Schema.output_column.
  destruct (PyVal.slice_to_2 column) as [head|]; [|done].
  destruct (PyVal.getitem_2 column) as [shape|]; [|done].
  destruct (PyVal.tuple shape) as [shape'|]; [|done].
  destruct (PyVal.add_list head shape') as [triple|]; [|done].
  by destruct (PyVal.tuple triple).
Qed.

(** the READY branch on a reply of three frames, step by step *)
Lemma receive_READY_eq (d_in data d_out : bytes) (self : worker) :
  receive_READY [d_in; data; d_out] self
  = match Schema.decode json_loads Schema.input_column d_in with
    | Raise e => (Raise e, self, [])
    | Ok descr_in =>
    match Schema.decode json_loads Schema.output_column d_out with
    | Raise e => (Raise e, self, [])
    | Ok descr_out =>
    match np_dtype descr_in with
    | Raise e => (Raise e, self, [])
    | Ok sz =>
    match np_frombuffer sz data with
    | Raise e => (Raise e, self, [])
    | Ok arr =>
    match list_getitem arr 0 with
    | Raise e => (Raise e, self, [])
    | Ok record =>
    match np_dtype descr_out with
    | Raise e => (Raise e, with_input record self, [])
    | Ok sz' =>
        (Ok tt, with_output (Bytes.zeros sz') (with_input record self),
         [Log INFO; Log DEBUG])
    end end end end end end.
Proof.
  unfold Worker.receive_READY, Schema.decode.
  unfold bind at 1. rewrite loads_columns_eq.
  destruct (json_loads d_in) as [v|]; [|done].
  destruct (PyVal.iter v) as [cols|e]; [|done].
  unfold bind at 1. rewrite (comprehension_lift PyVal.tuple).
  change (Schema.columns PyVal.tuple cols)
    with (Schema.columns Schema.input_column cols).
  destruct (Schema.columns Schema.input_column cols) as [descr_in|e]; [|done].
  unfold bind at 1. rewrite loads_columns_eq.
  destruct (json_loads d_out) as [v'|]; [|done].
  destruct (PyVal.iter v') as [cols'|e]; [|done].
  unfold bind at 1.
  rewrite (comprehension_ext _
             (fun column => lift (Schema.output_column column)))
    by apply output_column_eq.
  rewrite comprehension_lift.
  destruct (Schema.columns Schema.output_column cols') as [descr_out|e];
    [|done].
  py_run.
  destruct (np_dtype descr_in) as [sz|e]; [|done].
  destruct (np_frombuffer sz data) as [arr|e]; [|done].
  destruct (list_getitem arr 0) as [record|e]; [|done].
  by destruct (np_dtype descr_out).
Qed.

Lemma receive_READY_accepted (self self' : worker)
  (d_in data d_out : bytes) (t : list event) :
  receive_READY [d_in; data; d_out] self = (Ok tt, self', t) ->
  exists descr_in descr_out (sz sz' : nat),
    Schema.decode json_loads Schema.input_column d_in = Ok descr_in
    /\ Schema.decode json_loads Schema.output_column d_out = Ok descr_out
    /\ np_dtype descr_in = Ok sz
    /\ np_dtype descr_out = Ok sz'
    /\ sz <> 0%nat
    /\ (String.length data mod sz = 0)%nat
    /\ (sz <= String.length data)%nat
    /\ self' = with_output (Bytes.zeros sz')
                 (with_input (Bytes.take sz data) self)
    /\ t = [Log INFO; Log DEBUG].
Proof.
  rewrite receive_READY_eq.
  destruct (Schema.decode json_loads Schema.input_column d_in)
    as [descr_in|]; [|done].
  destruct (Schema.decode json_loads Schema.output_column d_out)
    as [descr_out|]; [|done].
  destruct (np_dtype descr_in) as [sz|] eqn:Hsz; [|done].
  destruct (np_frombuffer sz data) as [arr|] eqn:Harr; [|done].
  destruct (list_getitem arr 0) as [record|] eqn:Hrecord; [|done].
  destruct (np_dtype descr_out) as [sz'|] eqn:Hsz'; [|done].
  intros [= <- <-].
  destruct (frombuffer_first _ _ _ _ Harr Hrecord) as (H0 & Hmod & Hle & ->).
  by exists descr_in, descr_out, sz, sz'.
Qed.

(** a buffer of one item or more is read from its first item on *)
Lemma frombuffer_head (sz : nat) (data : bytes) :
  sz <> 0%nat -> (String.length data mod sz = 0)%nat ->
  (sz <= String.length data)%nat ->
  exists arr,
    np_frombuffer sz data = Ok arr
    /\ list_getitem arr 0 = Ok (Bytes.take sz data).
Proof.
  intros Hsz Hmod Hle. unfold np_frombuffer.
  destruct (Nat.eqb_spec sz 0) as [|_]; [done|].
  rewrite Hmod. cbn [Nat.eqb].
  destruct (String.length data / sz)%nat as [|n] eqn:Hdiv.
  - apply Nat.div_small_iff in Hdiv; [lia | done].
  - eexists. split; [reflexivity|]. reflexivity.
Qed.

Lemma receive_READY_decoded (self : worker) (d_in data d_out : bytes)
  (descr_in descr_out : list PyVal.pyval) (sz sz' : nat) :
  Schema.decode json_loads Schema.input_column d_in = Ok descr_in ->
  Schema.decode json_loads Schema.output_column d_out = Ok descr_out ->
  np_dtype descr_in = Ok sz ->
  np_dtype descr_out = Ok sz' ->
  sz <> 0%nat -> (String.length data mod sz = 0)%nat ->
  (sz <= String.length data)%nat ->
  receive_READY [d_in; data; d_out] self
  = (Ok tt, with_output (Bytes.zeros sz') (with_input (Bytes.take sz data) self),
     [Log INFO; Log DEBUG]).
Proof.
  intros Hin Hout Hsz Hsz' H0 Hmod Hle.
  rewrite receive_READY_eq, Hin, Hout, Hsz.
  destruct (frombuffer_head sz data H0 Hmod Hle) as (arr & -> & ->).
  by rewrite Hsz'.
Qed.

(** X14: the READY branch accepts a reply of three frames exactly when
    both schemas are decoded, [np.dtype] takes both lists of fields, and the
    second frame is one record or more of the input dtype, whose size is
    not zero.  The input of the worker is then the first record of that
    frame: its first [sz] bytes, for the size [sz] of the dtype that
    [np.dtype] makes of the decoded input schema; what the frame holds
    beyond the first record is dropped.  The output is a record of zero
    bytes of the size of the decoded output schema, two records are logged
    and nothing else of the worker changes. *)
Theorem ready_takes_the_first_record (self self' : worker)
  (d_in data d_out : bytes) (t : list event) :
  receive_READY [d_in; data; d_out] self = (Ok tt, self', t) <->
  exists descr_in descr_out (sz sz' : nat),
    Schema.decode json_loads Schema.input_column d_in = Ok descr_in
    /\ Schema.decode json_loads Schema.output_column d_out = Ok descr_out
    /\ np_dtype descr_in = Ok sz
    /\ np_dtype descr_out = Ok sz'
    /\ sz <> 0%nat
    /\ (String.length data mod sz = 0)%nat
    /\ (sz <= String.length data)%nat
    /\ self' = with_output (Bytes.zeros sz')
                 (with_input (Bytes.take sz data) self)
    /\ t = [Log INFO; Log DEBUG].
Proof.
  split; [apply receive_READY_accepted|].
  intros (descr_in & descr_out & sz & sz' & Hin & Hout & Hsz & Hsz' & H0
          & Hmod & Hle & -> & ->).
  by apply (receive_READY_decoded self d_in data d_out descr_in descr_out).
Qed.

End WorkerMore.
End WorkerMore.

(** * The sessions of a worker *)

Module SessionFacts.
Import Worker Session.

Section SessionFacts.

Variable json_loads : bytes -> option PyVal.pyval.
Variable np_dtype : list PyVal.pyval -> result nat.

Local Abbreviation receive_READY := (Worker.receive_READY json_loads np_dtype).
Local Abbreviation receive := (Worker.receive json_loads np_dtype).
Local Abbreviation after_poll := (Worker.after_poll json_loads np_dtype).
Local Abbreviation lazy_pirate := (Worker.lazy_pirate json_loads np_dtype).
Local Abbreviation request := (Worker.request json_loads np_dtype).
Local Abbreviation lazy_pirate_rest := (lazy_pirate_rest json_loads np_dtype).
Local Abbreviation request_rest := (request_rest json_loads np_dtype).
Local Abbreviation retrieve := (retrieve json_loads np_dtype).
Local Abbreviation transmit := (transmit json_loads np_dtype).

(** the loop with the rest of the script is the loop *)
Lemma lazy_pirate_rest_agrees (script : list poll_result) (req : bytes) :
  forall (tries : Z) (self : worker),
  fst (lazy_pirate_rest script req tries self)
  = lazy_pirate script req tries self.
Proof.
  induction script as [|p script IH]; intros tries self.
  - cbn. by destruct (send_request req self) as [[r s] t].
  - cbn [Session.lazy_pirate_rest Worker.lazy_pirate].
    destruct (attempt json_loads np_dtype req tries p self)
      as [[[[|tries']|e] s] t]; try done.
    rewrite <- IH.
    by destruct (lazy_pirate_rest script req tries' s) as [[[o s'] t'] rest].
Qed.

Lemma request_rest_agrees (script : list poll_result) (req : bytes)
  (self : worker) :
  fst (request_rest script req self) = request script req self.
Proof.
  unfold Session.request_rest, Worker.request.
  destruct ((if connected self then ret tt
             else bind (emit (Log INFO)) (fun _ => connect)) self)
    as [[r s] t].
  destruct (String.eqb req "READY" || String.eqb req "DATA"
            || String.eqb req "TIME"); [|done].
  rewrite <- lazy_pirate_rest_agrees.
  by destruct (lazy_pirate_rest script req 0 s) as [[[o s'] t'] rest].
Qed.

Lemma rest_continue (p : poll_result) (script : list poll_result)
  (req : bytes) (tries tries' : Z) (self self' : worker) (t : list event) :
  after_poll req tries p self = (Ok (Continue tries'), self', t) ->
  lazy_pirate_rest (p :: script) req tries self
  = let '(o, s, t', rest) := lazy_pirate_rest script req tries' self' in
    (o, s, (Send (message req self) :: Log DEBUG :: t ++ t')%list, rest).
Proof.
  intros H. cbn [Session.lazy_pirate_rest]. unfold Worker.attempt, bind.
  rewrite WorkerFacts.send_request_eq, H. reflexivity.
Qed.

Lemma rest_return (p : poll_result) (script : list poll_result)
  (req : bytes) (tries : Z) (self self' : worker) (t : list event) :
  after_poll req tries p self = (Ok Return, self', t) ->
  lazy_pirate_rest (p :: script) req tries self
  = (Returned, self', (Send (message req self) :: Log DEBUG :: t)%list,
     script).
Proof.
  intros H. cbn [Session.lazy_pirate_rest]. unfold Worker.attempt, bind.
  rewrite WorkerFacts.send_request_eq, H. reflexivity.
Qed.

Lemma rest_raise (p : poll_result) (script : list poll_result)
  (req : bytes) (tries : Z) (self self' : worker) (t : list event) (e : exn) :
  after_poll req tries p self = (Raise e, self', t) ->
  lazy_pirate_rest (p :: script) req tries self
  = (Raised e, self', (Send (message req self) :: Log DEBUG :: t)%list,
     script).
Proof.
  intros H. cbn [Session.lazy_pirate_rest]. unfold Worker.attempt, bind.
  rewrite WorkerFacts.send_request_eq, H. reflexivity.
Qed.

Lemma rest_timeouts (req : bytes) (rest : list poll_result) (n : nat) :
  forall (tries : Z) (self : worker),
  connected self = true ->
  tries + Z.of_nat n <= retries self ->
  lazy_pirate_rest (repeat Timeout n ++ rest)%list req tries self
  = let '(o, s, t, rest') :=
      lazy_pirate_rest rest req (tries + Z.of_nat n) self in
    (o, s, (concat (repeat (timeout_round (message req self)) n) ++ t)%list,
     rest').
Proof.
  induction n as [|n IH]; intros tries self Hc Hn.
  - cbn [repeat app concat]. rewrite Z.add_0_r.
    by destruct (lazy_pirate_rest rest req tries self) as [[[o s] t] r].
  - cbn [repeat app].
    rewrite (rest_continue _ _ _ _ _ _ _ _
               (WorkerFacts.after_timeout_continue _ _ req tries self
                  ltac:(lia))).
    rewrite (WorkerFacts.with_connected_id self Hc), IH by (done || lia).
    replace (tries + 1 + Z.of_nat n) with (tries + Z.of_nat (S n)) by lia.
    by destruct (lazy_pirate_rest rest req (tries + Z.of_nat (S n)) self)
      as [[[o s] t] r].
Qed.

(** a request for DATA or TIME that is acknowledged after [n] timeouts *)
Lemma request_rest_acknowledged (req : bytes) (n : nat)
  (frames : list bytes) (rest : list poll_result) (self : worker) :
  req = "DATA" \/ req = "TIME" ->
  connected self = true ->
  Z.of_nat n <= retries self ->
  request_rest (repeat Timeout n ++ Reply ("ACK" :: frames) :: rest)%list
    req self
  = (Returned, self,
     (concat (repeat (timeout_round (message req self)) n)
      ++ [Send (message req self); Log DEBUG; Log DEBUG])%list,
     rest).
Proof.
  intros Hreq Hc Hn. unfold Session.request_rest. rewrite Hc.
  assert (String.eqb req "READY" || String.eqb req "DATA"
          || String.eqb req "TIME" = true) as ->
    by (by destruct Hreq as [-> | ->]).
  cbn [ret]. rewrite rest_timeouts by (done || lia).
  rewrite (rest_return _ _ _ _ _ _ _
             (WorkerFacts.after_reply_return _ _ _ _ _ _ _ _
                (WorkerFacts.receive_ACK _ _ req frames self
                   (WorkerFacts.not_ready _ Hreq)))).
  reflexivity.
Qed.

(** a request for DATA or TIME that no one answers *)
Lemma request_rest_abandoned (req : bytes) (rest : list poll_result)
  (self : worker) :
  req = "DATA" \/ req = "TIME" ->
  connected self = true ->
  0 <= retries self ->
  request_rest (repeat Timeout (S (Z.to_nat (retries self))) ++ rest)%list
    req self
  = (Raised ConnectionError, with_connected false self,
     (concat (repeat (timeout_round (message req self))
                (Z.to_nat (retries self)))
      ++ last_round (message req self))%list,
     rest).
Proof.
  intros Hreq Hc Hr. unfold Session.request_rest. rewrite Hc.
  assert (String.eqb req "READY" || String.eqb req "DATA"
          || String.eqb req "TIME" = true) as ->
    by (by destruct Hreq as [-> | ->]).
  cbn [ret].
  change (repeat Timeout (S (Z.to_nat (retries self))))
    with (Timeout :: repeat Timeout (Z.to_nat (retries self))).
  rewrite repeat_cons, <- app_assoc. cbn [app].
  rewrite rest_timeouts by (done || lia).
  rewrite (rest_raise _ rest _ _ _ _ _ _
             (WorkerFacts.after_timeout_abandon _ _ req
                (0 + Z.of_nat (Z.to_nat (retries self))) self ltac:(lia))).
  reflexivity.
Qed.

Lemma opened_timeout_rounds (msg : list bytes) (n : nat) :
  opened (concat (repeat (timeout_round msg) n)) = Z.of_nat n.
Proof. induction n as [|n IH]; [done|]. cbn [repeat concat]. cbn. lia. Qed.

Lemma closed_timeout_rounds (msg : list bytes) (n : nat) :
  closed (concat (repeat (timeout_round msg) n)) = Z.of_nat n.
Proof. induction n as [|n IH]; [done|]. cbn [repeat concat]. cbn. lia. Qed.

(** X15: when TIME is acknowledged after [a] timeouts and DATA after [b],
    neither number above [retries], [transmit] returns: the budget of
    retries is one per request, not one for the session.  The time is sent
    before the output, each until it is acknowledged and not once more; the
    worker ends without a connection and is otherwise unchanged; as many
    sockets were closed as connected, so a socket that was open before
    [transmit] is still open. *)
Theorem transmit_acknowledged (self : worker) (a b : nat)
  (frames frames' : list bytes) (rest : list poll_result) :
  Z.of_nat a <= retries self ->
  Z.of_nat b <= retries self ->
  exists t,
    transmit (repeat Timeout a ++ Reply ("ACK" :: frames)
              :: repeat Timeout b ++ Reply ("ACK" :: frames') :: rest)%list
      self
    = (Returned, with_connected false self, t)
    /\ sends t = (repeat (message "TIME" self) (S a)
                  ++ repeat (message "DATA" self) (S b))%list
    /\ sleeps t = (a + b)%nat
    /\ opened t = closed t.
Proof.
  intros Ha Hb. unfold Session.transmit.
  change (connect self)
    with (Ok tt, with_connected true self, [Connect; Log INFO]).
  cbv beta iota.
  rewrite (request_rest_acknowledged "TIME" a frames _
             (with_connected true self) (or_intror eq_refl) eq_refl Ha).
  rewrite (request_rest_acknowledged "DATA" b frames' rest
             (with_connected true self) (or_introl eq_refl) eq_refl Hb).
  eexists. split; [reflexivity|].
  change (message "TIME" (with_connected true self))
    with (message "TIME" self).
  change (message "DATA" (with_connected true self))
    with (message "DATA" self).
  generalize (message "TIME" self) (message "DATA" self). intros tm dm.
  rewrite !WorkerFacts.sends_app, !WorkerFacts.sleeps_app,
    !WorkerMore.opened_app, !WorkerMore.closed_app,
    !WorkerFacts.sends_timeout_rounds, !WorkerFacts.sleeps_timeout_rounds,
    !opened_timeout_rounds, !closed_timeout_rounds.
  cbn [sends sleeps opened closed app disconnect].
  split; [|split; [lia|]].
  - change (repeat tm (S a)) with (tm :: repeat tm a).
    change (repeat dm (S b)) with (dm :: repeat dm b).
    rewrite !repeat_cons, <- !app_assoc. reflexivity.
  - cbn. lia.
Qed.

(** X16: when no one answers TIME, [transmit] raises [ConnectionError]
    after [retries + 1] attempts and the output is never sent; when TIME
    is acknowledged and no one answers DATA, it raises after [retries + 1]
    attempts for DATA.  Either way the worker ends without a connection. *)
Theorem transmit_gives_up (self : worker) (a : nat) (frames : list bytes)
  (rest : list poll_result) :
  0 <= retries self ->
  let n := Z.to_nat (retries self) in
  (exists t,
     transmit (repeat Timeout (S n) ++ rest)%list self
     = (Raised ConnectionError, with_connected false self, t)
     /\ sends t = repeat (message "TIME" self) (S n))
  /\ (Z.of_nat a <= retries self ->
      exists t,
        transmit (repeat Timeout a ++ Reply ("ACK" :: frames)
                  :: repeat Timeout (S n) ++ rest)%list self
        = (Raised ConnectionError, with_connected false self, t)
        /\ sends t = (repeat (message "TIME" self) (S a)
                      ++ repeat (message "DATA" self) (S n))%list).
Proof.
  intros Hr n.
  pose proof (request_rest_abandoned "TIME" rest (with_connected true self)
                (or_intror eq_refl) eq_refl Hr) as Ht.
  pose proof (request_rest_abandoned "DATA" rest (with_connected true self)
                (or_introl eq_refl) eq_refl Hr) as Hd.
  change (retries (with_connected true self)) with (retries self) in Ht, Hd.
  fold n in Ht, Hd.
  split.
  - unfold Session.transmit.
    change (connect self)
      with (Ok tt, with_connected true self, [Connect; Log INFO]).
    cbv beta iota.
    rewrite Ht.
    eexists. split; [reflexivity|].
    change (message "TIME" (with_connected true self))
      with (message "TIME" self).
    generalize (message "TIME" self). intros tm.
    rewrite !WorkerFacts.sends_app, !WorkerFacts.sends_timeout_rounds.
    cbn [sends app last_round].
    change (repeat tm (S n)) with (tm :: repeat tm n).
    by rewrite repeat_cons.
  - intros Ha. unfold Session.transmit.
    change (connect self)
      with (Ok tt, with_connected true self, [Connect; Log INFO]).
    cbv beta iota.
    rewrite (request_rest_acknowledged "TIME" a frames _
               (with_connected true self) (or_intror eq_refl) eq_refl Ha).
    rewrite Hd.
    eexists. split; [reflexivity|].
    change (message "TIME" (with_connected true self))
      with (message "TIME" self).
    change (message "DATA" (with_connected true self))
      with (message "DATA" self).
    generalize (message "TIME" self) (message "DATA" self). intros tm dm.
    rewrite !WorkerFacts.sends_app, !WorkerFacts.sends_timeout_rounds.
    cbn [sends app last_round].
    change (repeat tm (S a)) with (tm :: repeat tm a).
    change (repeat dm (S n)) with (dm :: repeat dm n).
    rewrite !repeat_cons, <- !app_assoc. reflexivity.
Qed.

Lemma retrieve_accepted (self s1 : worker) (response : list bytes)
  (t1 : list event) (rest : list poll_result) :
  receive "READY" response (with_connected true self) = (Ok tt, s1, t1) ->
  retrieve (Reply response :: rest) self
  = (Returned, with_connected false s1,
     ([Connect; Log INFO] ++ (Send ["READY"] :: Log DEBUG :: t1)
      ++ [Close])%list).
Proof.
  intros Hrecv. unfold Session.retrieve, Session.request_rest.
  change (connect self)
    with (Ok tt, with_connected true self, [Connect; Log INFO]).
  cbv beta iota. cbn [connected with_connected ret].
  cbn [String.eqb Ascii.eqb Bool.eqb orb].
  rewrite (rest_return (Reply response) rest "READY" 0 _ _ _
             (WorkerFacts.after_reply_return _ _ "READY" 0 response
                _ _ _ Hrecv)).
  reflexivity.
Qed.

(** X17: [retrieve] with a reply of three frames as the first thing that
    comes.  When the READY branch accepts it, [retrieve] returns with the
    worker as the branch has left it and the socket closed.  That is so
    when both schemas are decoded, [np.dtype] takes them and the second
    frame is one record or more of the input dtype: the input of the worker
    is then the first record of the frame, by the size of the dtype of the
    decoded input schema, and its output a record of zero bytes of the size
    of the decoded output schema.  When the READY branch raises an
    exception other than [ValueError] and [AssertionError], [retrieve]
    raises it and the socket that it has connected is never closed: the
    worker stays connected. *)
Theorem retrieve_with_a_reply (self : worker) (d_in data d_out : bytes)
  (rest : list poll_result) :
  let self1 := with_connected true self in
  let response := [d_in; data; d_out] in
  (forall s1 t1,
     receive_READY response self1 = (Ok tt, s1, t1) ->
     retrieve (Reply response :: rest) self
     = (Returned, with_connected false s1,
        ([Connect; Log INFO; Send ["READY"]; Log DEBUG] ++ t1
         ++ [Close])%list))
  /\ (forall descr_in descr_out (sz sz' : nat),
        Schema.decode json_loads Schema.input_column d_in = Ok descr_in ->
        Schema.decode json_loads Schema.output_column d_out = Ok descr_out ->
        np_dtype descr_in = Ok sz ->
        np_dtype descr_out = Ok sz' ->
        sz <> 0%nat -> (String.length data mod sz = 0)%nat ->
        (sz <= String.length data)%nat ->
        retrieve (Reply response :: rest) self
        = (Returned,
           with_connected false
             (with_output (Bytes.zeros sz')
                (with_input (Bytes.take sz data) self)),
           [Connect; Log INFO; Send ["READY"]; Log DEBUG;
            Log INFO; Log DEBUG; Close]))
  /\ (forall e s1 t1,
        receive_READY response self1 = (Raise e, s1, t1) ->
        e <> ValueError -> e <> AssertionError ->
        retrieve (Reply response :: rest) self
        = (Raised e, s1,
           ([Connect; Log INFO; Send ["READY"]; Log DEBUG] ++ t1)%list)
        /\ connected s1 = true
        /\ closed ([Connect; Log INFO; Send ["READY"]; Log DEBUG] ++ t1)%list
           = 0).
Proof.
  intros self1 response. split; [|split].
  - intros s1 t1 Hrecv.
    by rewrite (retrieve_accepted self s1 response t1 rest Hrecv).
  - intros descr_in descr_out sz sz' Hin Hout Hsz Hsz' H0 Hmod Hle.
    by rewrite (retrieve_accepted self _ response _ rest
                  (WorkerMore.receive_READY_decoded json_loads np_dtype
                     self1 d_in data d_out descr_in descr_out sz sz'
                     Hin Hout Hsz Hsz' H0 Hmod Hle)).
  - intros e s1 t1 Hrecv H1 H2.
    pose proof (WorkerMore.receive_READY_effect json_loads np_dtype
                  response self1) as Heff.
    pose proof (WorkerMore.receive_READY_events json_loads np_dtype
                  response self1) as Hev.
    rewrite Hrecv in Heff, Hev.
    destruct Heff as (Hc & _), Hev as (_ & Hcl).
    split; [|split; [by rewrite Hc|]].
    + unfold Session.retrieve, Session.request_rest.
      change (connect self)
        with (Ok tt, with_connected true self, [Connect; Log INFO]).
      cbv beta iota. fold self1. cbn [connected with_connected self1 ret].
      cbn [String.eqb Ascii.eqb Bool.eqb orb].
      rewrite (rest_raise (Reply response) rest "READY" 0 self1 _ _ _
                 (WorkerMore.after_poll_uncaught _ _ "READY" 0 response
                    self1 _ _ _ Hrecv H1 H2)).
      reflexivity.
    + cbn [app closed]. exact Hcl.
Qed.

(** X18: [clean] after [request]: for a worker that was not connected,
    whatever the request was and however it ended, [clean] leaves the worker
    without a connection, and then every socket that [request] has
    connected has been closed.  A second [clean] does nothing. *)
Theorem clean_after_request (self : worker) (req : bytes)
  (script : list poll_result) :
  connected self = false ->
  let '(o, self', t) := request script req self in
  let '(r, self'', t') := clean self' in
  r = Ok tt
  /\ connected self'' = false
  /\ opened (t ++ t')%list = closed (t ++ t')%list
  /\ clean self'' = (Ok tt, self'', []).
Proof.
  intros Hc.
  pose proof (WorkerMore.request_effect json_loads np_dtype self req script)
    as H.
  destruct (request script req self) as [[o self'] t].
  destruct H as (_ & _ & _ & _ & _ & Hb). rewrite Hc in Hb.
  unfold Session.clean, bind, get.
  destruct (connected self') eqn:Hc'; cbn in *;
    rewrite WorkerMore.opened_app, WorkerMore.closed_app; cbn;
    rewrite ?Hc'; repeat split; try done; lia.
Qed.

Lemma request_rest_answered (req : bytes) (frames : list bytes)
  (rest : list poll_result) (self : worker) :
  req = "DATA" \/ req = "TIME" ->
  connected self = true ->
  request_rest (Reply ("ACK" :: frames) :: rest) req self
  = (Returned, self, [Send (message req self); Log DEBUG; Log DEBUG], rest).
Proof.
  intros Hreq Hc. unfold Session.request_rest. rewrite Hc.
  assert (String.eqb req "READY" || String.eqb req "DATA"
          || String.eqb req "TIME" = true) as ->
    by (by destruct Hreq as [-> | ->]).
  cbn [ret].
  rewrite (rest_return _ rest _ _ _ _ _
             (WorkerFacts.after_reply_return _ _ req 0 ("ACK" :: frames)
                self _ _
                (WorkerFacts.receive_ACK _ _ req frames self
                   ltac:(by destruct Hreq as [-> | ->])))).
  reflexivity.
Qed.

Lemma retrieve_returned (self self' : worker) (response : list bytes)
  (t : list event) :
  retrieve [Reply response] self = (Returned, self', t) ->
  exists s1 t1,
    receive "READY" response (with_connected true self) = (Ok tt, s1, t1).
Proof.
  destruct (receive "READY" response (with_connected true self))
    as [[[[]|e] s1] t1] eqn:Hrecv; [by eauto|].
  unfold Session.retrieve, Session.request_rest.
  change (connect self)
    with (Ok tt, with_connected true self, [Connect; Log INFO]).
  cbv beta iota. cbn [connected with_connected ret].
  cbn [String.eqb Ascii.eqb Bool.eqb orb].
  cbn [Session.lazy_pirate_rest]. unfold attempt, bind at 1.
  rewrite WorkerFacts.send_request_eq.
  unfold after_poll, bind, try_malformed. rewrite Hrecv.
  destruct e; py_run;
    repeat match goal with
           | |- context [Z.leb ?a ?b] => destruct (Z.leb a b)
           end; done.
Qed.

End SessionFacts.
End SessionFacts.

(** * A worker and the coordinator *)

Module BytesMore.
Import Bytes.

Lemma length_le_bytes (n : nat) :
  forall z, String.length (le_bytes n z) = n.
Proof. induction n as [|n IH]; intros z; cbn; [done | by rewrite IH]. Qed.

Lemma le_uint_le_bytes (n : nat) :
  forall z, le_uint (le_bytes n z) = z mod 2 ^ (8 * Z.of_nat n).
Proof.
  induction n as [|n IH]; intros z.
  - cbn. by rewrite Z.mod_1_r.
  - cbn [le_bytes le_uint]. rewrite IH.
    assert (0 <= z mod 256 < 256) as Hm by (apply Z.mod_pos_bound; lia).
    rewrite nat_ascii_embedding by lia.
    rewrite Z2Nat.id by lia.
    replace (8 * Z.of_nat (S n)) with (8 + 8 * Z.of_nat n) by lia.
    rewrite Z.pow_add_r by lia.
    change (2 ^ 8) with 256.
    rewrite Z.rem_mul_r by lia. reflexivity.
Qed.

End BytesMore.

Module Exchange.
Import RunTable.

Section Exchange.

Context {schema : Type}.
Variable json_dumps : schema -> bytes.
Variable itemsize : schema -> nat.
Variable lim : nat.
Variable json_loads : bytes -> option PyVal.pyval.
Variable np_dtype : list PyVal.pyval -> result nat.

Local Abbreviation handle_msg := (Runner.handle_msg json_dumps itemsize lim).
Local Abbreviation poll_loop := (Runner.poll_loop json_dumps itemsize lim).
Local Abbreviation retrieve := (Session.retrieve json_loads np_dtype).
Local Abbreviation transmit := (Session.transmit json_loads np_dtype).

(** X19: [transmit] of the worker of a run against the coordinator.  In a
    table of [size] runs, for the worker of a run [run_id] in [0, size)
    whose output has the size of a record of the output schema and whose
    time is in [0, 2^32) (an integer that [np.uint] converts and that a
    TIME column of 32 bits or more holds), the coordinator handles the
    TIME message and then the DATA message of the worker without an
    exception; with the two replies delivered to it, [transmit] returns,
    having sent exactly these two messages.  The table then holds, for that
    run, the time of the worker and its output, [DONE] is true and the
    COMPLETED bit is set. *)
Theorem transmit_reaches_the_table (size : nat)
  (table : Runner.runner schema) (self : Worker.worker) (run_id : Z) :
  wf size table ->
  0 <= run_id < Z.of_nat size ->
  String.length (Worker.output self) = itemsize (Runner.output_vars table) ->
  itemsize (Runner.output_vars table) <> 0%nat ->
  0 <= Worker.time self < 2 ^ 32 ->
  let address := identity run_id in
  let k := Z.to_nat run_id in
  exists table1 table2 t1 t2 t,
    handle_msg address (Worker.message "TIME" self) table = (Ok tt, table1, t1)
    /\ handle_msg address (Worker.message "DATA" self) table1
       = (Ok tt, table2, t2)
    /\ transmit (delivered (t1 ++ t2)) self
       = (Worker.Returned, Worker.with_connected false self, t)
    /\ poll_loop (received address t) table = (Ok tt, table2, (t1 ++ t2)%list)
    /\ Runner.TIME table2 !! k = Some (Worker.time self)
    /\ Runner.output table2 !! k = Some (Worker.output self)
    /\ Runner.DONE table2 !! k = Some true
    /\ exists flags,
         Runner.FLAGS table2 !! k = Some flags
         /\ has_flag COMPLETED flags = true.
Proof.
  intros (Hi & Ho & Hd & Ht & Hf & Hs) Hr Hlen Hsz Htime address k.
  assert (reads_as lim address run_id) as Hread
    by (apply (RunnerFacts.identity_reads_as lim size); lia).
  assert (np_index size run_id = Some k) as Hk by (by apply np_index_nonneg).
  assert (k < size)%nat as Hlt by (by apply (np_index_lt _ run_id)).
  destruct (lookup_lt_is_Some_2 (Runner.FLAGS table) k) as [flags Hfl]; [lia|].
  pose proof (RunnerFacts.handle_TIME_at json_dumps itemsize lim table address
                run_id (Bytes.le_bytes uint_itemsize (Worker.time self)) [] k
                Hread (BytesMore.length_le_bytes _ _)
                ltac:(by rewrite Ht)) as H1.
  set (table1 := Runner.with_TIME _ table) in H1.
  pose proof (RunnerFacts.handle_DATA_at json_dumps itemsize lim table1 address
                run_id (Worker.output self) [] k flags
                Hread Hlen Hsz
                ltac:(by cbn; rewrite Ho) ltac:(by cbn; rewrite Hd)
                ltac:(by cbn; rewrite Hf) Hfl) as H2.
  set (table2 := Runner.with_FLAGS _ _) in H2.
  change ["TIME"; Bytes.le_bytes uint_itemsize (Worker.time self)]
    with (Worker.message "TIME" self) in H1.
  change ["DATA"; Worker.output self]
    with (Worker.message "DATA" self) in H2.
  exists table1, table2. do 2 eexists.
  assert (transmit [Worker.Reply ["ACK"]; Worker.Reply ["ACK"]] self
          = (Worker.Returned, Worker.with_connected false self,
             [Connect; Log INFO;
              Send (Worker.message "TIME" self); Log DEBUG; Log DEBUG;
              Send (Worker.message "DATA" self); Log DEBUG; Log DEBUG;
              Close])) as Htr.
  { unfold Session.transmit.
    change (Worker.connect self)
      with (Ok tt, Worker.with_connected true self, [Connect; Log INFO]).
    cbv beta iota.
    rewrite (SessionFacts.request_rest_answered json_loads np_dtype "TIME" []
               [Worker.Reply ["ACK"]] (Worker.with_connected true self)
               (or_intror eq_refl) eq_refl).
    rewrite (SessionFacts.request_rest_answered json_loads np_dtype "DATA" []
               [] (Worker.with_connected true self)
               (or_introl eq_refl) eq_refl).
    reflexivity. }
  eexists. split; [exact H1|]. split; [exact H2|].
  split; [exact Htr|]. split.
  { cbn [received sends List.map].
    apply (RunnerFacts.poll_loop_cons json_dumps itemsize lim
             table table1 table2 address "" _ _ _ _ (Ok tt) H1).
    rewrite <- (app_nil_r [Log DEBUG; Log DEBUG; Log DEBUG;
                           Send [address; ""; "ACK"]]).
    by apply (RunnerFacts.poll_loop_cons json_dumps itemsize lim
                table1 table2 table2 address "" _ [] _ [] (Ok tt) H2). }
  subst table2 table1.
  cbn [Runner.TIME Runner.output Runner.DONE Runner.FLAGS Runner.with_TIME
       Runner.with_output Runner.with_DONE Runner.with_FLAGS].
  rewrite !list_lookup_insert_eq by lia.
  rewrite BytesMore.le_uint_le_bytes.
  assert (2 ^ 32 < 2 ^ (8 * Z.of_nat uint_itemsize)) as Hpow by done.
  rewrite Z.mod_small by lia. clear Hpow.
  repeat split; try done.
  eexists. split; [reflexivity|].
  apply (has_flag_ior_same 3). lia.
Qed.

(** X20: [retrieve] of the worker of a run against the coordinator.  In a
    table of [size] runs, take a run [run_id] in [0, size) and a worker
    that decodes the two schemas as the coordinator writes them, to lists
    of fields of which [np.dtype] makes dtypes; let the input record of
    the run have the size of the first, which is not zero.  The coordinator
    answers the READY message of the worker with that record between the
    two schemas and sets the ASSIGNED bit of the run.  With that reply
    delivered to it, [retrieve] returns: the worker has sent READY once,
    has closed its socket, has the input record of the run as its input,
    byte for byte, and a record of zero bytes as its output. *)
Theorem retrieve_gets_the_input_of_the_run (size : nat)
  (table : Runner.runner schema) (self : Worker.worker) (run_id : Z)
  (record : bytes) (descr_in descr_out : list PyVal.pyval) (sz' : nat) :
  wf size table ->
  0 <= run_id < Z.of_nat size ->
  Runner.input table !! Z.to_nat run_id = Some record ->
  Schema.decode json_loads Schema.input_column
    (json_dumps (Runner.input_vars table)) = Ok descr_in ->
  Schema.decode json_loads Schema.output_column
    (json_dumps (Runner.output_vars table)) = Ok descr_out ->
  np_dtype descr_in = Ok (String.length record) ->
  String.length record <> 0%nat ->
  np_dtype descr_out = Ok sz' ->
  let address := identity run_id in
  let k := Z.to_nat run_id in
  exists flags t1 t,
    Runner.FLAGS table !! k = Some flags
    /\ handle_msg address (Worker.message "READY" self) table
       = (Ok tt,
          Runner.with_FLAGS (<[k:=Z.lor flags ASSIGNED]> (Runner.FLAGS table))
            table,
          t1)
    /\ retrieve (delivered t1) self
       = (Worker.Returned,
          Worker.with_connected false
            (Worker.with_output (Bytes.zeros sz')
               (Worker.with_input record self)),
          t)
    /\ received address t = [[address; ""; "READY"]]
    /\ opened t = closed t.
Proof.
  intros Hwf Hr Hrec Hin Hout Hsz H0 Hsz' address k.
  assert (reads_as lim address run_id) as Hread
    by (destruct Hwf as (_ & _ & _ & _ & _ & Hs);
        apply (RunnerFacts.identity_reads_as lim size); lia).
  assert (np_index size run_id = Some k) as Hk by (by apply np_index_nonneg).
  assert (k < size)%nat as Hlt by (by apply (np_index_lt _ run_id)).
  destruct (RunnerFacts.wf_lookup size table k Hwf Hlt)
    as (record' & flags & Hrec' & Hfl).
  assert (record' = record) as -> by (unfold k in Hrec'; congruence).
  destruct Hwf as (Hi & _ & _ & _ & Hf & _).
  exists flags. do 2 eexists.
  split; [exact Hfl|].
  split.
  { apply (RunnerFacts.handle_READY_at json_dumps itemsize lim table address
             run_id [] k record flags Hread); try done.
    - by rewrite Hi.
    - by rewrite Hf. }
  cbn [delivered sends List.map skipn].
  rewrite (SessionFacts.retrieve_accepted json_loads np_dtype self _ _ _ []
             (WorkerMore.receive_READY_decoded json_loads np_dtype
                (Worker.with_connected true self) _ record _
                descr_in descr_out (String.length record) sz'
                Hin Hout Hsz Hsz' H0 (Nat.Div0.mod_same _) (Nat.le_refl _))).
  rewrite BytesFacts.take_all.
  split; [reflexivity|]. split; reflexivity.
Qed.

End Exchange.
End Exchange.

(** * The registry of components *)

Module RegistryFacts.
Import Registry.

Lemma dict_get_set_same (d : dict) (k : string) (v : pyclass) :
  dict_get (dict_set d k v) k = Some v.
Proof.
  induction d as [|[k' v'] d IH]; cbn.
  - by rewrite String.eqb_refl.
  - destruct (String.eqb k' k) eqn:E; cbn; by rewrite E.
Qed.

Lemma dict_get_set_other (d : dict) (k k' : string) (v : pyclass) :
  k' <> k -> dict_get (dict_set d k v) k' = dict_get d k'.
Proof.
  intros Hk. induction d as [|[k0 v0] d IH]; cbn.
  - by destruct (String.eqb_spec k k').
  - destruct (String.eqb_spec k0 k) as [->|]; cbn.
    + by destruct (String.eqb_spec k k').
    + by rewrite IH.
Qed.

Lemma keys_dict_set (d : dict) (k : string) (v : pyclass) :
  List.map fst (dict_set d k v)
  = if dict_contains d k then List.map fst d
    else (List.map fst d ++ [k])%list.
Proof.
  unfold dict_contains. induction d as [|[k0 v0] d IH]; cbn; [done|].
  destruct (String.eqb_spec k0 k) as [->|]; cbn; [done|].
  rewrite IH. by destruct (dict_get d k).
Qed.

Lemma dict_get_In (d : dict) (k : string) (v : pyclass) :
  dict_get d k = Some v -> In (k, v) d.
Proof.
  induction d as [|[k0 v0] d IH]; cbn; [done|].
  destruct (String.eqb_spec k0 k) as [->|].
  - intros [= ->]. by left.
  - intros H. right. by apply IH.
Qed.

Lemma find_dict_get (d : dict) (cls item : pyclass) (l : string) :
  NoDup (List.map fst d) ->
  List.find (fun '(_, item) => same item cls) d = Some (l, item) ->
  dict_get d l = Some item /\ same item cls = true.
Proof.
  induction d as [|[k v] d IH]; cbn; [done|].
  intros Hnd. apply NoDup_cons in Hnd as [Hk Hnd].
  destruct (same v cls) eqn:E.
  - intros [= -> ->]. by rewrite String.eqb_refl.
  - intros Hf. destruct (IH Hnd Hf) as [Hg Hs]. split; [|done].
    destruct (String.eqb_spec k l) as [->|]; [|done].
    exfalso. apply Hk. apply dict_get_In in Hg.
    apply list_elem_of_In. apply (in_map fst) in Hg. exact Hg.
Qed.

Lemma find_fresh (d : dict) (cls : pyclass) :
  (forall l item, In (l, item) d -> (id_of item < id_of cls)%nat) ->
  List.find (fun '(_, item) => same item cls) d = None.
Proof.
  induction d as [|[k v] d IH]; cbn; [done|].
  intros H. assert (same v cls = false) as ->.
  { unfold same. apply Nat.eqb_neq. specialize (H k v (or_introl eq_refl)).
    lia. }
  apply IH. intros l item Hin. apply (H l item). by right.
Qed.

Lemma register_eq (cls : pyclass) (l : string) (subcls : pyclass) (h : heap) :
  register cls l subcls h
  = (Ok subcls,
     store (_components cls) (dict_set (dicts h (_components cls)) l subcls) h,
     if dict_contains (dicts h (_components cls)) l then [Log WARNING]
     else []).
Proof.
  unfold register. py_run.
  by destruct (dict_contains (dicts h (_components cls)) l).
Qed.

Lemma dicts_store_same (d : nat) (v : dict) (h : heap) :
  dicts (store d v h) d = v.
Proof. cbn. by rewrite Nat.eqb_refl. Qed.

Lemma dicts_store_other (d d' : nat) (v : dict) (h : heap) :
  d' <> d -> dicts (store d v h) d' = dicts h d'.
Proof. intros H. cbn. by destruct (Nat.eqb_spec d' d). Qed.

Lemma define_first_level (h : heap) (name : string) (base : pyclass)
  (given : option string) :
  component base = "Component" ->
  let l := match given with Some l => l | None => name end in
  let cls := Subclass (next_class h) name base (Some (next_dict h, l)) in
  define name base given h
  = (Ok cls, store (next_dict h) [(l, cls)] (with_dict (with_class h)), []).
Proof.
  intros Hc l cls.
  unfold define, init_subclass, bind at 1, new_class_id.
  cbn [component]. rewrite Hc. cbn [String.eqb Ascii.eqb Bool.eqb].
  unfold bind at 1, new_dict. rewrite register_eq.
  cbn [_components dicts next_dict next_class with_dict with_class].
  rewrite Nat.eqb_refl.
  cbn [dict_contains dict_get dict_set app]. reflexivity.
Qed.

Lemma define_labelled (h : heap) (name : string) (base : pyclass)
  (l : string) :
  component base <> "Component" ->
  let cls := Subclass (next_class h) name base None in
  define name base (Some l) h
  = (Ok cls,
     store (_components base) (dict_set (dicts h (_components base)) l cls)
       (with_class h),
     if dict_contains (dicts h (_components base)) l then [Log WARNING]
     else []).
Proof.
  intros Hc cls.
  unfold define, init_subclass, bind at 1, new_class_id.
  cbn [component].
  destruct (String.eqb_spec (component base) "Component"); [done|].
  rewrite register_eq. cbn [_components dicts with_class app]. reflexivity.
Qed.

Lemma define_unlabelled (h : heap) (name : string) (base : pyclass) :
  component base <> "Component" ->
  define name base None h
  = (Ok (Subclass (next_class h) name base None), with_class h, []).
Proof.
  intros Hc.
  unfold define, init_subclass, bind at 1, new_class_id.
  cbn [component].
  by destruct (String.eqb_spec (component base) "Component").
Qed.

(** X21: the definition of a class whose base has the component
    [Component] (a direct subclass of [Component] is one) makes a new
    registry, which holds the class itself under its label and nothing
    else; the label is the one given, or the name of the class.  No
    other dictionary changes, so the class is in no registry of its bases.
    There is no warning.  The class is found under its label, and its
    label is found. *)
Theorem first_level_component_has_its_own_registry (h : heap)
  (name : string) (base : pyclass) (given : option string) :
  component base = "Component" ->
  let l := match given with Some l => l | None => name end in
  let cls := Subclass (next_class h) name base (Some (next_dict h, l)) in
  exists h',
    define name base given h = (Ok cls, h', [])
    /\ component cls = l
    /\ dicts h' (_components cls) = [(l, cls)]
    /\ (forall d, d <> _components cls -> dicts h' d = dicts h d)
    /\ class_getitem cls l h' = (Ok cls, h', [])
    /\ label cls h' = (Ok l, h', []).
Proof.
  intros Hc l cls. eexists.
  split; [by apply define_first_level|].
  split; [reflexivity|].
  cbn [_components]. split; [by rewrite dicts_store_same|].
  split.
  { intros d Hd. rewrite dicts_store_other by done.
    cbn. by destruct (Nat.eqb_spec d (next_dict h)). }
  split.
  - unfold class_getitem, bind, get. cbn [_components].
    rewrite dicts_store_same. cbn [dict_get]. by rewrite String.eqb_refl.
  - unfold label, bind, get. cbn [_components].
    rewrite dicts_store_same. cbn [find]. unfold same.
    by rewrite Nat.eqb_refl.
Qed.

(** X22: the definition of a class with a label, whose base has a
    component other than [Component], gives the class no registry of its
    own: it is put into the registry of its base under the label, where it
    is found from the base.  What was under that label is replaced, with
    a warning, and the label keeps its place; a new label comes last,
    without a warning.  The other labels and the other registries keep what
    they had. *)
Theorem labelled_subclass_is_registered_with_its_base (h : heap)
  (name : string) (base : pyclass) (l : string) :
  component base <> "Component" ->
  let cls := Subclass (next_class h) name base None in
  let was_there := dict_contains (dicts h (_components base)) l in
  exists h',
    define name base (Some l) h
    = (Ok cls, h', if was_there then [Log WARNING] else [])
    /\ _components cls = _components base
    /\ class_getitem base l h' = (Ok cls, h', [])
    /\ (forall l', l' <> l ->
        dict_get (dicts h' (_components base)) l'
        = dict_get (dicts h (_components base)) l')
    /\ (forall d, d <> _components base -> dicts h' d = dicts h d)
    /\ labels base h'
       = (Ok (if was_there then List.map fst (dicts h (_components base))
              else (List.map fst (dicts h (_components base)) ++ [l])%list),
          h', []).
Proof.
  intros Hc cls was. eexists.
  split; [by apply define_labelled|].
  split; [reflexivity|].
  split.
  { unfold class_getitem, bind, get.
    rewrite dicts_store_same, dict_get_set_same. reflexivity. }
  split.
  { intros l' Hl'. rewrite dicts_store_same. by apply dict_get_set_other. }
  split.
  { intros d Hd. by rewrite dicts_store_other. }
  unfold labels, bind, get, ret.
  rewrite dicts_store_same, keys_dict_set. reflexivity.
Qed.

(** X23: the definition of a class without a label, whose base has a
    component other than [Component], changes no dictionary.  The class
    sees the registry of its base, in which it is not: its [label] raises
    [KeyError]. *)
Theorem unlabelled_subclass_is_not_registered (h : heap)
  (name : string) (base : pyclass) :
  wf h ->
  component base <> "Component" ->
  let cls := Subclass (next_class h) name base None in
  exists h',
    define name base None h = (Ok cls, h', [])
    /\ (forall d, dicts h' d = dicts h d)
    /\ labels cls h' = labels base h'
    /\ label cls h' = (Raise KeyError, h', []).
Proof.
  intros (_ & Hfresh & _) Hc cls. eexists.
  split; [by apply define_unlabelled|].
  split; [done|]. split; [reflexivity|].
  unfold label, bind, get. cbn [_components dicts].
  rewrite find_fresh; [done|].
  intros l item Hin. apply (Hfresh _ _ _ Hin).
Qed.

(** X24: in a heap whose dictionaries have every key once, the label that
    [label] finds for a class is a label of that class: [cls[label]]
    is the class itself.  Neither of the two changes the heap. *)
Theorem label_is_a_label_of_the_class (h h' : heap) (cls : pyclass)
  (l : string) (t : list event) :
  wf h ->
  label cls h = (Ok l, h', t) ->
  h' = h /\ t = []
  /\ exists item,
       class_getitem cls l h = (Ok item, h, [])
       /\ same item cls = true.
Proof.
  intros (Hnd & _ & _). unfold label, class_getitem, bind, get.
  destruct (find _ (dicts h (_components cls))) as [[l' item]|] eqn:Hf;
    [|done].
  cbn. intros [= -> <- <-].
  destruct (find_dict_get _ _ _ _ (Hnd _) Hf) as [Hg Hs].
  rewrite Hg. split; [done|]. split; [done|]. by exists item.
Qed.

(** X25: registering twice under one label: the second registration warns
    and replaces the first, the labels of the registry are as they were
    after the first, and every other label keeps its class. *)
Theorem registering_again_replaces (h : heap) (cls a b : pyclass)
  (l : string) :
  exists h1 h2 t1,
    register cls l a h = (Ok a, h1, t1)
    /\ class_getitem cls l h1 = (Ok a, h1, [])
    /\ register cls l b h1 = (Ok b, h2, [Log WARNING])
    /\ class_getitem cls l h2 = (Ok b, h2, [])
    /\ labels cls h2 = (fst (fst (labels cls h1)), h2, [])
    /\ forall l', l' <> l ->
         dict_get (dicts h2 (_components cls)) l'
         = dict_get (dicts h (_components cls)) l'.
Proof.
  do 3 eexists. split; [apply register_eq|].
  split.
  { unfold class_getitem, bind, get.
    by rewrite dicts_store_same, dict_get_set_same. }
  split.
  { rewrite register_eq. rewrite dicts_store_same.
    unfold dict_contains. rewrite dict_get_set_same. reflexivity. }
  split.
  { unfold class_getitem, bind, get.
    by rewrite dicts_store_same, dict_get_set_same. }
  split.
  { unfold labels, bind, get, ret. cbn [fst].
    rewrite !dicts_store_same, (keys_dict_set (dict_set _ _ _)).
    unfold dict_contains. by rewrite dict_get_set_same. }
  intros l' Hl'.
  rewrite !dicts_store_same, !dict_get_set_other by done. reflexivity.
Qed.

Lemma dict_get_None_keys (d : dict) (k : string) :
  dict_get d k = None -> ~ In k (List.map fst d).
Proof.
  induction d as [|[k0 v0] d IH]; cbn; [tauto|].
  destruct (String.eqb_spec k0 k) as [->|Hne]; [done|].
  intros H [Hk|Hk]; [done | by apply IH].
Qed.

Lemma NoDup_keys_dict_set (d : dict) (k : string) (v : pyclass) :
  NoDup (List.map fst d) -> NoDup (List.map fst (dict_set d k v)).
Proof.
  intros Hnd. rewrite keys_dict_set. unfold dict_contains.
  destruct (dict_get d k) eqn:E; [done|].
  apply NoDup_app. split; [done|]. split; [|apply NoDup_singleton].
  intros x Hx Hk. apply list_elem_of_singleton in Hk as ->.
  apply (dict_get_None_keys _ _ E). by apply list_elem_of_In.
Qed.

Lemma In_dict_set (d : dict) (k l : string) (v item : pyclass) :
  In (l, item) (dict_set d k v) -> In (l, item) d \/ item = v.
Proof.
  induction d as [|[k0 v0] d IH]; cbn.
  - intros [[= _ <-]|[]]. by right.
  - destruct (String.eqb_spec k0 k) as [->|]; cbn.
    + intros [[= _ <-]|H]; [by right | left; by right].
    + intros [H|H]; [left; by left|].
      destruct (IH H); [left; by right | by right].
Qed.

Lemma wf_start : wf start.
Proof. repeat split; cbn; try done. intros d. apply NoDup_nil_2. Qed.

Lemma defined_start : defined start Component.
Proof. split; cbn; lia. Qed.

(** X26: the definition of a class keeps the heap well formed: no key is
    twice in a dictionary, the classes in the dictionaries have been
    defined, and the dictionaries to come are empty.  The definition
    returns the class, which is then defined, as the classes before it
    still are. *)
Theorem define_keeps_the_heap_well_formed (h : heap) (name : string)
  (base : pyclass) (given : option string) :
  wf h -> defined h base ->
  exists cls h' t,
    define name base given h = (Ok cls, h', t)
    /\ id_of cls = next_class h
    /\ wf h'
    /\ defined h' cls
    /\ forall c, defined h c -> defined h' c.
Proof.
  intros (Hnd & Hfresh & Hempty) [Hbid Hbd].
  destruct (String.eqb_spec (component base) "Component") as [Hc|Hc].
  - do 3 eexists. split; [by apply define_first_level|].
    split; [reflexivity|]. split; [|split].
    + split; [|split].
      * intros d. cbn. destruct (Nat.eqb_spec d (next_dict h)); [|done].
        cbn. apply NoDup_singleton.
      * intros d l item. cbn.
        destruct (Nat.eqb_spec d (next_dict h)).
        -- intros [[= _ <-]|[]]. cbn. lia.
        -- intros Hin. apply Hfresh in Hin. lia.
      * intros d Hd. cbn in *.
        destruct (Nat.eqb_spec d (next_dict h)); [lia|].
        apply Hempty. lia.
    + split; cbn; lia.
    + intros c [H1 H2]. split; cbn; lia.
  - destruct given as [l|].
    + do 3 eexists. split; [by apply define_labelled|].
      split; [reflexivity|]. split; [|split].
      * split; [|split].
        -- intros d. cbn. destruct (Nat.eqb_spec d (_components base));
             [|done].
           by apply NoDup_keys_dict_set.
        -- intros d l' item. cbn.
           destruct (Nat.eqb_spec d (_components base)).
           ++ intros Hin. apply In_dict_set in Hin as [Hin | ->].
              ** apply Hfresh in Hin. lia.
              ** cbn. lia.
           ++ intros Hin. apply Hfresh in Hin. lia.
        -- intros d Hd. cbn in *.
           destruct (Nat.eqb_spec d (_components base)); [lia|].
           by apply Hempty.
      * split; cbn; lia.
      * intros c [H1 H2]. split; cbn; lia.
    + do 3 eexists. split; [by apply define_unlabelled|].
      split; [reflexivity|]. split; [|split].
      * split; [|split]; cbn; [done| |done].
        intros d l item Hin. apply Hfresh in Hin. lia.
      * split; cbn; lia.
      * intros c [H1 H2]. split; cbn; lia.
Qed.

Lemma dict_contains_one (k l : string) (v : pyclass) :
  String.eqb k l = false -> dict_contains [(k, v)] l = false.
Proof. intros H. unfold dict_contains. cbn. by rewrite H. Qed.

Lemma dict_set_one (k l : string) (v x : pyclass) :
  String.eqb k l = false -> dict_set [(k, v)] l x = [(k, v); (l, x)].
Proof. intros H. cbn. by rewrite H. Qed.

Lemma eqb_succ_r (n : nat) : Nat.eqb n (S n) = false.
Proof. apply Nat.eqb_neq. lia. Qed.

Lemma eqb_succ_l (n : nat) : Nat.eqb (S n) n = false.
Proof. apply Nat.eqb_neq. lia. Qed.

(** X27: one label in two registries.  Two classes [A] and [B] are
    defined without a label on a base whose component is [Component],
    then a class [X] on [A] and a class [Y] on [B], both with the label
    [l] (as [ZeroMQRunnerInterface] and [ZeroMQWorkerInterface] are with
    [zeromq]).  When neither [A] nor [B] has the name [Component] and [l]
    is not the name of one of them, there is no warning: [A[l]] is [X] and
    [B[l]] is [Y], two classes; the registry of [A] has the labels of [A]
    and [X], that of [B] the labels of [B] and [Y]. *)
Theorem one_label_in_two_registries (h : heap) (root : pyclass)
  (na nb nx ny l : string) :
  component root = "Component" ->
  na <> "Component" -> nb <> "Component" -> l <> na -> l <> nb ->
  exists A B X Y h',
    (let* A := define na root None in
     let* B := define nb root None in
     let* X := define nx A (Some l) in
     let* Y := define ny B (Some l) in
     ret (A, B, X, Y))%py h
    = (Ok (A, B, X, Y), h', [])
    /\ class_getitem A l h' = (Ok X, h', [])
    /\ class_getitem B l h' = (Ok Y, h', [])
    /\ same X Y = false
    /\ labels A h' = (Ok [na; l], h', [])
    /\ labels B h' = (Ok [nb; l], h', [])
    /\ label X h' = (Ok l, h', [])
    /\ label Y h' = (Ok l, h', []).
Proof.
  intros Hc Ha Hb Hla Hlb.
  assert (String.eqb na l = false) as Hnal
    by (apply String.eqb_neq; congruence).
  assert (String.eqb nb l = false) as Hnbl
    by (apply String.eqb_neq; congruence).
  do 5 eexists. split.
  { unfold bind at 1. rewrite (define_first_level h na root None Hc).
    unfold bind at 1. rewrite (define_first_level _ nb root None Hc).
    unfold bind at 1. rewrite define_labelled by exact Ha.
    cbn [_components dicts store with_dict with_class next_dict next_class].
    rewrite !Nat.eqb_refl, !eqb_succ_r.
    rewrite (dict_contains_one _ _ _ Hnal), (dict_set_one _ _ _ _ Hnal).
    unfold bind at 1. rewrite define_labelled by exact Hb.
    cbn [_components dicts store with_dict with_class next_dict next_class].
    rewrite !Nat.eqb_refl, !eqb_succ_l.
    rewrite (dict_contains_one _ _ _ Hnbl), (dict_set_one _ _ _ _ Hnbl).
    reflexivity. }
  unfold class_getitem, labels, label, bind, get, ret, same.
  cbn [_components dicts store with_dict with_class next_dict next_class
       id_of].
  rewrite !Nat.eqb_refl, ?eqb_succ_r, ?eqb_succ_l.
  cbn [dict_get List.map fst find id_of].
  rewrite ?Hnal, ?Hnbl, ?String.eqb_refl, ?Nat.eqb_refl.
  assert (forall n, Nat.eqb n (S (S n)) = false) as E2
    by (intros n; apply Nat.eqb_neq; lia).
  assert (forall n, Nat.eqb n (S (S (S n))) = false) as E3
    by (intros n; apply Nat.eqb_neq; lia).
  rewrite ?E2, ?E3, ?eqb_succ_r, ?eqb_succ_l, ?Nat.eqb_refl.
  repeat split; try reflexivity.
Qed.

End RegistryFacts.

(** * The schemas and the records from one side to the other *)

Module SchemaFacts.
Import PyVal Schema RunTable.







Section SchemaFacts.

Variable json_dumps : pyval -> bytes.
Variable json_loads : bytes -> option pyval.
Variable np_dtype : list pyval -> result nat.
Variable lim : nat.

Local Abbreviation itemsize := (dtype_itemsize np_dtype).
Local Abbreviation handle_msg := (Runner.handle_msg json_dumps itemsize lim).
Local Abbreviation retrieve := (Session.retrieve json_loads np_dtype).


End SchemaFacts.
End SchemaFacts.

(** * The properties at work on the campaign of three runs *)

Module WitnessMore.
Import RunTable.

Lemma table_wf : wf 3 Example.table.
Proof. unfold wf. repeat split; reflexivity. Defined.

Lemma classes_wf : Registry.wf Example.classes.
Proof.
  split; [|split].
  - intros d. cbn. destruct (Nat.eqb d 1); cbn; repeat constructor.
    by intros H%elem_of_nil.
  - intros d l item. cbn. destruct (Nat.eqb d 1); cbn; [|done].
    intros [[= _ <-]|[]]. cbn. lia.
  - intros d Hd. cbn in *. destruct (Nat.eqb_spec d 1); [lia | done].
Defined.

Lemma serve_keeps_the_inputs_witness :
  wf 3 Example.table
  /\ let self' :=
       serve Example.json_dumps Example.itemsize Example.int_max_str_digits
         [("req_1", ["DATA"; "xy"]); ("nobody", []); ("req_9", ["READY"])]
         Example.table in
     wf 3 self'
     /\ Runner.input self' = Runner.input Example.table
     /\ Runner.input_vars self' = Runner.input_vars Example.table
     /\ Runner.output_vars self' = Runner.output_vars Example.table.
Proof.
  split; [exact table_wf|].
  exact (RunnerMore.serve_keeps_the_inputs Example.json_dumps Example.itemsize
           Example.int_max_str_digits 3 Example.table _ table_wf).
Defined.

Lemma serve_never_clears_witness :
  let self :=
    serve Example.json_dumps Example.itemsize Example.int_max_str_digits
      [("req_2", ["DATA"; "xy"])] Example.table in
  Runner.DONE self !! 2%nat = Some true
  /\ Runner.DONE
       (serve Example.json_dumps Example.itemsize Example.int_max_str_digits
          [("req_2", ["READY"]); ("req_2", ["DIE"])] self) !! 2%nat
     = Some true.
Proof.
  intros self. split; [reflexivity|].
  exact (proj1 (RunnerMore.serve_never_clears Example.json_dumps
                  Example.itemsize Example.int_max_str_digits self
                  [("req_2", ["READY"]); ("req_2", ["DIE"])] 2)
           eq_refl).
Defined.

Lemma raising_message_has_no_effect_witness :
  wf 3 Example.table
  /\ Example.handle_msg "req_7" ["READY"] Example.table
     = (Raise IndexError, Example.table, [Log DEBUG])
  /\ Example.table = Example.table /\ sends [Log DEBUG] = [].
Proof.
  split; [exact table_wf|]. split; [reflexivity|].
  exact (RunnerMore.raising_message_has_no_effect Example.json_dumps
           Example.itemsize Example.int_max_str_digits 3 Example.table
           Example.table "req_7" ["READY"] IndexError [Log DEBUG]
           table_wf eq_refl).
Defined.

Lemma unknown_verb_is_ignored_witness :
  reads_as Example.int_max_str_digits "req_1" 1
  /\ "PING" <> "READY" /\ "PING" <> "DATA" /\ "PING" <> "TIME"
  /\ "PING" <> "DIE"
  /\ Example.handle_msg "req_1" ["PING"; "x"] Example.table
     = (Ok tt, Example.table, [Log DEBUG; Log WARNING]).
Proof.
  assert (reads_as Example.int_max_str_digits "req_1" 1) as Hr
    by (split; reflexivity).
  split; [exact Hr|]. do 4 (split; [discriminate|]).
  exact (RunnerMore.unknown_verb_is_ignored Example.json_dumps
           Example.itemsize Example.int_max_str_digits Example.table
           "req_1" "PING" ["x"] 1 Hr ltac:(discriminate) ltac:(discriminate)
           ltac:(discriminate) ltac:(discriminate)).
Defined.

Lemma die_marks_terminated_witness :
  wf 3 Example.table /\ 0 <= 1 < 3
  /\ exists flags,
       Example.handle_msg (identity 1) ["DIE"] Example.table
       = (Ok tt,
          Runner.with_FLAGS
            (<[1%nat := Z.lor flags 4]> (Runner.FLAGS Example.table))
            Example.table,
          [Log DEBUG; Log DEBUG; Send [identity 1; ""; "ACK"]])
       /\ has_flag TERMINATED (Z.lor flags 4) = true.
Proof.
  split; [exact table_wf|]. split; [lia|].
  destruct (RunnerMore.die_marks_terminated Example.json_dumps
              Example.itemsize Example.int_max_str_digits 3 Example.table 1
              [] table_wf ltac:(lia))
    as (flags & _ & H & Ht & _).
  exists flags. split; [exact H | exact Ht].
Defined.

Lemma run_id_beyond_the_table_raises_witness :
  wf 3 Example.table
  /\ reads_as Example.int_max_str_digits "req_9223372036854775808" (2 ^ 63)
  /\ (Z.of_nat 3 <= 2 ^ 63 \/ 2 ^ 63 < - Z.of_nat 3)
  /\ Example.itemsize (Runner.output_vars Example.table) <> 0%nat
  /\ String.length "xy" = Example.itemsize (Runner.output_vars Example.table)
  /\ String.length "12345678" = uint_itemsize
  /\ Example.handle_msg "req_9223372036854775808" ["READY"] Example.table
     = (Raise OverflowError, Example.table, [Log DEBUG])
  /\ Example.handle_msg "req_9223372036854775808" ["DATA"; "xy"]
       Example.table
     = (Raise OverflowError, Example.table, [Log DEBUG]).
Proof.
  assert (reads_as Example.int_max_str_digits "req_9223372036854775808"
            (2 ^ 63)) as Hr by (split; reflexivity).
  assert (Z.of_nat 3 <= 2 ^ 63 \/ 2 ^ 63 < - Z.of_nat 3) as Hout
    by (left; lia).
  assert (2 ^ 63 <= 2 ^ 63 < 2 ^ 64) as Hrange by lia.
  assert (Example.itemsize (Runner.output_vars Example.table) <> 0%nat)
    as Hsz by discriminate.
  split; [exact table_wf|]. split; [exact Hr|]. split; [exact Hout|].
  split; [exact Hsz|]. split; [reflexivity|]. split; [reflexivity|].
  destruct (RunnerMore.run_id_beyond_the_table_raises Example.json_dumps
              Example.itemsize Example.int_max_str_digits 3 Example.table
              "req_9223372036854775808" (2 ^ 63) "xy" "12345678" [] table_wf
              Hr Hout Hsz eq_refl eq_refl)
    as (e & H1 & H2 & _ & _ & Hov & _).
  rewrite (Hov Hrange) in H1, H2. split; [exact H1 | exact H2].
Defined.

Lemma poll_in_order_until_an_exception_witness :
  exists self1 t1,
    Runner.poll_loop Example.json_dumps Example.itemsize
      Example.int_max_str_digits [["req_1"; ""; "READY"]] Example.table
    = (Ok tt, self1, t1)
    /\ Runner.poll_loop Example.json_dumps Example.itemsize
         Example.int_max_str_digits
         ([["req_1"; ""; "READY"]] ++ [] :: [["req_2"; ""; "READY"]])%list
         Example.table
       = (Raise IndexError, self1, t1).
Proof.
  do 2 eexists. split; [reflexivity|].
  exact (proj2 (proj2 (RunnerMore.poll_in_order_until_an_exception
                         Example.json_dumps Example.itemsize
                         Example.int_max_str_digits [["req_1"; ""; "READY"]]
                         [["req_2"; ""; "READY"]] Example.table _ _
                         eq_refl))).
Defined.

Lemma other_addresses_of_a_run_witness :
  wf 3 Example.table /\ 0 <= 1 < 3
  /\ reads_as Example.int_max_str_digits "req_+1" 1
  /\ Example.handle_msg "req_+1" ["DATA"; "xy"] Example.table
     = (let '(r, self', t) :=
          Example.handle_msg (identity 1) ["DATA"; "xy"] Example.table in
        (r, self', List.map (readdress "req_+1") t)).
Proof.
  split; [exact table_wf|]. split; [lia|].
  destruct (RunnerMore.other_addresses_of_a_run Example.json_dumps
              Example.itemsize Example.int_max_str_digits 3 Example.table 1
              "req_+1" table_wf ltac:(lia) (or_introl eq_refl))
    as [Hr H].
  split; [exact Hr|].
  destruct (Example.handle_msg (identity 1) ["DATA"; "xy"] Example.table)
    as [[r self'] t] eqn:E.
  exact (H _ _ _ _ E).
Defined.

Lemma data_and_time_requests_end_in_two_ways_witness :
  ("TIME" = "DATA" \/ "TIME" = "TIME")
  /\ ("TIME" = "TIME" -> 0 <= Worker.time Example.worker < 2 ^ 64)
  /\ 0 <= Worker.retries Example.worker
  /\ Forall framed Example.late_ACK
  /\ let '(o, self', t) :=
       Example.request Example.late_ACK "TIME" Example.worker in
     match o with
     | Worker.Returned => self' = Worker.with_connected true Example.worker
     | Worker.Raised e =>
         e = ConnectionError
         /\ self' = Worker.with_connected false Example.worker
         /\ Z.of_nat (sleeps t) = Worker.retries Example.worker + 1
     | Worker.Waiting k =>
         self' = Worker.with_connected true Example.worker
         /\ k = Z.of_nat (sleeps t) /\ k <= Worker.retries Example.worker
     end.
Proof.
  assert (Forall framed Example.late_ACK) as Hf
    by (repeat constructor; discriminate).
  assert ("TIME" = "TIME" -> 0 <= Worker.time Example.worker < 2 ^ 64)
    as Ht by (intros _; cbn; lia).
  assert (0 <= Worker.retries Example.worker) as Hr by discriminate.
  split; [by right|]. split; [exact Ht|]. split; [exact Hr|].
  split; [exact Hf|].
  exact (WorkerMore.data_and_time_requests_end_in_two_ways
           Example.json_loads Example.np_dtype Example.worker "TIME"
           Example.late_ACK (or_intror eq_refl) Ht Hr Hf).
Defined.

Lemma ready_malformed_is_not_counted_witness :
  0 <= Worker.retries Example.worker
  /\ length ["NAK"] <> 3%nat
  /\ Worker.attempt Example.json_loads Example.np_dtype "READY" 0
       (Worker.Reply ["NAK"]) Example.worker
     = (Ok (Worker.Continue 0), Worker.with_connected true Example.worker,
        malformed_round ["READY"]).
Proof.
  assert (0 <= Worker.retries Example.worker) as Hr by discriminate.
  assert (length ["NAK"] <> 3%nat) as Hl by discriminate.
  split; [exact Hr|]. split; [exact Hl|].
  exact (WorkerMore.ready_malformed_is_not_counted Example.json_loads
           Example.np_dtype Example.worker 0 ["NAK"] Hr (or_introl Hl)).
Defined.

Lemma ready_output_column_needs_a_shape_witness :
  Example.json_loads (Example.dumps Example.fields_in)
  = Some (Schema.listify Example.fields_in)
  /\ Example.json_loads (Example.dumps Example.fields_out_unshaped)
     = Some (Schema.listify Example.fields_out_unshaped)
  /\ Example.request
       [Worker.Reply [Example.dumps Example.fields_in; "abcdefgh";
                      Example.dumps Example.fields_out_unshaped]]
       "READY" Example.worker
     = (Worker.Raised IndexError, Worker.with_connected true Example.worker,
        (reconnection (Worker.connected Example.worker)
         ++ [Send ["READY"]; Log DEBUG])%list).
Proof.
  split; [reflexivity|]. split; [reflexivity|].
  assert (Forall (fun c => exists l, PyVal.iter c = Ok l)
            [PyVal.PyList [Example.str "x"; Example.str "float64"]]) as Hall
    by (repeat constructor; by eexists).
  assert (length [Example.str "f"; Example.str "float64"] < 3)%nat as Hlen
    by (cbn; lia).
  exact (WorkerMore.ready_output_column_needs_a_shape Example.json_loads
           Example.np_dtype Example.worker
           (Example.dumps Example.fields_in) "abcdefgh"
           (Example.dumps Example.fields_out_unshaped)
           (Schema.listify Example.fields_in)
           [PyVal.PyList [Example.str "x"; Example.str "float64"]]
           [Example.str "f"; Example.str "float64"] [] []
           eq_refl eq_refl Hall eq_refl Hlen).
Defined.

Lemma ready_takes_the_first_record_witness :
  Worker.receive_READY Example.json_loads Example.np_dtype
    [Example.dumps Example.fields_in; "abcdefghABCDEFGH";
     Example.dumps Example.fields_out]
    Example.worker
  = (Ok tt,
     Worker.with_output (Bytes.zeros 8)
       (Worker.with_input "abcdefgh" Example.worker),
     [Log INFO; Log DEBUG])
  /\ Example.np_dtype
       [PyVal.PyTuple [Example.str "x"; Example.str "float64"]] = Ok 8%nat.
Proof.
  split; [|reflexivity].
  apply (proj2 (WorkerMore.ready_takes_the_first_record Example.json_loads
                  Example.np_dtype Example.worker _
                  (Example.dumps Example.fields_in) "abcdefghABCDEFGH"
                  (Example.dumps Example.fields_out) _)).
  exists [PyVal.PyTuple [Example.str "x"; Example.str "float64"]],
    [PyVal.PyTuple [Example.str "f"; Example.str "float64";
                    PyVal.PyTuple [PyVal.PyInt 1]]],
    8%nat, 8%nat.
  repeat split; try reflexivity; try discriminate. cbn. lia.
Defined.

Lemma transmit_acknowledged_witness :
  Z.of_nat 1 <= Worker.retries Example.worker
  /\ Z.of_nat 2 <= Worker.retries Example.worker
  /\ exists t,
       Session.transmit Example.json_loads Example.np_dtype
         (repeat Worker.Timeout 1 ++ Worker.Reply ["ACK"]
          :: repeat Worker.Timeout 2 ++ Worker.Reply ["ACK"] :: [])%list
         Example.worker
       = (Worker.Returned, Worker.with_connected false Example.worker, t)
       /\ sleeps t = 3%nat.
Proof.
  split; [cbn; lia|]. split; [cbn; lia|].
  destruct (SessionFacts.transmit_acknowledged Example.json_loads
              Example.np_dtype Example.worker 1 2 [] [] []
              ltac:(cbn; lia) ltac:(cbn; lia))
    as (t & H & _ & Hs & _).
  exists t. split; [exact H | exact Hs].
Defined.

Lemma transmit_gives_up_witness :
  0 <= Worker.retries Example.worker
  /\ exists t,
       Session.transmit Example.json_loads Example.np_dtype
         (repeat Worker.Timeout 4 ++ [Worker.Reply ["ACK"]])%list
         Example.worker
       = (Worker.Raised ConnectionError,
          Worker.with_connected false Example.worker, t)
       /\ sends t = repeat (Worker.message "TIME" Example.worker) 4.
Proof.
  split; [discriminate|].
  exact (proj1 (SessionFacts.transmit_gives_up Example.json_loads
                  Example.np_dtype Example.worker 0 []
                  [Worker.Reply ["ACK"]] ltac:(discriminate))).
Defined.

Lemma retrieve_with_a_reply_witness :
  (exists s1 t1,
     Worker.receive_READY Example.json_loads Example.np_dtype
       [Example.dumps Example.fields_in; "abcdefgh";
        Example.dumps Example.fields_out]
       (Worker.with_connected true Example.worker)
     = (Ok tt, s1, t1)
     /\ Session.retrieve Example.json_loads Example.np_dtype
          [Worker.Reply [Example.dumps Example.fields_in; "abcdefgh";
                         Example.dumps Example.fields_out]]
          Example.worker
        = (Worker.Returned, Worker.with_connected false s1,
           ([Connect; Log INFO; Send ["READY"]; Log DEBUG] ++ t1
            ++ [Close])%list)
     /\ Worker.input s1 = "abcdefgh")
  /\ (exists s1 t1,
        Worker.receive_READY Example.json_loads Example.np_dtype
          [Example.dumps Example.fields_in; "abcdefgh";
           Example.dumps Example.fields_out_unshaped]
          (Worker.with_connected true Example.worker)
        = (Raise IndexError, s1, t1)
        /\ IndexError <> ValueError /\ IndexError <> AssertionError
        /\ Worker.connected s1 = true).
Proof.
  split.
  - do 2 eexists. split; [reflexivity|]. split; [|reflexivity].
    exact (proj1 (SessionFacts.retrieve_with_a_reply Example.json_loads
                    Example.np_dtype Example.worker
                    (Example.dumps Example.fields_in) "abcdefgh"
                    (Example.dumps Example.fields_out) [])
             _ _ eq_refl).
  - do 2 eexists. split; [reflexivity|].
    split; [discriminate|]. split; [discriminate|].
    exact (proj1 (proj2
             (proj2 (proj2 (SessionFacts.retrieve_with_a_reply
                              Example.json_loads Example.np_dtype
                              Example.worker
                              (Example.dumps Example.fields_in) "abcdefgh"
                              (Example.dumps Example.fields_out_unshaped)
                              []))
                _ _ _ eq_refl ltac:(discriminate) ltac:(discriminate)))).
Defined.

Lemma clean_after_request_witness :
  Worker.connected Example.worker = false
  /\ let '(o, self', t) :=
       Example.request Example.late_ACK "DATA" Example.worker in
     let '(r, self'', t') := Session.clean self' in
     r = Ok tt
     /\ Worker.connected self'' = false
     /\ opened (t ++ t')%list = closed (t ++ t')%list
     /\ Session.clean self'' = (Ok tt, self'', []).
Proof.
  split; [reflexivity|].
  exact (SessionFacts.clean_after_request Example.json_loads Example.np_dtype
           Example.worker "DATA" Example.late_ACK eq_refl).
Defined.

Lemma transmit_reaches_the_table_witness :
  wf 3 Example.table /\ 0 <= 1 < Z.of_nat 3
  /\ String.length (Worker.output Example.worker)
     = Example.itemsize (Runner.output_vars Example.table)
  /\ Example.itemsize (Runner.output_vars Example.table) <> 0%nat
  /\ 0 <= Worker.time Example.worker < 2 ^ 32
  /\ exists (table1 table2 : Runner.runner Example.schema) t1 t2 t,
       Example.handle_msg (identity 1)
         (Worker.message "TIME" Example.worker) Example.table
       = (Ok tt, table1, t1)
       /\ Example.handle_msg (identity 1)
            (Worker.message "DATA" Example.worker) table1
          = (Ok tt, table2, t2)
       /\ Session.transmit Example.json_loads Example.np_dtype
            (delivered (t1 ++ t2)) Example.worker
          = (Worker.Returned, Worker.with_connected false Example.worker, t)
       /\ Runner.TIME table2 !! 1%nat = Some 5
       /\ Runner.output table2 !! 1%nat = Some "oo"
       /\ Runner.DONE table2 !! 1%nat = Some true.
Proof.
  assert (0 <= Worker.time Example.worker < 2 ^ 32) as Htime by (cbn; lia).
  assert (0 <= 1 < Z.of_nat 3) as Hrun by lia.
  assert (Example.itemsize (Runner.output_vars Example.table) <> 0%nat)
    as Hsz by discriminate.
  split; [exact table_wf|]. split; [exact Hrun|]. split; [reflexivity|].
  split; [exact Hsz|]. split; [exact Htime|].
  destruct (Exchange.transmit_reaches_the_table Example.json_dumps
              Example.itemsize Example.int_max_str_digits Example.json_loads
              Example.np_dtype 3 Example.table Example.worker 1 table_wf
              Hrun eq_refl Hsz Htime)
    as (table1 & table2 & t1 & t2 & t & H1 & H2 & Htr & _ & Ht & Ho & Hd & _).
  exists table1, table2, t1, t2, t.
  split; [exact H1|]. split; [exact H2|]. split; [exact Htr|].
  split; [exact Ht|]. split; [exact Ho | exact Hd].
Defined.

Lemma campaign_wf : wf 3 Example.campaign.
Proof. unfold wf. repeat split; reflexivity. Defined.

Lemma retrieve_gets_the_input_of_the_run_witness :
  wf 3 Example.campaign /\ 0 <= 1 < Z.of_nat 3
  /\ Runner.input Example.campaign !! Z.to_nat 1 = Some "input 1."
  /\ Schema.decode Example.json_loads Schema.input_column
       (Example.dumps (Runner.input_vars Example.campaign))
     = Ok [PyVal.PyTuple [Example.str "x"; Example.str "float64"]]
  /\ Schema.decode Example.json_loads Schema.output_column
       (Example.dumps (Runner.output_vars Example.campaign))
     = Ok [PyVal.PyTuple [Example.str "f"; Example.str "float64";
                          PyVal.PyTuple [PyVal.PyInt 1]]]
  /\ Example.np_dtype
       [PyVal.PyTuple [Example.str "x"; Example.str "float64"]]
     = Ok (String.length "input 1.")
  /\ String.length "input 1." <> 0%nat
  /\ Example.np_dtype
       [PyVal.PyTuple [Example.str "f"; Example.str "float64";
                       PyVal.PyTuple [PyVal.PyInt 1]]]
     = Ok 8%nat
  /\ exists t1 t,
       Session.retrieve Example.json_loads Example.np_dtype (delivered t1)
         Example.worker
       = (Worker.Returned,
          Worker.with_connected false
            (Worker.with_output (Bytes.zeros 8)
               (Worker.with_input "input 1." Example.worker)),
          t)
       /\ received (identity 1) t = [[identity 1; ""; "READY"]].
Proof.
  assert (0 <= 1 < Z.of_nat 3) as Hrun by lia.
  assert (String.length "input 1." <> 0%nat) as H0 by discriminate.
  split; [exact campaign_wf|]. split; [exact Hrun|].
  do 3 (split; [reflexivity|]). split; [reflexivity|]. split; [exact H0|].
  split; [reflexivity|].
  destruct (Exchange.retrieve_gets_the_input_of_the_run Example.dumps
              (Schema.dtype_itemsize Example.np_dtype)
              Example.int_max_str_digits Example.json_loads Example.np_dtype
              3 Example.campaign Example.worker 1 "input 1."
              [PyVal.PyTuple [Example.str "x"; Example.str "float64"]]
              [PyVal.PyTuple [Example.str "f"; Example.str "float64";
                              PyVal.PyTuple [PyVal.PyInt 1]]]
              8%nat campaign_wf Hrun eq_refl eq_refl eq_refl eq_refl H0
              eq_refl)
    as (flags & t1 & t & _ & _ & Hret & Hrecv & _).
  exists t1, t. split; [exact Hret | exact Hrecv].
Defined.


Lemma first_level_component_has_its_own_registry_witness :
  Registry.component Registry.Component = "Component"
  /\ exists h',
       Registry.define "RunnerInterface" Registry.Component None
         Registry.start
       = (Ok Example.RunnerInterface, h', [])
       /\ Registry.dicts h' 1%nat
          = [("RunnerInterface", Example.RunnerInterface)]
       /\ Registry.dicts h' 0%nat = [].
Proof.
  split; [reflexivity|].
  destruct (RegistryFacts.first_level_component_has_its_own_registry
              Registry.start "RunnerInterface" Registry.Component None
              eq_refl)
    as (h' & Hdef & _ & Hd & Hother & _).
  exists h'. split; [exact Hdef|]. split; [exact Hd|].
  exact (Hother 0%nat ltac:(discriminate)).
Defined.

Lemma labelled_subclass_is_registered_with_its_base_witness :
  Registry.component Example.RunnerInterface <> "Component"
  /\ exists cls h',
       Registry.define "ZeroMQRunnerInterface" Example.RunnerInterface
         (Some "zeromq") Example.classes
       = (Ok cls, h', [])
       /\ Registry.class_getitem Example.RunnerInterface "zeromq" h'
          = (Ok cls, h', [])
       /\ Registry.labels Example.RunnerInterface h'
          = (Ok ["RunnerInterface"; "zeromq"], h', []).
Proof.
  split; [discriminate|].
  destruct (RegistryFacts.labelled_subclass_is_registered_with_its_base
              Example.classes "ZeroMQRunnerInterface" Example.RunnerInterface
              "zeromq" ltac:(discriminate))
    as (h' & Hdef & _ & Hget & _ & _ & Hlabels).
  eexists _, h'. split; [exact Hdef|]. split; [exact Hget | exact Hlabels].
Defined.

Lemma unlabelled_subclass_is_not_registered_witness :
  Registry.wf Example.classes
  /\ Registry.component Example.RunnerInterface <> "Component"
  /\ exists cls h',
       Registry.define "Helper" Example.RunnerInterface None Example.classes
       = (Ok cls, h', [])
       /\ Registry.label cls h' = (Raise KeyError, h', []).
Proof.
  split; [exact classes_wf|]. split; [discriminate|].
  destruct (RegistryFacts.unlabelled_subclass_is_not_registered
              Example.classes "Helper" Example.RunnerInterface classes_wf
              ltac:(discriminate))
    as (h' & Hdef & _ & _ & Hlabel).
  eexists _, h'. split; [exact Hdef | exact Hlabel].
Defined.

Lemma label_is_a_label_of_the_class_witness :
  Registry.wf Example.classes
  /\ Registry.label Example.RunnerInterface Example.classes
     = (Ok "RunnerInterface", Example.classes, [])
  /\ exists item,
       Registry.class_getitem Example.RunnerInterface "RunnerInterface"
         Example.classes
       = (Ok item, Example.classes, [])
       /\ Registry.same item Example.RunnerInterface = true.
Proof.
  split; [exact classes_wf|]. split; [reflexivity|].
  exact (proj2 (proj2 (RegistryFacts.label_is_a_label_of_the_class
                         Example.classes Example.classes
                         Example.RunnerInterface "RunnerInterface" []
                         classes_wf eq_refl))).
Defined.

Lemma define_keeps_the_heap_well_formed_witness :
  Registry.wf Registry.start
  /\ Registry.defined Registry.start Registry.Component
  /\ exists cls h' t,
       Registry.define "RunnerInterface" Registry.Component None
         Registry.start
       = (Ok cls, h', t)
       /\ Registry.wf h'
       /\ Registry.defined h' cls.
Proof.
  split; [exact RegistryFacts.wf_start|].
  split; [exact RegistryFacts.defined_start|].
  destruct (RegistryFacts.define_keeps_the_heap_well_formed Registry.start
              "RunnerInterface" Registry.Component None
              RegistryFacts.wf_start RegistryFacts.defined_start)
    as (cls & h' & t & Hdef & _ & Hwf & Hd & _).
  exists cls, h', t. split; [exact Hdef|]. split; [exact Hwf | exact Hd].
Defined.

Lemma one_label_in_two_registries_witness :
  Registry.component Registry.Component = "Component"
  /\ "RunnerInterface" <> "Component" /\ "WorkerInterface" <> "Component"
  /\ "zeromq" <> "RunnerInterface" /\ "zeromq" <> "WorkerInterface"
  /\ exists A B X Y h',
       (let* A := Registry.define "RunnerInterface" Registry.Component None in
        let* B := Registry.define "WorkerInterface" Registry.Component None in
        let* X := Registry.define "ZeroMQRunnerInterface" A (Some "zeromq") in
        let* Y := Registry.define "ZeroMQWorkerInterface" B (Some "zeromq") in
        ret (A, B, X, Y))%py Registry.start
       = (Ok (A, B, X, Y), h', [])
       /\ Registry.class_getitem A "zeromq" h' = (Ok X, h', [])
       /\ Registry.class_getitem B "zeromq" h' = (Ok Y, h', [])
       /\ Registry.same X Y = false.
Proof.
  split; [reflexivity|]. do 4 (split; [discriminate|]).
  destruct (RegistryFacts.one_label_in_two_registries Registry.start
              Registry.Component "RunnerInterface" "WorkerInterface"
              "ZeroMQRunnerInterface" "ZeroMQWorkerInterface" "zeromq"
              eq_refl ltac:(discriminate) ltac:(discriminate)
              ltac:(discriminate) ltac:(discriminate))
    as (A & B & X & Y & h' & Hrun & HA & HB & Hs & _).
  exists A, B, X, Y, h'.
  split; [exact Hrun|]. split; [exact HA|]. split; [exact HB | exact Hs].
Defined.

End WitnessMore.
